(** * cLang-8 dataset preparation: a shallow embedding of
      [prepare_clang8_dataset.py] and the properties of its join pipeline.

    The script combines the cLang-8 targets with the Lang-8 raw corpus:
    [_read_clang8_targets] builds a dictionary from the targets file,
    [_yield_lang8_raw_dicts] streams the JSON rows of the raw corpus,
    [_yield_clang8_source_target_pairs] joins both, [_tokenize] optionally
    runs spaCy over the pairs and [_write_source_target_pairs_to_tsv]
    writes them out.  [_prepare_clang8] sequences these for one language.

    Modelling conventions.
    - Python values that flow through the script are the values that
      [json.loads] can build, plus strings read from files: type [value].
    - Text is a [string] of bytes: the UTF-8 encoding of the Python [str].
      What Python does by character is done here by UTF-8 sequence: the line
      boundaries of [str.splitlines], the white space and the decimal digits
      of [int] (as of Unicode 14, the tables of CPython 3.11), iterating over
      and indexing into a [str].  A file holds the encoding of its decoded
      text; a file that does not decode is not modelled.
    - Exceptions are values of [exception]; a computation that may raise
      returns a [result].
    - A generator is the finite sequence of things it does when it is run to
      its end: the items it yields and the events (files opened, messages
      printed) it causes, followed by how it stops.  A consumer that fails
      early simply ignores the rest of the sequence, which is what happens to
      a Python generator that is abandoned.
    - The file system is a finite map from paths to file contents, on a
      POSIX system: paths are joined with a slash and a written line feed is
      stored as it is.  Opening a file for reading fails when the path is not
      in the map.  Opening one for writing creates or truncates it, unless
      the system refuses the path (its directory is missing, say); which
      paths it refuses, and with which exception, does not change while the
      script runs, since the script creates no directory.
    - The progress bars of tqdm draw on the terminal only; they are no
      events.  The counter of the bar of the join is kept, since the join
      prints it.
    - [json.loads], [spacy.load] and the system's answer to opening a path
      for writing are external: they are the fields of the class
      [Externals].  [json.loads] may raise any exception; the script catches
      [JSONDecodeError] only.  [Json.loads] implements it for the fragment of
      JSON without fractions, exponents, [\u] escapes and nesting beyond the
      interpreter's recursion limit; it is used to run the script on
      concrete files. *)

From Stdlib Require Import String Ascii ZArith List Lia Bool.
From Stdlib Require Import SpecFloat.
From stdpp Require Import base option list gmap strings.

Open Scope string_scope.
Open Scope list_scope.

Set Warnings "-register-all".

(** ** Exceptions and results *)

Inductive value_error :=
  | Not_enough_values      (* "not enough values to unpack" *)
  | Too_many_values        (* "too many values to unpack" *)
  | Invalid_literal        (* "invalid literal for int() with base 10" *)
  | Exceeds_digit_limit    (* "Exceeds the limit (4300 digits) for integer string conversion" *)
  | Cannot_convert_nan     (* "cannot convert float NaN to integer" *)
  | Unsupported_language (language : string).

Inductive exception :=
  | ValueError (why : value_error)
  | TypeError
  | IndexError
  | KeyError
  | OverflowError
  | AttributeError
  | FileNotFoundError
  | OSError
  | JSONDecodeError
  | RecursionError.

Inductive result (A : Type) :=
  | Ok (a : A)
  | Raise (e : exception).
Arguments Ok {A} a.
Arguments Raise {A} e.

#[global] Instance result_ret : MRet result := fun A a => Ok a.
#[global] Instance result_bind : MBind result := fun A B f m =>
  match m with
  | Ok a => f a
  | Raise e => Raise e
  end.

#[global] Instance result_fmap : FMap result := fun A B f m =>
  match m with
  | Ok a => Ok (f a)
  | Raise e => Raise e
  end.

Definition is_ok {A} (r : result A) : bool :=
  match r with Ok _ => true | Raise _ => false end.

(** ** Python's string primitives *)

Module Py.

Definition tab : ascii := "009"%char.
Definition lf : ascii := "010"%char.
Definition cr : ascii := "013"%char.
Definition space : ascii := " "%char.
Definition quote : ascii := "034"%char.

(** [s.split(sep)] for a one-character separator: always at least one
    field, empty fields kept. *)
Fixpoint split (sep : ascii) (s : string) : list string :=
  match s with
  | EmptyString => [EmptyString]
  | String c s' =>
      if Ascii.eqb c sep then EmptyString :: split sep s'
      else match split sep s' with
           | field :: fields => String c field :: fields
           | [] => [String c EmptyString]
           end
  end.

(** [s.replace(old, new)] for one-character [old] and [new]. *)
Fixpoint replace (old new : ascii) (s : string) : string :=
  match s with
  | EmptyString => EmptyString
  | String c s' => String (if Ascii.eqb c old then new else c) (replace old new s')
  end.

(** [sep.join(parts)]. *)
Fixpoint join (sep : string) (parts : list string) : string :=
  match parts with
  | [] => EmptyString
  | [p] => p
  | p :: ps => p +:+ sep +:+ join sep ps
  end.

(** Reading a file opened in text mode with the default [newline=None]:
    "\r\n" and a lone "\r" both become "\n". *)
Fixpoint universal_newlines (after_cr : bool) (s : string) : string :=
  match s with
  | EmptyString => EmptyString
  | String c s' =>
      if Ascii.eqb c cr then String lf (universal_newlines true s')
      else if Ascii.eqb c lf && after_cr then universal_newlines false s'
      else String c (universal_newlines false s')
  end.

Definition read_text (content : string) : string :=
  universal_newlines false content.

(** The line boundaries of [str.splitlines]: the ASCII ones (line feed,
    vertical tab, form feed, carriage return, file, group and record
    separator), and in UTF-8 the next line U+0085 and the line and paragraph
    separators U+2028 and U+2029. *)
Definition is_linebreak (c : ascii) : bool :=
  match nat_of_ascii c with
  | 10 | 11 | 12 | 13 | 28 | 29 | 30 => true
  | _ => false
  end.

Definition is_next_line (c1 c2 : ascii) : bool :=
  Ascii.eqb c1 "194"%char && Ascii.eqb c2 "133"%char.

Definition is_separator (c1 c2 c3 : ascii) : bool :=
  Ascii.eqb c1 "226"%char && Ascii.eqb c2 "128"%char &&
  (Ascii.eqb c3 "168"%char || Ascii.eqb c3 "169"%char).

(** The character [c] in front of the lines of what follows it. *)
Definition line_cons (c : ascii) (lines : list string) : list string :=
  match lines with
  | line :: lines => String c line :: lines
  | [] => [String c EmptyString]
  end.

(** [s.splitlines()]: terminators dropped, "\r\n" is one boundary, no empty
    last line after a final terminator. *)
Fixpoint splitlines_from (after_cr : bool) (s : string) : list string :=
  match s with
  | EmptyString => []
  | String c s' =>
      if Ascii.eqb c lf && after_cr then splitlines_from false s'
      else if is_linebreak c then EmptyString :: splitlines_from (Ascii.eqb c cr) s'
      else
        match s' with
        | String c2 s2 =>
            if is_next_line c c2 then EmptyString :: splitlines_from false s2
            else
              match s2 with
              | String c3 s3 =>
                  if is_separator c c2 c3
                  then EmptyString :: splitlines_from false s3
                  else line_cons c (splitlines_from false s')
              | EmptyString => line_cons c (splitlines_from false s')
              end
        | EmptyString => line_cons c (splitlines_from false s')
        end
  end.

Definition splitlines (s : string) : list string := splitlines_from false s.

(** [for line in f]: the lines of the text, each with its "\n" when it has
    one. *)
Fixpoint iter_lines (s : string) : list string :=
  match s with
  | EmptyString => []
  | String c s' =>
      if Ascii.eqb c lf then String c EmptyString :: iter_lines s'
      else match iter_lines s' with
           | line :: lines => String c line :: lines
           | [] => [String c EmptyString]
           end
  end.

(** [os.path.join(dir, name)] for a relative [name] on a POSIX system. *)
Fixpoint ends_with_slash (s : string) : bool :=
  match s with
  | EmptyString => false
  | String c EmptyString => Ascii.eqb c "/"%char
  | String _ s' => ends_with_slash s'
  end.

Definition path_join (dir name : string) : string :=
  match dir with
  | EmptyString => name
  | _ => if ends_with_slash dir then dir +:+ name else dir +:+ "/" +:+ name
  end.

(** *** The characters of a [str] *)

(** A byte that continues a UTF-8 sequence, and the six bits it carries. *)
Definition continuation (b : ascii) : option N :=
  let n := N_of_ascii b in
  if ((128 <=? n) && (n <? 192))%N then Some (n - 128)%N else None.

Definition continues (s : string) : bool :=
  match s with
  | String b _ => bool_decide (is_Some (continuation b))
  | EmptyString => false
  end.

(** The characters of a text, each as the string of its bytes: a byte that
    starts a sequence, with the continuation bytes that follow it. *)
Fixpoint chars (s : string) : list string :=
  match s with
  | EmptyString => []
  | String b r =>
      if continues r then
        match chars r with
        | c :: cs => String b c :: cs
        | [] => [String b EmptyString]
        end
      else String b EmptyString :: chars r
  end.

(** The code point that stands for bytes that are no UTF-8 sequence. *)
Definition replacement_character : N := 65533.

(** The code points of a text. *)
Fixpoint code_points (s : list ascii) : list N :=
  match s with
  | [] => []
  | b :: r =>
      let n := N_of_ascii b in
      if (n <? 128)%N then n :: code_points r
      else
        match r with
        | b1 :: r1 =>
            match continuation b1 with
            | Some x1 =>
                if ((192 <=? n) && (n <? 224))%N
                then ((n - 192) * 64 + x1)%N :: code_points r1
                else
                  match r1 with
                  | b2 :: r2 =>
                      match continuation b2 with
                      | Some x2 =>
                          if ((224 <=? n) && (n <? 240))%N
                          then ((n - 224) * 4096 + x1 * 64 + x2)%N :: code_points r2
                          else
                            match r2 with
                            | b3 :: r3 =>
                                match continuation b3 with
                                | Some x3 =>
                                    if ((240 <=? n) && (n <? 248))%N
                                    then ((n - 240) * 262144 + x1 * 4096 + x2 * 64 + x3)%N
                                         :: code_points r3
                                    else replacement_character :: code_points r
                                | None => replacement_character :: code_points r
                                end
                            | [] => replacement_character :: code_points r
                            end
                      | None => replacement_character :: code_points r
                      end
                  | [] => replacement_character :: code_points r
                  end
            | None => replacement_character :: code_points r
            end
        | [] => replacement_character :: code_points r
        end
  end.

(** *** [int] of a string *)

(** The characters beyond ASCII for which [str.isspace] holds. *)
Definition unicode_spaces : list N :=
  [133; 160; 5760; 8192; 8193; 8194; 8195; 8196; 8197; 8198; 8199; 8200;
   8201; 8202; 8232; 8233; 8239; 8287; 12288]%N.

(** The digit zero of every script that has decimal digits beyond ASCII;
    the digits one to nine follow it. *)
Definition decimal_zeros : list N :=
  [1632; 1776; 1984; 2406; 2534; 2662; 2790; 2918; 3046; 3174; 3302; 3430;
   3558; 3664; 3792; 3872; 4160; 4240; 6112; 6160; 6470; 6608; 6784; 6800;
   6992; 7088; 7232; 7248; 42528; 43216; 43264; 43472; 43504; 43600; 44016;
   65296; 66720; 68912; 69734; 69872; 69942; 70096; 70384; 70736; 70864;
   71248; 71360; 71472; 71904; 72016; 72784; 73040; 73120; 92768; 92864;
   93008; 120782; 120792; 120802; 120812; 120822; 123200; 123632; 125264;
   130032]%N.

Definition unicode_decimal (cp : N) : option N :=
  (fun zero => cp - zero)%N <$>
  find (fun zero => (zero <=? cp) && (cp <? zero + 10))%N decimal_zeros.

(** What [int] makes of a character before it parses: white space becomes a
    space, a decimal digit its ASCII digit, and any other character beyond
    ASCII one that no number contains. *)
Definition ascii_decimal (cp : N) : ascii :=
  if (cp <? 127)%N then ascii_of_N cp
  else if bool_decide (cp ∈ unicode_spaces) then space
  else match unicode_decimal cp with
       | Some d => ascii_of_N (48 + d)
       | None => "?"%char
       end.

Definition ascii_decimals (s : list ascii) : list ascii :=
  if forallb (fun b => N_of_ascii b <? 128)%N s then s
  else map ascii_decimal (code_points s).

(** ASCII white space as [int] strips it. *)
Definition is_space (c : ascii) : bool :=
  match nat_of_ascii c with
  | 9 | 10 | 11 | 12 | 13 | 32 => true
  | _ => false
  end.

Definition digit_of (c : ascii) : option Z :=
  let n := nat_of_ascii c in
  if (48 <=? n)%nat && (n <=? 57)%nat then Some (Z.of_nat (n - 48)) else None.

Fixpoint lstrip (s : list ascii) : list ascii :=
  match s with
  | c :: s' => if is_space c then lstrip s' else s
  | [] => []
  end.

Definition strip (s : list ascii) : list ascii :=
  rev (lstrip (rev (lstrip s))).

(** The run of digits and underscores at the start of [s]: its value, the
    number of its digits and what follows it; [None] when two underscores
    meet or an underscore ends the run. *)
Fixpoint digits (acc : Z) (count : N) (after_underscore : bool) (s : list ascii) :
    option (Z * N * list ascii) :=
  match s with
  | [] => if after_underscore then None else Some (acc, count, [])
  | c :: s' =>
      match digit_of c with
      | Some d => digits (10 * acc + d) (count + 1) false s'
      | None =>
          if after_underscore then None
          else if Ascii.eqb c "_"%char then digits acc count true s'
          else Some (acc, count, s)
      end
  end.

(** [sys.get_int_max_str_digits()], as Python 3.11 sets it. *)
Definition int_max_str_digits : N := 4300.

(** A number without its sign: no underscore in front, at most
    [int_max_str_digits] digits, at least one, and nothing behind them. *)
Definition magnitude_of_str (ds : list ascii) : result Z :=
  match ds with
  | "_"%char :: _ => Raise (ValueError Invalid_literal)
  | _ =>
      match digits 0 0 false ds with
      | None => Raise (ValueError Invalid_literal)
      | Some (z, count, rest) =>
          if (int_max_str_digits <? count)%N
          then Raise (ValueError Exceeds_digit_limit)
          else if (count =? 0)%N then Raise (ValueError Invalid_literal)
          else match rest with
               | [] => Ok z
               | _ :: _ => Raise (ValueError Invalid_literal)
               end
      end
  end.

Definition int_of_str (s : string) : result Z :=
  match strip (ascii_decimals (list_ascii_of_string s)) with
  | "-"%char :: ds => Z.opp <$> magnitude_of_str ds
  | "+"%char :: ds => magnitude_of_str ds
  | ds => magnitude_of_str ds
  end.

(** [int] of a float: truncation towards zero. *)
Definition int_of_float (f : spec_float) : result Z :=
  match f with
  | S754_zero _ => Ok 0%Z
  | S754_infinity _ => Raise OverflowError
  | S754_nan => Raise (ValueError Cannot_convert_nan)
  | S754_finite sign m e =>
      let magnitude :=
        match e with
        | Z0 => Zpos m
        | Zpos p => Z.shiftl (Zpos m) (Zpos p)
        | Zneg p => Z.shiftr (Zpos m) (Zpos p)
        end in
      Ok (if sign then Z.opp magnitude else magnitude)
  end.

End Py.

(** ** Python values *)

(** What [json.loads] builds: [None], booleans, integers, floats, strings,
    lists and dictionaries (string keys, in insertion order). *)
Inductive value :=
  | VNone
  | VBool (b : bool)
  | VInt (z : Z)
  | VFloat (f : spec_float)
  | VStr (s : string)
  | VList (items : list value)
  | VDict (entries : list (string * value)).

(** [int(v)]. *)
Definition py_int (v : value) : result Z :=
  match v with
  | VInt z => Ok z
  | VBool b => Ok (if b then 1 else 0)%Z
  | VFloat f => Py.int_of_float f
  | VStr s => Py.int_of_str s
  | VNone | VList _ | VDict _ => Raise TypeError
  end.

(** [iter(v)], run to its end: the elements of a list, the keys of a
    dictionary, the characters of a string. *)
Definition py_iter (v : value) : result (list value) :=
  match v with
  | VList items => Ok items
  | VDict entries => Ok (map (fun kv => VStr (fst kv)) entries)
  | VStr s => Ok (map VStr (Py.chars s))
  | VNone | VBool _ | VInt _ | VFloat _ => Raise TypeError
  end.

(** [seq[i]] on a sequence: negative indices count from the end. *)
Definition seq_getitem {A} (seq : list A) (i : Z) : result A :=
  let len := Z.of_nat (length seq) in
  let j := (if i <? 0 then i + len else i)%Z in
  if ((j <? 0) || (len <=? j))%Z then Raise IndexError
  else match seq !! Z.to_nat j with
       | Some x => Ok x
       | None => Raise IndexError
       end.

(** [v[i]] for an integer [i].  No key of a dictionary built from JSON is an
    integer, so the lookup in a dictionary always raises [KeyError]. *)
Definition py_getitem (v : value) (i : Z) : result value :=
  match v with
  | VList items => seq_getitem items i
  | VStr s => VStr <$> seq_getitem (Py.chars s) i
  | VDict _ => Raise KeyError
  | VNone | VBool _ | VInt _ | VFloat _ => Raise TypeError
  end.

(** ** A JSON reader for concrete runs

    [Json.loads] follows [json.loads] on documents made of objects, arrays,
    strings with the two-character escapes, integers, [true], [false] and
    [null] (and the constants [NaN], [Infinity], [-Infinity] that Python
    accepts).  A number with a fraction or an exponent, a [\u] escape and
    nesting deeper than the interpreter's recursion limit are outside this
    fragment; the first two are rejected here.  A text that is not JSON
    raises [JSONDecodeError]; an integer of more digits than [int] converts
    raises the [ValueError] of [int], which is no [JSONDecodeError]. *)

Module Json.

Definition is_ws (c : ascii) : bool :=
  match nat_of_ascii c with
  | 9 | 10 | 13 | 32 => true
  | _ => false
  end.

Fixpoint skip_ws (s : list ascii) : list ascii :=
  match s with
  | c :: s' => if is_ws c then skip_ws s' else s
  | [] => []
  end.

(** [after lit s]: what follows the literal [lit] at the start of [s]. *)
Fixpoint after (lit : list ascii) (s : list ascii) : option (list ascii) :=
  match lit, s with
  | [], _ => Some s
  | l :: lit', c :: s' => if Ascii.eqb l c then after lit' s' else None
  | _ :: _, [] => None
  end.

Definition unescape (c : ascii) : option ascii :=
  match nat_of_ascii c with
  | 34 => Some Py.quote
  | 92 => Some "\"%char
  | 47 => Some "/"%char
  | 98 => Some "008"%char
  | 102 => Some "012"%char
  | 110 => Some Py.lf
  | 114 => Some Py.cr
  | 116 => Some Py.tab
  | _ => None
  end.

Definition invalid {A} : result A := Raise JSONDecodeError.

(** The characters of a string up to its closing quote; control characters
    are refused, as in the default strict mode. *)
Fixpoint parse_string (s : list ascii) : result (string * list ascii) :=
  match s with
  | [] => invalid
  | c :: r =>
      if Ascii.eqb c Py.quote then Ok (EmptyString, r)
      else if Ascii.eqb c "\"%char then
        match r with
        | e :: r' =>
            match unescape e with
            | Some ch => '(str, r'') ← parse_string r'; Ok (String ch str, r'')
            | None => invalid
            end
        | [] => invalid
        end
      else if (nat_of_ascii c <? 32)%nat then invalid
      else '(str, r') ← parse_string r; Ok (String c str, r')
  end.

(** The digits at the start of [s]: their value, their number and what
    follows them. *)
Fixpoint take_digits (acc : Z) (count : N) (s : list ascii) : Z * N * list ascii :=
  match s with
  | c :: r =>
      match Py.digit_of c with
      | Some d => take_digits (10 * acc + d) (count + 1) r
      | None => (acc, count, s)
      end
  | [] => (acc, count, [])
  end.

(** The integer part of a number: a zero, or digits that start with
    another digit. *)
Definition parse_nat (s : list ascii) : result (Z * N * list ascii) :=
  match s with
  | c :: r =>
      match Py.digit_of c with
      | Some 0%Z => Ok (0%Z, 1%N, r)
      | Some d => Ok (take_digits d 1 r)
      | None => invalid
      end
  | [] => invalid
  end.

Definition starts_fraction (s : list ascii) : bool :=
  match s with
  | c :: _ => Ascii.eqb c "."%char || Ascii.eqb c "e"%char || Ascii.eqb c "E"%char
  | [] => false
  end.

(** An integer: the text of the number is matched first, then [int]
    converts it. *)
Definition parse_int (s : list ascii) : result (Z * list ascii) :=
  '(z, count, r) ← match s with
                   | c :: s' =>
                       if Ascii.eqb c "-"%char
                       then '(n, count, r) ← parse_nat s'; Ok (Z.opp n, count, r)
                       else parse_nat s
                   | [] => invalid
                   end;
  if starts_fraction r then invalid
  else if (Py.int_max_str_digits <? count)%N then Raise (ValueError Exceeds_digit_limit)
  else Ok (z, r).

(** [d[k] = v] on a dictionary kept in insertion order. *)
Fixpoint dict_set (k : string) (v : value) (d : list (string * value)) :
    list (string * value) :=
  match d with
  | [] => [(k, v)]
  | (k', v') :: d' =>
      if String.eqb k k' then (k, v) :: d' else (k', v') :: dict_set k v d'
  end.

Definition dict_of_pairs (pairs : list (string * value)) : list (string * value) :=
  fold_left (fun d kv => dict_set (fst kv) (snd kv) d) pairs [].

Fixpoint parse_value (fuel : nat) (s : list ascii) {struct fuel} :
    result (value * list ascii) :=
  match fuel with
  | O => invalid
  | S fuel =>
      match s with
      | [] => invalid
      | c :: r =>
          if Ascii.eqb c Py.quote then
            '(str, r') ← parse_string r; Ok (VStr str, r')
          else if Ascii.eqb c "["%char then
            match skip_ws r with
            | [] => invalid
            | c' :: r' =>
                if Ascii.eqb c' "]"%char then Ok (VList [], r')
                else '(items, r'') ← parse_items fuel (c' :: r');
                     Ok (VList items, r'')
            end
          else if Ascii.eqb c "{"%char then
            match skip_ws r with
            | [] => invalid
            | c' :: r' =>
                if Ascii.eqb c' "}"%char then Ok (VDict [], r')
                else '(pairs, r'') ← parse_members fuel (c' :: r');
                     Ok (VDict (dict_of_pairs pairs), r'')
            end
          else
            match after (list_ascii_of_string "null") s with
            | Some r' => Ok (VNone, r')
            | None =>
            match after (list_ascii_of_string "true") s with
            | Some r' => Ok (VBool true, r')
            | None =>
            match after (list_ascii_of_string "false") s with
            | Some r' => Ok (VBool false, r')
            | None =>
            match after (list_ascii_of_string "NaN") s with
            | Some r' => Ok (VFloat S754_nan, r')
            | None =>
            match after (list_ascii_of_string "Infinity") s with
            | Some r' => Ok (VFloat (S754_infinity false), r')
            | None =>
            match after (list_ascii_of_string "-Infinity") s with
            | Some r' => Ok (VFloat (S754_infinity true), r')
            | None => '(z, r') ← parse_int s; Ok (VInt z, r')
            end end end end end end
      end
  end
with parse_items (fuel : nat) (s : list ascii) {struct fuel} :
    result (list value * list ascii) :=
  match fuel with
  | O => invalid
  | S fuel =>
      '(v, r) ← parse_value fuel s;
      match skip_ws r with
      | [] => invalid
      | c :: r' =>
          if Ascii.eqb c "]"%char then Ok ([v], r')
          else if Ascii.eqb c ","%char then
            '(vs, r'') ← parse_items fuel (skip_ws r'); Ok (v :: vs, r'')
          else invalid
      end
  end
with parse_members (fuel : nat) (s : list ascii) {struct fuel} :
    result (list (string * value) * list ascii) :=
  match fuel with
  | O => invalid
  | S fuel =>
      match s with
      | [] => invalid
      | q :: r =>
          if Ascii.eqb q Py.quote then
            '(k, r1) ← parse_string r;
            match skip_ws r1 with
            | [] => invalid
            | c :: r2 =>
                if Ascii.eqb c ":"%char then
                  '(v, r3) ← parse_value fuel (skip_ws r2);
                  match skip_ws r3 with
                  | [] => invalid
                  | c' :: r4 =>
                      if Ascii.eqb c' "}"%char then Ok ([(k, v)], r4)
                      else if Ascii.eqb c' ","%char then
                        '(rest, r5) ← parse_members fuel (skip_ws r4);
                        Ok ((k, v) :: rest, r5)
                      else invalid
                  end
                else invalid
            end
          else invalid
      end
  end.

Definition loads (s : string) : result value :=
  let doc := skip_ws (list_ascii_of_string s) in
  '(v, r) ← parse_value (2 * length doc + 2) doc;
  match skip_ws r with
  | [] => Ok v
  | _ :: _ => invalid
  end.

End Json.

(** ** Events, generators and the outside world *)

Inductive message :=
  | Raw_documents_read (num_rows : nat)   (* "{num_rows} Lang-8 raw documents read." *)
  | Targets_read (num_targets : nat)      (* "{num_targets} cLang-8 targets read." *)
  | Sources_mapped (n : nat)              (* "{n} sources mapped to cLang-8 targets." *)
  | Tokenizing                            (* "Tokenizing..." *)
  | Wrote (output_path : string).         (* "Wrote the source-target pairs to: ..." *)

Inductive event :=
  | Open_read (path : string)
  | Open_write (path : string)
  | Print (m : message)
  | Spacy_load (model_path : string) (disable : list string).

(** One step of a running generator. *)
Inductive item (A : Type) :=
  | Event (e : event)
  | Yield (a : A).
Arguments Event {A} e.
Arguments Yield {A} a.

(** A generator run to its end: its steps, then [None] when it is exhausted
    or [Some e] when it raises [e]. *)
Definition gen (A : Type) : Type := list (item A) * option exception.

Fixpoint yields {A} (steps : list (item A)) : list A :=
  match steps with
  | [] => []
  | Yield a :: rest => a :: yields rest
  | Event _ :: rest => yields rest
  end.

Fixpoint events {A} (steps : list (item A)) : list event :=
  match steps with
  | [] => []
  | Event e :: rest => e :: events rest
  | Yield _ :: rest => events rest
  end.

(** A spaCy document is read through the texts of its tokens only. *)
Definition Doc : Type := list string.

(** A loaded spaCy pipeline: [nlp.pipe(texts, batch_size=n)] run to its
    end. *)
Record Language := { pipe : list value -> nat -> list Doc * option exception }.

Class Externals := {
  json_loads : string -> result value;
  spacy_load : string -> list string -> result Language;
  (* the exception that [open(path, 'w')] raises, if it raises one *)
  open_for_writing : string -> option exception
}.

Abbreviation filesystem := (gmap string string).
Abbreviation targets_index := (gmap (Z * Z) (list (Z * string))).

(** ** The script *)

Section Script.
Context `{!Externals}.

(** *** [_yield_lang8_raw_dicts] *)

(** The loop over the lines: [except json.decoder.JSONDecodeError: pass]
    catches that exception and no other. *)
Fixpoint raw_rows (lines : list string) (num_rows : nat) : gen value :=
  match lines with
  | [] => ([Event (Print (Raw_documents_read num_rows))], None)
  | line :: rest =>
      match json_loads line with
      | Ok row =>
          let '(steps, stop) := raw_rows rest (S num_rows) in
          (Yield row :: steps, stop)
      | Raise JSONDecodeError => raw_rows rest num_rows
      | Raise e => ([], Some e)
      end
  end.

Definition _yield_lang8_raw_dicts (fs : filesystem) (lang8_raw_dir : string) :
    gen value :=
  let path := Py.path_join lang8_raw_dir "lang-8-20111007-L1-v2.dat" in
  match fs !! path with
  | None => ([Event (Open_read path)], Some FileNotFoundError)
  | Some content =>
      let '(steps, stop) := raw_rows (Py.iter_lines (Py.read_text content)) 0 in
      (Event (Open_read path) :: steps, stop)
  end.

(** *** [_read_clang8_targets] *)

(** The first statement of the loop body: the five fields of a line, the
    key [(int(journal_id), int(sentence_id))] and the entry
    [(int(sentence_number), target)]. *)
Definition target_of_line (line : string) : result ((Z * Z) * (Z * string)) :=
  match Py.split Py.tab line with
  | [journal_id; sentence_id; sentence_number; _; target] =>
      j ← Py.int_of_str journal_id;
      s ← Py.int_of_str sentence_id;
      n ← Py.int_of_str sentence_number;
      Ok ((j, s), (n, target))
  | fields =>
      Raise (ValueError (if (length fields <? 5)%nat
                         then Not_enough_values else Too_many_values))
  end.

(** [ids_2_targets[key].append(entry)] on a [defaultdict(list)]. *)
Definition append_target (ids_2_targets : targets_index) (key : Z * Z)
    (entry : Z * string) : targets_index :=
  <[key := default [] (ids_2_targets !! key) ++ [entry]]> ids_2_targets.

(** The body of the loop over the lines of the targets file. *)
Definition add_target (ids_2_targets : targets_index) (line : string) :
    result targets_index :=
  '(key, entry) ← target_of_line line;
  Ok (append_target ids_2_targets key entry).

Fixpoint add_targets (ids_2_targets : targets_index) (lines : list string) :
    result targets_index :=
  match lines with
  | [] => Ok ids_2_targets
  | line :: rest =>
      match add_target ids_2_targets line with
      | Ok ids_2_targets' => add_targets ids_2_targets' rest
      | Raise e => Raise e
      end
  end.

(** [sum(len(targets) for targets in ids_2_targets.values())] *)
Definition count_targets (ids_2_targets : targets_index) : nat :=
  map_fold (fun _ targets acc => length targets + acc) 0 ids_2_targets.

Definition _read_clang8_targets (fs : filesystem) (path : string) :
    list event * result (targets_index * nat) :=
  match fs !! path with
  | None => ([Open_read path], Raise FileNotFoundError)
  | Some content =>
      match add_targets ∅ (Py.splitlines (Py.read_text content)) with
      | Raise e => ([Open_read path], Raise e)
      | Ok ids_2_targets =>
          let num_targets := count_targets ids_2_targets in
          ([Open_read path; Print (Targets_read num_targets)],
           Ok (ids_2_targets, num_targets))
      end
  end.

(** *** [_yield_clang8_source_target_pairs] *)

(** [journal_id, sentence_id, *_, sources, _ = row] *)
Definition unpack_row (row : value) : result (value * value * value) :=
  cells ← py_iter row;
  match cells, rev cells with
  | journal_id :: sentence_id :: _, _ :: sources :: _ =>
      if (length cells <? 4)%nat then Raise (ValueError Not_enough_values)
      else Ok (journal_id, sentence_id, sources)
  | _, _ => Raise (ValueError Not_enough_values)
  end.

(** The unpacking and [lang8_raw_ids = (int(journal_id), int(sentence_id))]. *)
Definition row_ids (row : value) : result ((Z * Z) * value) :=
  '(journal_id, sentence_id, sources) ← unpack_row row;
  j ← py_int journal_id;
  s ← py_int sentence_id;
  Ok ((j, s), sources).

(** The inner loop: one pair per target of the row, until [sources[...]]
    raises.  [n] is the counter of the progress bar. *)
Fixpoint yield_targets (sources : value) (targets : list (Z * string)) (n : nat) :
    list (value * value) * result nat :=
  match targets with
  | [] => ([], Ok n)
  | (sentence_number, target) :: rest =>
      match py_getitem sources sentence_number with
      | Raise e => ([], Raise e)
      | Ok source =>
          let '(pairs, r) := yield_targets sources rest (S n) in
          ((source, VStr target) :: pairs, r)
      end
  end.

(** The outer loop over the running raw-corpus generator: the steps of the
    join and the final value of the counter, or the exception that ends
    it. *)
Fixpoint join_loop (ids_2_targets : targets_index) (rows : list (item value))
    (n : nat) : list (item (value * value)) * result nat :=
  match rows with
  | [] => ([], Ok n)
  | Event e :: rest =>
      let '(steps, r) := join_loop ids_2_targets rest n in
      (Event e :: steps, r)
  | Yield row :: rest =>
      match row_ids row with
      | Raise e => ([], Raise e)
      | Ok (lang8_raw_ids, sources) =>
          match yield_targets sources
                  (default [] (ids_2_targets !! lang8_raw_ids)) n with
          | (pairs, Raise e) => (map Yield pairs, Raise e)
          | (pairs, Ok n') =>
              let '(steps, r) := join_loop ids_2_targets rest n' in
              (map Yield pairs ++ steps, r)
          end
      end
  end.

(** The [with tqdm(...)] block: the loop, then the report, unless the loop
    or the raw-corpus generator raised. *)
Definition join_rows (ids_2_targets : targets_index) (raw : gen value) :
    gen (value * value) :=
  let '(rows, stop) := raw in
  match join_loop ids_2_targets rows 0 with
  | (steps, Raise e) => (steps, Some e)
  | (steps, Ok n) =>
      match stop with
      | Some e => (steps, Some e)
      | None => (steps ++ [Event (Print (Sources_mapped n))], None)
      end
  end.

Definition _yield_clang8_source_target_pairs (fs : filesystem)
    (clang8_path lang8_raw_dir : string) : gen (value * value) :=
  match _read_clang8_targets fs clang8_path with
  | (log, Raise e) => (map Event log, Some e)
  | (log, Ok (ids_2_targets, num_targets)) =>
      let '(steps, st) :=
        join_rows ids_2_targets (_yield_lang8_raw_dicts fs lang8_raw_dir) in
      (map Event log ++ steps, st)
  end.

(** *** [_tokenize] *)

(** [zip(source_docs, target_docs)] over two running generators: the first
    one is asked first, and the zip ends as soon as either stops. *)
Fixpoint zip_docs (source_docs target_docs : list Doc)
    (source_stop target_stop : option exception) :
    list (Doc * Doc) * option exception :=
  match source_docs with
  | [] => ([], source_stop)
  | source :: source_docs' =>
      match target_docs with
      | [] => ([], target_stop)
      | target :: target_docs' =>
          let '(zipped, st) :=
            zip_docs source_docs' target_docs' source_stop target_stop in
          ((source, target) :: zipped, st)
      end
  end.

Definition tokenized (docs : Doc * Doc) : value * value :=
  (VStr (Py.join " " (fst docs)), VStr (Py.join " " (snd docs))).

Definition _tokenize (pairs : gen (value * value)) (nlp : Language)
    (batch_size : nat) : gen (value * value) :=
  let '(steps, stop) := pairs in
  match stop with
  | Some e => (map Event (events steps), Some e)      (* [list(pairs)] raises *)
  | None =>
      let pairs := yields steps in
      let '(source_docs, source_stop) := pipe nlp (map fst pairs) batch_size in
      let '(target_docs, target_stop) := pipe nlp (map snd pairs) batch_size in
      let '(zipped, st) :=
        zip_docs source_docs target_docs source_stop target_stop in
      (map Event (events steps) ++ Event (Print Tokenizing) :: map Yield (map tokenized zipped),
       st)
  end.

(** *** [_clean_spaces] and [_write_source_target_pairs_to_tsv] *)

Definition _clean_spaces (text : string) : string :=
  Py.replace Py.cr Py.space (Py.replace Py.lf Py.space (Py.replace Py.tab Py.space text)).

(** The call [_clean_spaces(v)]: only a [str] has a [replace] method that
    takes two strings. *)
Definition call_clean_spaces (v : value) : result string :=
  match v with
  | VStr text => Ok (_clean_spaces text)
  | _ => Raise AttributeError
  end.

(** The line written for one pair: [f'{source}\t{target}\n']. *)
Definition tsv_line (source_target : value * value) : result string :=
  source ← call_clean_spaces (fst source_target);
  target ← call_clean_spaces (snd source_target);
  Ok (source +:+ String Py.tab target +:+ String Py.lf EmptyString).

(** The loop of the writer over the running generator [pairs]; [written] is
    what the file holds so far. *)
Fixpoint write_pairs (pairs : list (item (value * value)))
    (stop : option exception) (written : string) :
    list event * string * option exception :=
  match pairs with
  | [] => ([], written, stop)
  | Event e :: rest =>
      let '(log, written', st) := write_pairs rest stop written in
      (e :: log, written', st)
  | Yield source_target :: rest =>
      match tsv_line source_target with
      | Raise e => ([], written, Some e)
      | Ok line => write_pairs rest stop (written +:+ line)
      end
  end.

(** [open(output_path, 'w')] comes first: when it raises, nothing else
    happens.  The generator [pairs] starts to run only once the output file
    has been opened (and truncated), so it is given the file system of that
    moment. *)
Definition _write_source_target_pairs_to_tsv
    (pairs : filesystem -> gen (value * value)) (fs : filesystem)
    (output_path : string) : filesystem * list event * option exception :=
  match open_for_writing output_path with
  | Some e => (fs, [Open_write output_path], Some e)
  | None =>
      let fs_opened := <[output_path := EmptyString]> fs in
      let '(steps, stop) := pairs fs_opened in
      let '(log, written, st) := write_pairs steps stop EmptyString in
      (<[output_path := written]> fs_opened,
       Open_write output_path :: log ++
         match st with
         | None => [Print (Wrote output_path)]
         | Some _ => []
         end,
       st)
  end.

(** *** [_prepare_clang8] *)

Definition model_path_of (language : string) : result string :=
  if String.eqb language "en" then Ok "en_core_web_sm"
  else if String.eqb language "de" then Ok "de_core_news_sm"
  else if String.eqb language "ru" then Ok "ru_core_news_sm"
  else Raise (ValueError (Unsupported_language language)).

Definition disabled_components : list string :=
  ["lemmatizer"; "parser"; "tagger"; "ner"].

Definition _prepare_clang8 (fs : filesystem)
    (language clang8_targets_dir lang8_dir output_dir : string)
    (tokenize_text : bool) : filesystem * list event * option exception :=
  match model_path_of language with
  | Raise e => (fs, [], Some e)
  | Ok model_path =>
      let clang8_targets_path :=
        Py.path_join clang8_targets_dir
          ("clang8_" +:+ language +:+ ".detokenized.tsv") in
      let source_target_pairs fs :=
        _yield_clang8_source_target_pairs fs clang8_targets_path lang8_dir in
      if tokenize_text then
        match spacy_load model_path disabled_components with
        | Raise e => (fs, [Spacy_load model_path disabled_components], Some e)
        | Ok nlp =>
            let output_path :=
              Py.path_join output_dir
                ("clang8_source_target_" +:+ language +:+ ".spacy_tokenized" +:+ ".tsv") in
            let '(fs', log, st) :=
              _write_source_target_pairs_to_tsv
                (fun fs => _tokenize (source_target_pairs fs) nlp 1000)
                fs output_path in
            (fs', Spacy_load model_path disabled_components :: log, st)
        end
      else
        let output_path :=
          Py.path_join output_dir
            ("clang8_source_target_" +:+ language +:+ EmptyString +:+ ".tsv") in
        _write_source_target_pairs_to_tsv source_target_pairs fs output_path
  end.

End Script.

(** ** A concrete outside world, to run the script *)

(** A stand-in tokenizer: the words between spaces. *)
Definition space_tokens (text : string) : Doc :=
  filter (fun token => token <> EmptyString) (Py.split Py.space text).

Definition space_pipe (texts : list value) (batch_size : nat) :
    list Doc * option exception :=
  (fix go (texts : list value) : list Doc * option exception :=
     match texts with
     | [] => ([], None)
     | VStr text :: rest =>
         let '(docs, st) := go rest in (space_tokens text :: docs, st)
     | _ :: _ => ([], Some TypeError)
     end) texts.

Definition space_language : Language := {| pipe := space_pipe |}.

(** Every path can be opened for writing. *)
Definition fragment_externals : Externals := {|
  json_loads := Json.loads;
  spacy_load := fun _ _ => Ok space_language;
  open_for_writing := fun _ => None
|}.

(** The same, on a system without the output directory. *)
Definition externals_without_output_dir : Externals := {|
  json_loads := Json.loads;
  spacy_load := fun _ _ => Ok space_language;
  open_for_writing := fun _ => Some FileNotFoundError
|}.


(** ** Notions used in the statements *)

(** The key under which the join looks a row up, when it gets that far. *)
Definition key_of_row (row : value) : option (Z * Z) :=
  match row_ids row with
  | Ok (key, _) => Some key
  | Raise _ => None
  end.

Definition raw_keys (rows : list (item value)) : list (Z * Z) :=
  omap key_of_row (yields rows).

(** In the spec's words: the number of target entries whose
    (document_id, record_id) key occurs in the raw corpus. *)
Definition matched_targets (ids_2_targets : targets_index)
    (keys : list (Z * Z)) : nat :=
  map_fold (fun key targets acc =>
              (if decide (key ∈ keys) then length targets else 0) + acc)
           0 ids_2_targets.

(** A line of the targets file that the builder accepts: five fields, the
    first three of which [int] converts. *)
Definition well_formed_target_line (line : string) : bool :=
  match Py.split Py.tab line with
  | [journal_id; sentence_id; sentence_number; _; _] =>
      is_ok (Py.int_of_str journal_id) && is_ok (Py.int_of_str sentence_id)
      && is_ok (Py.int_of_str sentence_number)
  | _ => false
  end.

(** The pair the join emits for one target entry of a row. *)
Definition source_target (sources : value) (entry : Z * string) :
    result (value * value) :=
  source ← py_getitem sources (fst entry);
  Ok (source, VStr (snd entry)).

(** The target list of a key in the index ([ids_2_targets.get(key, ())]),
    and the entries of a key in the order of the lines of the targets
    file. *)
Definition index_targets (ids_2_targets : targets_index) (key : Z * Z) :
    list (Z * string) :=
  default [] (ids_2_targets !! key).

Definition file_targets (entries : list ((Z * Z) * (Z * string))) (key : Z * Z) :
    list (Z * string) :=
  map snd (filter (fun entry => fst entry = key) entries).

Definition try_source_target (sources : value) (entry : Z * string) :
    option (value * value) :=
  match source_target sources entry with
  | Ok source_target => Some source_target
  | Raise _ => None
  end.

(** The pairs of one row, in the order of the row's target list; and of a
    stream of rows, row after row. *)
Definition pairs_of_row (targets_of : Z * Z -> list (Z * string)) (row : value) :
    list (value * value) :=
  match row_ids row with
  | Ok (key, sources) => omap (try_source_target sources) (targets_of key)
  | Raise _ => []
  end.

Definition pairs_in_order (targets_of : Z * Z -> list (Z * string))
    (rows : list value) : list (value * value) :=
  flat_map (pairs_of_row targets_of) rows.

(** What the spec asks of the sanitizer, character by character. *)
Definition sanitize_char (c : ascii) : ascii :=
  if Ascii.eqb c Py.tab || Ascii.eqb c Py.lf || Ascii.eqb c Py.cr
  then Py.space else c.

Fixpoint map_chars (f : ascii -> ascii) (s : string) : string :=
  match s with
  | EmptyString => EmptyString
  | String c s' => String (f c) (map_chars f s')
  end.

Fixpoint count_char (c : ascii) (s : string) : nat :=
  match s with
  | EmptyString => 0
  | String c' s' => (if Ascii.eqb c' c then 1 else 0) + count_char c s'
  end.

Fixpoint last_char (s : string) : option ascii :=
  match s with
  | EmptyString => None
  | String c EmptyString => Some c
  | String _ s' => last_char s'
  end.

(** [nlp] segments texts with [segment]: piping texts through it gives the
    token texts of each, in order. *)
Definition segments_with (nlp : Language) (segment : string -> list string) : Prop :=
  forall texts batch_size,
    pipe nlp (map VStr texts) batch_size = (map segment texts, None).

(** ** Small files, to run the script on *)

Definition eol : string := String Py.lf EmptyString.

(** A line of a targets file from its fields. *)
Definition tsv (fields : list string) : string :=
  Py.join (String Py.tab EmptyString) fields.

(** A JSON text written with apostrophes in the place of its double
    quotes. *)
Definition json_text (s : string) : string := Py.replace "'"%char Py.quote s.

Definition raw_path (lang8_raw_dir : string) : string :=
  Py.path_join lang8_raw_dir "lang-8-20111007-L1-v2.dat".

(** Three lines, the second of which is not JSON. *)
Definition corpus_with_garbage : string :=
  json_text "['1','2','English','Japanese',['Hello wrold.','Next sentence.'],[[],[]]]" +:+ eol +:+
  "<html>not a row</html>" +:+ eol +:+
  json_text "['3','4','English','Korean',['I has a pen.'],[[]]]" +:+ eol.

Definition targets_path (clang8_dir language : string) : string :=
  Py.path_join clang8_dir ("clang8_" +:+ language +:+ ".detokenized.tsv").

(** One line of five fields whose journal id is not a number. *)
Definition targets_with_bad_id : string :=
  tsv ["x"; "2"; "0"; "-"; "Hello world."] +:+ eol.

(** Two lines, the second of which lacks its last field. *)
Definition targets_with_short_line : string :=
  tsv ["1"; "2"; "0"; "-"; "Hello world."] +:+ eol +:+
  tsv ["1"; "2"; "1"; "Next sentence."] +:+ eol.

(** Two entries of record (1, 2), sentence 1 before sentence 0, and one
    entry of record (9, 9). *)
Definition targets_unsorted : string :=
  tsv ["1"; "2"; "1"; "-"; "Next sentence!"] +:+ eol +:+
  tsv ["9"; "9"; "0"; "-"; "Nobody wrote this."] +:+ eol +:+
  tsv ["1"; "2"; "0"; "-"; "Hello world."] +:+ eol.

(** The language codes for which the driver knows a spaCy model. *)
Definition tokenizer_models : list (string * string) :=
  [("en", "en_core_web_sm"); ("de", "de_core_news_sm"); ("ru", "ru_core_news_sm")].

(** The pair of space-joined token texts of a pair of texts. *)
Definition tokenized_texts (segment : string -> list string)
    (source_target : string * string) : value * value :=
  (VStr (Py.join " " (segment (fst source_target))),
   VStr (Py.join " " (segment (snd source_target)))).

Definition text_pair (source_target : string * string) : value * value :=
  (VStr (fst source_target), VStr (snd source_target)).

(** The index the builder makes of the lines of a well-formed file. *)
Definition built_index (lines : list string) : targets_index :=
  match add_targets ∅ lines with
  | Ok ids_2_targets => ids_2_targets
  | Raise _ => ∅
  end.

Definition unsorted_lines : list string :=
  Py.splitlines (Py.read_text targets_unsorted).

(** The row of record (1, 2), as [json.loads] returns it. *)
Definition hello_row : value :=
  VList [VStr "1"; VStr "2"; VStr "English"; VStr "Japanese";
         VList [VStr "Hello wrold."; VStr "Next sentence."];
         VList [VList []; VList []]].

(** The row of record (3, 4), which has no target. *)
Definition pen_row : value :=
  VList [VStr "3"; VStr "4"; VStr "English"; VStr "Korean";
         VList [VStr "I has a pen."]; VList [VList []]].

(** One target of record (1, 2). *)
Definition hello_lines : list string :=
  [tsv ["1"; "2"; "0"; "-"; "Hello world."]].

(** A raw stream in which record (1, 2) stands twice. *)
Definition raw_with_duplicate : gen value :=
  ([Yield hello_row; Yield pen_row; Yield hello_row], None).

(** The number of rows of the stream that have the key [key]. *)
Definition occurrences (key : Z * Z) (keys : list (Z * Z)) : nat :=
  length (filter (fun key' => key' = key) keys).

(** The number of pairs the join emits when it looks every key of [keys]
    up once per occurrence. *)
Definition looked_up (ids_2_targets : targets_index) (keys : list (Z * Z)) : nat :=
  sum_list (map (fun key => length (index_targets ids_2_targets key)) keys).

(** Three targets of record (1, 2), which has two sentences: sentence 0,
    sentence -1 and sentence 2. *)
Definition bounds_lines : list string :=
  [tsv ["1"; "2"; "0"; "-"; "Hello world."];
   tsv ["1"; "2"; "-1"; "-"; "Next sentence!"];
   tsv ["1"; "2"; "2"; "-"; "No such sentence."]].

Definition hello_sentences : list value :=
  [VStr "Hello wrold."; VStr "Next sentence."].

(** *** The scenario of one record and one target *)

(** The raw line as an object with three named fields, and as the array that
    the raw corpus uses: ids, languages, sentences, corrections. *)
Definition object_raw_line : string :=
  json_text "{'journal_id':1,'sentence_id':2,'sources':['Hello wrold.','Next sentence.']}".

Definition array_raw_line : string :=
  json_text "[1,2,'English','Japanese',['Hello wrold.','Next sentence.'],[[],[]]]".

Definition array_row : value :=
  VList [VInt 1; VInt 2; VStr "English"; VStr "Japanese";
         VList [VStr "Hello wrold."; VStr "Next sentence."];
         VList [VList []; VList []]].

Definition object_row : value :=
  VDict [("journal_id", VInt 1); ("sentence_id", VInt 2);
         ("sources", VList [VStr "Hello wrold."; VStr "Next sentence."])].

Definition optional_eol (present : bool) : string :=
  if present then eol else EmptyString.

(** The two input files; each single line with or without its final line
    feed. *)
Definition scenario_fs (raw_line : string) (raw_eol targets_eol : bool) : filesystem :=
  {[ raw_path "lang8" := raw_line +:+ optional_eol raw_eol;
     targets_path "./targets" "en" :=
       tsv ["1"; "2"; "0"; "-"; "Hello world."] +:+ optional_eol targets_eol ]}.

Definition scenario_output_path : string :=
  "./output_data/clang8_source_target_en.tsv".

Definition scenario_output : string :=
  "Hello wrold." +:+ String Py.tab "Hello world." +:+ eol.

(** *** More notions, for the properties beyond the claims *)

(** The text the writer produces for pairs of strings: one line each. *)
Fixpoint tsv_text (pairs : list (string * string)) : string :=
  match pairs with
  | [] => EmptyString
  | (source, target) :: rest =>
      (_clean_spaces source +:+ String Py.tab (_clean_spaces target) +:+ eol)
      +:+ tsv_text rest
  end.

(** The two fields that reading a written line back gives. *)
Definition cleaned_fields (source_target : string * string) : list string :=
  [_clean_spaces (fst source_target); _clean_spaces (snd source_target)].

(** The path of the output file of one language. *)
Definition output_path_of (output_dir language : string) (tokenize_text : bool) :
    string :=
  Py.path_join output_dir
    ("clang8_source_target_" +:+ language +:+
     (if tokenize_text then ".spacy_tokenized" else EmptyString) +:+ ".tsv").

(** The space-joined token texts of a pair of texts, as strings. *)
Definition tokenized_strings (segment : string -> list string)
    (source_target : string * string) : string * string :=
  (Py.join " " (segment (fst source_target)),
   Py.join " " (segment (snd source_target))).

(** A sentence number that [sentences[...]] accepts, and the sentence it
    denotes. *)
Definition in_range (sentences : list value) (entry : Z * string) : Prop :=
  (- Z.of_nat (length sentences) <= fst entry < Z.of_nat (length sentences))%Z.

Definition sentence_at (sentences : list value) (i : Z) : value :=
  default VNone (sentences !! Z.to_nat (i mod Z.of_nat (length sentences))).

(** The last [k] characters of a string, the last one first. *)
Definition last_chars (k : nat) (s : string) : list ascii :=
  take k (rev (list_ascii_of_string s)).

(** *** [main] *)

(** The values of the command-line flags. *)
Module FLAGS.
Record t := {
  lang8_dir : string;
  clang8_dir : string;
  output_dir : string;
  tokenize_text : bool;
  languages : list string
}.

(** The defaults of the flag definitions. *)
Definition defaults : t := {|
  lang8_dir := EmptyString;
  clang8_dir := "./targets";
  output_dir := "./output_data";
  tokenize_text := true;
  languages := ["ru"; "en"; "de"]
|}.
End FLAGS.

(** What [main] does: it prints the code of a language, then the events of
    preparing that language follow. *)
Inductive main_event :=
  | Print_language (language : string)
  | Preparing (e : event).

Inductive main_exception :=
  | UsageError                   (* "Too many command-line arguments." *)
  | Uncaught (e : exception).

Section Main.
Context `{!Externals}.

(** The loop over [FLAGS.languages]: an exception ends it. *)
Fixpoint prepare_languages (flags : FLAGS.t) (languages : list string)
    (fs : filesystem) : filesystem * list main_event * option exception :=
  match languages with
  | [] => (fs, [], None)
  | language :: rest =>
      let '(fs', log, st) :=
        _prepare_clang8 fs language (FLAGS.clang8_dir flags) (FLAGS.lang8_dir flags)
          (FLAGS.output_dir flags) (FLAGS.tokenize_text flags) in
      match st with
      | Some e => (fs', Print_language language :: map Preparing log, Some e)
      | None =>
          let '(fs'', log', st') := prepare_languages flags rest fs' in
          (fs'', Print_language language :: map Preparing log ++ log', st')
      end
  end.

Definition main (argv : list string) (flags : FLAGS.t) (fs : filesystem) :
    filesystem * list main_event * option main_exception :=
  if (1 <? length argv)%nat then (fs, [], Some UsageError)
  else
    let '(fs', log, st) := prepare_languages flags (FLAGS.languages flags) fs in
    (fs', log, Uncaught <$> st).

End Main.

(** Flags for the scenario: English, an unknown language, German. *)
Definition scenario_flags : FLAGS.t := {|
  FLAGS.lang8_dir := "lang8";
  FLAGS.clang8_dir := "./targets";
  FLAGS.output_dir := "./output_data";
  FLAGS.tokenize_text := false;
  FLAGS.languages := ["en"; "fr"; "de"]
|}.

(** The targets of [targets_unsorted], with the line ends of another
    system. *)
Definition crlf : string := String Py.cr (String Py.lf EmptyString).

Definition targets_unsorted_crlf : string :=
  tsv ["1"; "2"; "1"; "-"; "Next sentence!"] +:+ crlf +:+
  tsv ["9"; "9"; "0"; "-"; "Nobody wrote this."] +:+ crlf +:+
  tsv ["1"; "2"; "0"; "-"; "Hello world."] +:+ crlf.

(** The rows of [corpus_with_garbage] without the line that is not JSON. *)
Definition corpus_without_garbage : string :=
  json_text "['1','2','English','Japanese',['Hello wrold.','Next sentence.'],[[],[]]]" +:+ eol +:+
  json_text "['3','4','English','Korean',['I has a pen.'],[[]]]" +:+ eol.

(** *** The lines of the raw corpus *)

(** The row of a line, when [json.loads] returns one. *)
Definition parsed_row `{!Externals} (line : string) : option value :=
  match json_loads line with
  | Ok row => Some row
  | Raise _ => None
  end.

(** [json.loads(line)] raises nothing that gets past the [except] clause of
    the reader. *)
Definition nothing_uncaught `{!Externals} (line : string) : Prop :=
  forall e, json_loads line = Raise e -> e = JSONDecodeError.

Definition is_decode_error (r : result value) : bool :=
  match r with
  | Raise JSONDecodeError => true
  | _ => false
  end.

(** What [json.loads] does on every line, the lines that the reader skips
    left out. *)
Definition loaded `{!Externals} (lines : list string) : list (result value) :=
  filter (fun r => is_decode_error r = false) (map json_loads lines).

(** An integer of 4301 digits: [json.loads] matches it as a number and
    [int] then refuses to convert it, with a [ValueError]. *)
Definition long_number : string := string_of_list_ascii (repeat "1"%char 4301).

(** Three lines, the second of which is that number. *)
Definition corpus_with_long_number : string :=
  json_text "['1','2','English','Japanese',['Hello wrold.','Next sentence.'],[[],[]]]" +:+ eol +:+
  long_number +:+ eol +:+
  json_text "['3','4','English','Korean',['I has a pen.'],[[]]]" +:+ eol.

(** A raw stream of the one row of record (1, 2); with the targets
    [bounds_lines] the join raises on the third target of the record. *)
Definition raw_of_hello : gen value := ([Yield hello_row], None).

(** Two texts with characters that the writer replaces: a tab and a final
    line feed in the first, a carriage return and a line feed in the
    second. *)
Definition text_with_tab : string := "Hello" +:+ String Py.tab "wrold." +:+ eol.

Definition text_with_crlf : string := "Hello" +:+ crlf +:+ "world.".

(** The digit 1 after a unit separator (U+001F), a control character that
    [str.strip] removes and [int] does not. *)
Definition id_after_unit_separator : string := String "031"%char "1".

(** ** Properties *)

(** *** The raw-corpus reader *)

Lemma raw_rows_skip `{!Externals} (line : string) (lines : list string)
    (num_rows : nat) :
  json_loads line = Raise JSONDecodeError ->
  raw_rows (line :: lines) num_rows = raw_rows lines num_rows.
Proof. intros Hline. simpl. by rewrite Hline. Qed.

Lemma raw_rows_row `{!Externals} (line : string) (row : value)
    (lines : list string) (num_rows : nat) :
  json_loads line = Ok row ->
  raw_rows (line :: lines) num_rows =
    (Yield row :: fst (raw_rows lines (S num_rows)),
     snd (raw_rows lines (S num_rows))).
Proof.
  intros Hline. simpl. rewrite Hline.
  by destruct (raw_rows lines (S num_rows)).
Qed.

Lemma raw_rows_raise `{!Externals} (line : string) (e : exception)
    (lines : list string) (num_rows : nat) :
  json_loads line = Raise e -> e <> JSONDecodeError ->
  raw_rows (line :: lines) num_rows = ([], Some e).
Proof. intros Hline He. simpl. rewrite Hline. by destruct e. Qed.

Lemma nothing_uncaught_cases `{!Externals} (line : string) :
  nothing_uncaught line ->
  (exists row, json_loads line = Ok row) \/ json_loads line = Raise JSONDecodeError.
Proof.
  intros Hline. destruct (json_loads line) as [row|e] eqn:Hloads; [by eauto|].
  right. by rewrite (Hline e).
Qed.

Lemma nothing_uncaught_lines `{!Externals} (lines : list string) :
  forallb (fun line => is_ok (json_loads line) || is_decode_error (json_loads line))
    lines = true ->
  Forall nothing_uncaught lines.
Proof.
  rewrite forallb_forall, Forall_forall. intros Hlines line Hline e He.
  apply list_elem_of_In in Hline.
  specialize (Hlines line Hline). rewrite He in Hlines.
  by destruct e.
Qed.

Lemma raw_rows_parsed `{!Externals} (lines : list string) (num_rows : nat) :
  Forall nothing_uncaught lines ->
  raw_rows lines num_rows =
    (map Yield (omap parsed_row lines) ++
       [Event (Print (Raw_documents_read (num_rows + length (omap parsed_row lines))))],
     None).
Proof.
  intros Hlines. revert num_rows.
  induction Hlines as [|line lines Hline _ IH]; intros num_rows.
  - simpl. by rewrite Nat.add_0_r.
  - change (omap parsed_row (line :: lines)) with
      (match parsed_row line with
       | Some row => row :: omap parsed_row lines
       | None => omap parsed_row lines
       end).
    destruct (nothing_uncaught_cases line Hline) as [[row Hrow]|Hskip].
    + assert (parsed_row line = Some row) as ->
        by (unfold parsed_row; by rewrite Hrow).
      rewrite (raw_rows_row _ _ _ _ Hrow), IH. simpl.
      by rewrite Nat.add_succ_r.
    + assert (parsed_row line = None) as ->
        by (unfold parsed_row; by rewrite Hskip).
      by rewrite (raw_rows_skip _ _ _ Hskip), IH.
Qed.

Lemma raw_rows_uncaught `{!Externals} (before : list string) (line : string)
    (after : list string) (e : exception) (num_rows : nat) :
  Forall nothing_uncaught before ->
  json_loads line = Raise e -> e <> JSONDecodeError ->
  raw_rows (before ++ line :: after) num_rows =
    (map Yield (omap parsed_row before), Some e).
Proof.
  intros Hbefore Hline He. revert num_rows.
  induction Hbefore as [|first before Hfirst _ IH]; intros num_rows.
  - by apply raw_rows_raise.
  - change (omap parsed_row (first :: before)) with
      (match parsed_row first with
       | Some row => row :: omap parsed_row before
       | None => omap parsed_row before
       end).
    change ((first :: before) ++ line :: after)
      with (first :: (before ++ line :: after)).
    destruct (nothing_uncaught_cases first Hfirst) as [[row Hrow]|Hskip].
    + assert (parsed_row first = Some row) as ->
        by (unfold parsed_row; by rewrite Hrow).
      by rewrite (raw_rows_row _ _ _ _ Hrow), IH.
    + assert (parsed_row first = None) as ->
        by (unfold parsed_row; by rewrite Hskip).
      by rewrite (raw_rows_skip _ _ _ Hskip), IH.
Qed.

Lemma raw_rows_single `{!Externals} (line : string) (row : value) :
  json_loads line = Ok row ->
  raw_rows [line] 0 = ([Yield row; Event (Print (Raw_documents_read 1))], None).
Proof. intros Hrow. simpl. by rewrite Hrow. Qed.

Lemma loaded_cons `{!Externals} (line : string) (lines : list string) :
  loaded (line :: lines) =
    if is_decode_error (json_loads line) then loaded lines
    else json_loads line :: loaded lines.
Proof.
  unfold loaded. rewrite fmap_cons, filter_cons.
  case_decide as Hskip; [by rewrite Hskip|].
  by destruct (is_decode_error (json_loads line)).
Qed.

Lemma is_decode_error_true (r : result value) :
  is_decode_error r = true -> r = Raise JSONDecodeError.
Proof. by destruct r as [|[]]. Qed.

Lemma raw_rows_none_loaded `{!Externals} (lines : list string) (num_rows : nat) :
  loaded lines = [] -> raw_rows lines num_rows = raw_rows [] num_rows.
Proof.
  induction lines as [|line lines IH]; [done|].
  rewrite loaded_cons.
  destruct (is_decode_error (json_loads line)) eqn:Hskip; [|done].
  intros Hrest. rewrite (raw_rows_skip _ _ _ (is_decode_error_true _ Hskip)).
  by apply IH.
Qed.

Lemma raw_rows_first_loaded `{!Externals} (lines : list string)
    (r : result value) (rest : list (result value)) (num_rows : nat) :
  loaded lines = r :: rest ->
  exists line lines',
    raw_rows lines num_rows = raw_rows (line :: lines') num_rows /\
    json_loads line = r /\ is_decode_error r = false /\ loaded lines' = rest.
Proof.
  induction lines as [|line lines IH]; [done|].
  rewrite loaded_cons.
  destruct (is_decode_error (json_loads line)) eqn:Hskip.
  - intros Hrest. destruct (IH Hrest) as (line' & lines' & Hrows & Hline').
    exists line', lines'. split; [|done].
    by rewrite (raw_rows_skip _ _ _ (is_decode_error_true _ Hskip)).
  - intros [= <- <-]. by exists line, lines.
Qed.

Lemma raw_rows_head `{!Externals} (line line' : string)
    (lines lines' : list string) (num_rows : nat) :
  json_loads line = json_loads line' ->
  is_decode_error (json_loads line) = false ->
  (forall num_rows, raw_rows lines num_rows = raw_rows lines' num_rows) ->
  raw_rows (line :: lines) num_rows = raw_rows (line' :: lines') num_rows.
Proof.
  intros Hsame Hskip Hrest.
  destruct (json_loads line) as [row|e] eqn:Hline.
  - rewrite (raw_rows_row _ _ _ _ Hline).
    rewrite (raw_rows_row line' row) by done. by rewrite Hrest.
  - assert (e <> JSONDecodeError) as He by (by intros ->).
    rewrite (raw_rows_raise _ _ _ _ Hline He).
    by rewrite (raw_rows_raise line' e).
Qed.

Lemma raw_rows_loaded `{!Externals} (lines lines' : list string) (num_rows : nat) :
  loaded lines = loaded lines' ->
  raw_rows lines num_rows = raw_rows lines' num_rows.
Proof.
  revert lines' num_rows.
  induction lines as [|line lines IH]; intros lines' num_rows.
  - intros Hnone. symmetry. by apply raw_rows_none_loaded.
  - rewrite loaded_cons.
    destruct (is_decode_error (json_loads line)) eqn:Hskip.
    + intros Hrest.
      rewrite (raw_rows_skip _ _ _ (is_decode_error_true _ Hskip)).
      by apply IH.
    + intros Hfirst. symmetry in Hfirst.
      destruct (raw_rows_first_loaded _ _ _ num_rows Hfirst)
        as (line' & lines'' & -> & Hline' & _ & Hrest).
      apply raw_rows_head; [done..|].
      intros num_rows'. by apply IH.
Qed.

(** C7, amended.  The reader skips a line exactly when [json.loads] raises
    [JSONDecodeError] on it.  When no line raises anything else, it yields
    the rows of the lines that parse, in line order, and once exhausted
    prints their number.  The first line on which [json.loads] raises
    another exception ends the reader with that exception, after the rows
    of the lines before it, and no number is printed. *)
Theorem raw_reader_failure_semantics `{!Externals}
    (fs : filesystem) (lang8_raw_dir content : string) :
  fs !! raw_path lang8_raw_dir = Some content ->
  let lines := Py.iter_lines (Py.read_text content) in
  let opened := Event (Open_read (raw_path lang8_raw_dir)) in
  (Forall nothing_uncaught lines ->
   let rows := omap parsed_row lines in
   _yield_lang8_raw_dicts fs lang8_raw_dir =
     (opened :: map Yield rows ++
        [Event (Print (Raw_documents_read (length rows)))],
      None)) /\
  (forall before line after e,
     lines = before ++ line :: after ->
     Forall nothing_uncaught before ->
     json_loads line = Raise e -> e <> JSONDecodeError ->
     _yield_lang8_raw_dicts fs lang8_raw_dir =
       (opened :: map Yield (omap parsed_row before), Some e)).
Proof.
  intros Hfile lines opened. unfold _yield_lang8_raw_dicts.
  fold (raw_path lang8_raw_dir). rewrite Hfile. fold lines. split.
  - intros Hlines. by rewrite raw_rows_parsed.
  - intros before line after e Hsplit Hbefore Hline He.
    by rewrite Hsplit, (raw_rows_uncaught _ _ _ _ _ Hbefore Hline He).
Qed.

Lemma raw_reader_failure_semantics_witness :
  @_yield_lang8_raw_dicts fragment_externals
      {[ raw_path "lang8" := corpus_with_garbage ]} "lang8" =
    ([Event (Open_read "lang8/lang-8-20111007-L1-v2.dat");
      Yield hello_row; Yield pen_row;
      Event (Print (Raw_documents_read 2))],
     None) /\
  @_yield_lang8_raw_dicts fragment_externals
      {[ raw_path "lang8" := corpus_with_long_number ]} "lang8" =
    ([Event (Open_read "lang8/lang-8-20111007-L1-v2.dat"); Yield hello_row],
     Some (ValueError Exceeds_digit_limit)).
Proof.
  split.
  - refine (proj1 (@raw_reader_failure_semantics fragment_externals
             {[ raw_path "lang8" := corpus_with_garbage ]} "lang8"
             corpus_with_garbage eq_refl) _).
    apply nothing_uncaught_lines. vm_compute. reflexivity.
  - refine (proj2 (@raw_reader_failure_semantics fragment_externals
             {[ raw_path "lang8" := corpus_with_long_number ]} "lang8"
             corpus_with_long_number eq_refl)
             [json_text "['1','2','English','Japanese',['Hello wrold.','Next sentence.'],[[],[]]]" +:+ eol]
             (long_number +:+ eol)
             [json_text "['3','4','English','Korean',['I has a pen.'],[[]]]" +:+ eol]
             (ValueError Exceeds_digit_limit) _ _ _ _).
    + vm_compute. reflexivity.
    + apply nothing_uncaught_lines. vm_compute. reflexivity.
    + vm_compute. reflexivity.
    + discriminate.
Defined.

(** A line that [json.loads] refuses with another exception than
    [JSONDecodeError] is not skipped: on a corpus whose second line is a
    number of 4301 digits, the [ValueError] ends the reader, the row of the
    third line is never yielded and no number is printed. *)
Lemma raw_reader_counterexample :
  Json.loads (long_number +:+ eol) = Raise (ValueError Exceeds_digit_limit) /\
  @_yield_lang8_raw_dicts fragment_externals
      {[ raw_path "lang8" := corpus_with_long_number ]} "lang8" =
    ([Event (Open_read "lang8/lang-8-20111007-L1-v2.dat"); Yield hello_row],
     Some (ValueError Exceeds_digit_limit)).
Proof. split; vm_compute; reflexivity. Qed.

(** *** The writer *)

Lemma clean_spaces_chars (text : string) :
  _clean_spaces text = map_chars sanitize_char text.
Proof.
  unfold _clean_spaces. induction text as [|c text IH]; [done|].
  simpl. rewrite IH. f_equal. unfold sanitize_char.
  destruct (Ascii.eqb_spec c Py.tab) as [->|]; [done|].
  destruct (Ascii.eqb_spec c Py.lf) as [->|]; [done|].
  simpl. by destruct (Ascii.eqb c Py.cr).
Qed.

Lemma count_char_app (c : ascii) (s t : string) :
  count_char c (s +:+ t) = count_char c s + count_char c t.
Proof. induction s as [|c' s IH]; simpl; [done|]. rewrite IH. lia. Qed.

Lemma last_char_app_eol (s : string) : last_char (s +:+ eol) = Some Py.lf.
Proof.
  induction s as [|c s IH]; [done|]. simpl.
  destruct (s +:+ eol) eqn:E; [by destruct s|done].
Qed.

Lemma count_char_sanitized (c : ascii) (text : string) :
  sanitize_char c <> c -> count_char c (_clean_spaces text) = 0.
Proof.
  intros Hc. rewrite clean_spaces_chars.
  induction text as [|c' text IH]; [done|]. simpl. rewrite IH.
  destruct (Ascii.eqb_spec (sanitize_char c') c) as [E|]; [|done].
  exfalso. apply Hc. rewrite <- E. unfold sanitize_char.
  destruct (Ascii.eqb c' Py.tab || Ascii.eqb c' Py.lf || Ascii.eqb c' Py.cr) eqn:Hs;
    [done|]. by rewrite Hs.
Qed.

Lemma string_app_assoc (a b c : string) : (a +:+ b) +:+ c = a +:+ (b +:+ c).
Proof.
  induction a as [|x a IH]; [done|].
  change ((String x a +:+ b) +:+ c) with (String x ((a +:+ b) +:+ c)).
  change (String x a +:+ (b +:+ c)) with (String x (a +:+ (b +:+ c))).
  by rewrite IH.
Qed.

Lemma string_app_nil_r (a : string) : a +:+ EmptyString = a.
Proof.
  induction a as [|x a IH]; [done|].
  change (String x a +:+ EmptyString) with (String x (a +:+ EmptyString)).
  by rewrite IH.
Qed.

Lemma write_pairs_texts (pairs : list (string * string))
    (rest : list (item (value * value))) (stop : option exception)
    (written : string) :
  write_pairs (map Yield (map text_pair pairs) ++ rest) stop written =
    write_pairs rest stop (written +:+ tsv_text pairs).
Proof.
  revert written. induction pairs as [|[source target] pairs IH]; intros written.
  - simpl. by rewrite string_app_nil_r.
  - simpl map. simpl app. simpl write_pairs. rewrite IH.
    simpl tsv_text. by rewrite string_app_assoc.
Qed.

Lemma tsv_text_app (before after : list (string * string)) :
  tsv_text (before ++ after) = tsv_text before +:+ tsv_text after.
Proof.
  induction before as [|[source target] before IH]; [done|].
  simpl. by rewrite IH, !string_app_assoc.
Qed.

(** The writer on a generator that yields pairs of strings and ends. *)
Lemma writer_texts `{!Externals} (pairs : list (string * string))
    (fs : filesystem) (output_path : string) :
  open_for_writing output_path = None ->
  _write_source_target_pairs_to_tsv
      (fun _ => (map Yield (map text_pair pairs), None)) fs output_path =
    (<[output_path := tsv_text pairs]> fs,
     [Open_write output_path; Print (Wrote output_path)], None).
Proof.
  intros Hopen. unfold _write_source_target_pairs_to_tsv. rewrite Hopen.
  pose proof (write_pairs_texts pairs [] None EmptyString) as Hwrite.
  rewrite app_nil_r in Hwrite. rewrite Hwrite. simpl.
  by rewrite insert_insert_eq.
Qed.

(** C5. Each tab, line feed and carriage return of either text becomes one
    space.  The line that the writer writes for the pair, after the lines of
    the pairs before it and before those of the pairs after it, is the
    cleaned source, a tab, the cleaned target and a line feed, so it has
    exactly one tab and exactly one line feed, which is its last
    character. *)
Theorem writer_sanitizes `{!Externals} (before : list (string * string))
    (source target : string) (after : list (string * string))
    (fs : filesystem) (output_path : string) :
  open_for_writing output_path = None ->
  let line := _clean_spaces source +:+ String Py.tab (_clean_spaces target) +:+ eol in
  _clean_spaces source = map_chars sanitize_char source /\
  _clean_spaces target = map_chars sanitize_char target /\
  _write_source_target_pairs_to_tsv
      (fun _ => (map Yield (map text_pair (before ++ (source, target) :: after)),
                 None))
      fs output_path =
    (<[output_path := tsv_text before +:+ line +:+ tsv_text after]> fs,
     [Open_write output_path; Print (Wrote output_path)], None) /\
  tsv_line (VStr source, VStr target) = Ok line /\
  (forall steps stop written,
     write_pairs (Yield (VStr source, VStr target) :: steps) stop written =
       write_pairs steps stop (written +:+ line)) /\
  count_char Py.tab line = 1 /\
  count_char Py.lf line = 1 /\
  count_char Py.cr line = 0 /\
  last_char line = Some Py.lf.
Proof.
  intros Hopen line. split_and!; try apply clean_spaces_chars; try done.
  { by rewrite (writer_texts _ _ _ Hopen), tsv_text_app. }
  all: unfold line; rewrite ?count_char_app; simpl;
    rewrite ?count_char_app, ?count_char_sanitized by done; simpl; try done.
  change (String Py.tab (_clean_spaces target) +:+ eol)
    with (String Py.tab (_clean_spaces target +:+ eol)).
  induction (_clean_spaces source) as [|c s IH]; simpl.
  - pose proof (last_char_app_eol (_clean_spaces target)) as Hl.
    destruct (_clean_spaces target +:+ eol); [discriminate Hl|done].
  - destruct (s +:+ String Py.tab (_clean_spaces target +:+ eol)) eqn:E; [|done].
    by destruct s.
Qed.

Lemma writer_sanitizes_witness :
  let line := "Hello wrold. " +:+ String Py.tab "Hello  world." +:+ eol in
  @_write_source_target_pairs_to_tsv fragment_externals
      (fun _ => ([Yield (VStr "I has a pen.", VStr "I have a pen.");
                  Yield (VStr text_with_tab, VStr text_with_crlf)], None))
      ∅ scenario_output_path =
    ({[ scenario_output_path :=
          ("I has a pen." +:+ String Py.tab "I have a pen." +:+ eol) +:+ line ]},
     [Open_write scenario_output_path; Print (Wrote scenario_output_path)],
     None) /\
  count_char Py.tab line = 1 /\
  count_char Py.lf line = 1 /\
  last_char line = Some Py.lf.
Proof.
  intros line.
  destruct (@writer_sanitizes fragment_externals
              [("I has a pen.", "I have a pen.")] text_with_tab text_with_crlf []
              ∅ scenario_output_path eq_refl)
    as (_ & _ & Hwritten & _ & _ & Htab & Hlf & _ & Hlast).
  split_and!; [|exact Htab|exact Hlf|exact Hlast].
  etransitivity; [exact Hwritten|]. vm_compute. reflexivity.
Defined.

(** *** The target-index builder *)

Section Weighted_sums.
Variable weight : Z * Z -> list (Z * string) -> nat.

Let total (m : targets_index) : nat :=
  map_fold (fun key targets acc => weight key targets + acc) 0 m.

Lemma weighted_sum_empty : total ∅ = 0.
Proof. apply map_fold_empty. Qed.

Lemma weighted_sum_fresh (m : targets_index) key targets :
  m !! key = None ->
  total (<[key := targets]> m) = weight key targets + total m.
Proof.
  intros Hfresh. unfold total.
  rewrite map_fold_insert_L; [done| |done]. intros; lia.
Qed.

Lemma weighted_sum_insert (m : targets_index) key targets :
  total (<[key := targets]> m) + from_option (weight key) 0 (m !! key) =
    weight key targets + total m.
Proof.
  destruct (m !! key) as [old|] eqn:Hkey; simpl.
  - rewrite <- (insert_delete_eq m key targets).
    rewrite weighted_sum_fresh by apply lookup_delete_eq.
    rewrite <- (insert_delete_id m key old) at 2 by done.
    rewrite weighted_sum_fresh by apply lookup_delete_eq. lia.
  - rewrite weighted_sum_fresh by done. lia.
Qed.
End Weighted_sums.

Lemma count_targets_append (m : targets_index) key entry :
  count_targets (append_target m key entry) = S (count_targets m).
Proof.
  unfold count_targets, append_target.
  pose proof (weighted_sum_insert (fun _ targets => length targets) m key
                (default [] (m !! key) ++ [entry])) as Hsum.
  simpl in Hsum. rewrite length_app in Hsum. simpl in Hsum.
  destruct (m !! key); simpl in *; lia.
Qed.

Lemma target_of_line_well_formed (line : string) :
  well_formed_target_line line = is_ok (target_of_line line).
Proof.
  unfold well_formed_target_line, target_of_line.
  destruct (Py.split Py.tab line) as [|f1 [|f2 [|f3 [|f4 [|f5 [|f6 fs]]]]]]; try done.
  destruct (Py.int_of_str f1); [|done].
  destruct (Py.int_of_str f2); [|done].
  by destruct (Py.int_of_str f3).
Qed.

Lemma target_of_line_field_count (line : string) :
  length (Py.split Py.tab line) <> 5 ->
  target_of_line line =
    Raise (ValueError (if (length (Py.split Py.tab line) <? 5)%nat
                       then Not_enough_values else Too_many_values)).
Proof.
  unfold target_of_line.
  by destruct (Py.split Py.tab line) as [|f1 [|f2 [|f3 [|f4 [|f5 [|f6 fs]]]]]].
Qed.

Lemma add_target_unfold (m : targets_index) (line : string) :
  add_target m line =
    match target_of_line line with
    | Ok (key, entry) => Ok (append_target m key entry)
    | Raise e => Raise e
    end.
Proof. unfold add_target. by destruct (target_of_line line) as [[??]|]. Qed.

(** The loop succeeds exactly on the files all of whose lines are well
    formed, and then every line has added one entry. *)
Lemma add_targets_ok (lines : list string) (m : targets_index) :
  Forall (fun line => well_formed_target_line line = true) lines ->
  exists m', add_targets m lines = Ok m' /\
             count_targets m' = count_targets m + length lines.
Proof.
  revert m. induction lines as [|line lines IH]; intros m Hlines; simpl.
  - exists m. split; [done|lia].
  - apply Forall_cons in Hlines as [Hline Hlines].
    rewrite target_of_line_well_formed in Hline.
    rewrite add_target_unfold.
    destruct (target_of_line line) as [[key entry]|]; [|done].
    destruct (IH (append_target m key entry) Hlines) as (m' & -> & Hcount).
    exists m'. split; [done|]. rewrite Hcount, count_targets_append. lia.
Qed.

Lemma add_targets_raises (lines : list string) (m : targets_index) :
  Exists (fun line => well_formed_target_line line = false) lines ->
  exists e, add_targets m lines = Raise e.
Proof.
  revert m. induction lines as [|line lines IH]; intros m Hlines; simpl.
  - by apply Exists_nil in Hlines.
  - rewrite add_target_unfold.
    destruct (target_of_line line) as [[key entry]|e] eqn:Hline; [|by exists e].
    apply Exists_cons in Hlines as [Hbad|Hlines]; [|by apply IH].
    rewrite target_of_line_well_formed, Hline in Hbad. done.
Qed.

(** The first line that is not well formed decides the exception. *)
Lemma add_targets_first_bad (good : list string) (line : string)
    (rest : list string) (m : targets_index) e :
  Forall (fun line => well_formed_target_line line = true) good ->
  target_of_line line = Raise e ->
  add_targets m (good ++ line :: rest) = Raise e.
Proof.
  revert m. induction good as [|g good IH]; intros m Hgood Hline; simpl.
  - by rewrite add_target_unfold, Hline.
  - apply Forall_cons in Hgood as [Hg Hgood].
    rewrite target_of_line_well_formed in Hg. rewrite add_target_unfold.
    destruct (target_of_line g) as [[key entry]|]; [|done]. by apply IH.
Qed.

Lemma builder_five_fields_counterexample :
  let fs : filesystem := {[ targets_path "targets" "en" := targets_with_bad_id ]} in
  Forall (fun line => length (Py.split Py.tab line) = 5)
         (Py.splitlines (Py.read_text targets_with_bad_id)) /\
  _read_clang8_targets fs (targets_path "targets" "en") =
    ([Open_read "targets/clang8_en.detokenized.tsv"],
     Raise (ValueError Invalid_literal)).
Proof. split; [by repeat constructor|reflexivity]. Qed.

(** C6, amended.  A targets file with a line that does not have exactly
    five tab-separated fields makes the builder raise, and no index is
    returned; the exception is the unpacking mismatch of that line when all
    lines before it are well formed.  A file all of whose lines have five
    fields, the first three of which [int] accepts, gives the index and a
    count that is the sum of the lengths of its lists, one per line. *)
Theorem builder_failure_semantics (fs : filesystem) (path content : string) :
  fs !! path = Some content ->
  let lines := Py.splitlines (Py.read_text content) in
  ((exists line, line ∈ lines /\ length (Py.split Py.tab line) <> 5) ->
   exists e, _read_clang8_targets fs path = ([Open_read path], Raise e)) /\
  (forall good line rest,
     lines = good ++ line :: rest ->
     Forall (fun line => well_formed_target_line line = true) good ->
     length (Py.split Py.tab line) <> 5 ->
     _read_clang8_targets fs path =
       ([Open_read path],
        Raise (ValueError (if (length (Py.split Py.tab line) <? 5)%nat
                           then Not_enough_values else Too_many_values)))) /\
  (Forall (fun line => well_formed_target_line line = true) lines ->
   exists ids_2_targets,
     _read_clang8_targets fs path =
       ([Open_read path; Print (Targets_read (count_targets ids_2_targets))],
        Ok (ids_2_targets, count_targets ids_2_targets)) /\
     count_targets ids_2_targets = length lines).
Proof.
  intros Hfile lines. unfold _read_clang8_targets. rewrite Hfile.
  fold lines. split_and!.
  - intros (line & Hin & Hcount).
    destruct (add_targets_raises lines ∅) as [e ->]; [|by exists e].
    apply Exists_exists. exists line. split; [done|].
    rewrite target_of_line_well_formed, target_of_line_field_count by done. done.
  - intros good line rest -> Hgood Hcount.
    by rewrite (add_targets_first_bad good line rest ∅ _ Hgood
                  (target_of_line_field_count line Hcount)).
  - intros Hlines.
    destruct (add_targets_ok lines ∅ Hlines) as (m & -> & Hcount).
    exists m. split; [done|]. rewrite Hcount.
    unfold count_targets. by rewrite map_fold_empty.
Qed.

Lemma builder_failure_semantics_witness :
  (exists e,
     _read_clang8_targets {[ targets_path "targets" "en" := targets_with_short_line ]}
       (targets_path "targets" "en") =
     ([Open_read (targets_path "targets" "en")], Raise e)) /\
  (exists ids_2_targets,
     _read_clang8_targets {[ targets_path "targets" "en" := targets_unsorted ]}
       (targets_path "targets" "en") =
     ([Open_read (targets_path "targets" "en");
       Print (Targets_read (count_targets ids_2_targets))],
      Ok (ids_2_targets, count_targets ids_2_targets)) /\
     count_targets ids_2_targets = 3).
Proof.
  split.
  - assert (({[ targets_path "targets" "en" := targets_with_short_line ]} : filesystem)
              !! targets_path "targets" "en" = Some targets_with_short_line) as Hfile
      by (vm_compute; reflexivity).
    apply (proj1 (builder_failure_semantics _ _ _ Hfile)).
    exists (tsv ["1"; "2"; "1"; "Next sentence."]).
    split; [vm_compute; repeat constructor|vm_compute; lia].
  - assert (({[ targets_path "targets" "en" := targets_unsorted ]} : filesystem)
              !! targets_path "targets" "en" = Some targets_unsorted) as Hfile
      by (vm_compute; reflexivity).
    apply (proj2 (proj2 (builder_failure_semantics _ _ _ Hfile))).
    apply (bool_decide_unpack _). vm_compute. exact I.
Defined.

(** *** The driver *)

Lemma model_path_of_unsupported (language : string) :
  language <> "en" -> language <> "de" -> language <> "ru" ->
  model_path_of language = Raise (ValueError (Unsupported_language language)).
Proof.
  intros Hen Hde Hru. unfold model_path_of.
  apply String.eqb_neq in Hen, Hde, Hru. by rewrite Hen, Hde, Hru.
Qed.

Lemma model_path_of_supported (language model : string) :
  In (language, model) tokenizer_models -> model_path_of language = Ok model.
Proof.
  intros [E|[E|[E|[]]]]; by inversion E.
Qed.

(** C8. A language code other than en, de and ru makes the driver raise the
    unsupported-language error at once: no file is opened, nothing is
    printed or loaded, the file system is as before.  For en, de and ru the
    English, German and Russian model is chosen, and it is the one spaCy is
    asked to load when tokenization is on. *)
Theorem unsupported_language_fails_before_io `{!Externals}
    (fs : filesystem) (language clang8_targets_dir lang8_dir output_dir : string)
    (tokenize_text : bool) :
  (language <> "en" -> language <> "de" -> language <> "ru" ->
   _prepare_clang8 fs language clang8_targets_dir lang8_dir output_dir tokenize_text =
     (fs, [], Some (ValueError (Unsupported_language language)))) /\
  (forall model, In (language, model) tokenizer_models ->
   model_path_of language = Ok model /\
   exists fs' log st,
     _prepare_clang8 fs language clang8_targets_dir lang8_dir output_dir true =
       (fs', Spacy_load model disabled_components :: log, st)).
Proof.
  split.
  - intros Hen Hde Hru. unfold _prepare_clang8.
    by rewrite model_path_of_unsupported.
  - intros model Hmodel. apply model_path_of_supported in Hmodel as Hpath.
    split; [done|]. unfold _prepare_clang8. rewrite Hpath.
    destruct (spacy_load model disabled_components) as [nlp|e]; [|by eauto].
    destruct (_write_source_target_pairs_to_tsv _ _ _) as [[fs' log] st].
    by eauto.
Qed.

Lemma unsupported_language_fails_before_io_witness :
  @_prepare_clang8 fragment_externals
      {[ raw_path "lang8" := corpus_with_garbage ]} "fr" "./targets" "lang8"
      "./output_data" true =
    ({[ raw_path "lang8" := corpus_with_garbage ]}, [],
     Some (ValueError (Unsupported_language "fr"))) /\
  model_path_of "de" = Ok "de_core_news_sm".
Proof.
  split.
  - apply (proj1 (@unsupported_language_fails_before_io fragment_externals
                    {[ raw_path "lang8" := corpus_with_garbage ]} "fr" "./targets"
                    "lang8" "./output_data" true)); discriminate.
  - apply (proj2 (@unsupported_language_fails_before_io fragment_externals
                    ∅ "de" "./targets" "lang8" "./output_data" true)).
    simpl. auto.
Defined.

(** *** The tokenization stage *)

Lemma zip_docs_exhausted (source_docs target_docs : list Doc) :
  length source_docs = length target_docs ->
  zip_docs source_docs target_docs None None = (zip source_docs target_docs, None).
Proof.
  revert target_docs.
  induction source_docs as [|source source_docs IH];
    intros [|target target_docs] Hlen; simpl in *; try done.
  rewrite IH by lia. done.
Qed.

Lemma zip_segmented (segment : string -> list string) (pairs : list (string * string)) :
  map tokenized (zip (map segment (map fst pairs)) (map segment (map snd pairs))) =
    map (tokenized_texts segment) pairs.
Proof. induction pairs as [|[source target] pairs IH]; simpl; [done|]. by rewrite IH. Qed.

Lemma space_language_segments : segments_with space_language space_tokens.
Proof.
  intros texts batch_size. simpl. unfold space_pipe.
  induction texts as [|text texts IH]; simpl; [done|]. by rewrite IH.
Qed.

(** C4. Whatever the segmentation function, the tokenization stage yields
    one pair per input pair, in the same order: its i-th pair is the
    space-joined tokens of the i-th source and of the i-th target. *)
Theorem tokenize_keeps_order_and_arity (nlp : Language)
    (segment : string -> list string) (steps : list (item (value * value)))
    (pairs : list (string * string)) (batch_size : nat) :
  segments_with nlp segment ->
  yields steps = map text_pair pairs ->
  _tokenize (steps, None) nlp batch_size =
    (map Event (events steps) ++
       Event (Print Tokenizing) :: map Yield (map (tokenized_texts segment) pairs),
     None) /\
  length (yields (fst (_tokenize (steps, None) nlp batch_size))) = length pairs /\
  forall i source_target,
    pairs !! i = Some source_target ->
    yields (fst (_tokenize (steps, None) nlp batch_size)) !! i =
      Some (tokenized_texts segment source_target).
Proof.
  intros Hnlp Hpairs.
  assert (forall (A : Type) (log : list event) (l : list A),
            yields (map Event log ++ Event (Print Tokenizing) :: map Yield l) = l)
    as Hyields.
  { intros A log l. induction log as [|e log IH]; simpl; [|done].
    induction l as [|a l IHl]; simpl; [done|]. by rewrite IHl. }
  assert (_tokenize (steps, None) nlp batch_size =
            (map Event (events steps) ++
               Event (Print Tokenizing) :: map Yield (map (tokenized_texts segment) pairs),
             None)) as Hrun.
  { unfold _tokenize. rewrite Hpairs.
    replace (map fst (map text_pair pairs)) with (map VStr (map fst pairs))
      by (rewrite !map_map; done).
    replace (map snd (map text_pair pairs)) with (map VStr (map snd pairs))
      by (rewrite !map_map; done).
    rewrite !Hnlp, zip_docs_exhausted by (by rewrite !length_map).
    by rewrite zip_segmented. }
  rewrite Hrun. simpl. rewrite Hyields, length_map. split_and!; [done..|].
  intros i source_target Hi. by rewrite list_lookup_fmap, Hi.
Qed.

Lemma tokenize_keeps_order_and_arity_witness :
  let pairs := [("I has  a pen.", "I have a pen."); (" Hello wrold", "Hello world")] in
  _tokenize ([Event (Print (Sources_mapped 2));
              Yield (VStr "I has  a pen.", VStr "I have a pen.");
              Yield (VStr " Hello wrold", VStr "Hello world")], None)
      space_language 1000 =
    ([Event (Print (Sources_mapped 2)); Event (Print Tokenizing);
      Yield (VStr "I has a pen.", VStr "I have a pen.");
      Yield (VStr "Hello wrold", VStr "Hello world")], None).
Proof.
  intros pairs.
  exact (proj1 (tokenize_keeps_order_and_arity space_language space_tokens
                  [Event (Print (Sources_mapped 2));
                   Yield (VStr "I has  a pen.", VStr "I have a pen.");
                   Yield (VStr " Hello wrold", VStr "Hello world")]
                  pairs 1000 space_language_segments eq_refl)).
Defined.

(** *** The join: the inner loop *)

Lemma mapM_result_cons {A B} (f : A -> result B) (x : A) (l : list A) :
  mapM f (x :: l) =
    match f x with
    | Ok y =>
        match mapM f l with
        | Ok k => Ok (y :: k)
        | Raise e => Raise e
        end
    | Raise e => Raise e
    end.
Proof. simpl. destruct (f x); [|done]. simpl. by destruct (mapM f l). Qed.

Lemma source_target_unfold (sources : value) (i : Z) (target : string) :
  source_target sources (i, target) =
    match py_getitem sources i with
    | Ok source => Ok (source, VStr target)
    | Raise e => Raise e
    end.
Proof. unfold source_target. simpl. by destruct (py_getitem sources i). Qed.

Lemma try_source_target_unfold (sources : value) (i : Z) (target : string) :
  try_source_target sources (i, target) =
    match py_getitem sources i with
    | Ok source => Some (source, VStr target)
    | Raise _ => None
    end.
Proof.
  unfold try_source_target. rewrite source_target_unfold.
  by destruct (py_getitem sources i).
Qed.

Lemma yield_targets_app (sources : value) (earlier later : list (Z * string))
    (pairs : list (value * value)) (n : nat) :
  mapM (source_target sources) earlier = Ok pairs ->
  yield_targets sources (earlier ++ later) n =
    (pairs ++ fst (yield_targets sources later (n + length earlier)),
     snd (yield_targets sources later (n + length earlier))) /\
  length pairs = length earlier.
Proof.
  revert pairs n. induction earlier as [|[i t] earlier IH]; intros pairs n.
  - simpl. intros [= <-]. rewrite Nat.add_0_r.
    by destruct (yield_targets sources later n).
  - rewrite mapM_result_cons, source_target_unfold. simpl.
    destruct (py_getitem sources i) as [source|e]; [|done].
    destruct (mapM (source_target sources) earlier) as [ps|e] eqn:Hps; [|done].
    intros [= <-]. destruct (IH ps (S n) eq_refl) as [-> Hlen].
    rewrite Nat.add_succ_comm. simpl. by rewrite Hlen.
Qed.

Lemma yield_targets_ok (sources : value) (targets : list (Z * string))
    (pairs : list (value * value)) (n : nat) :
  mapM (source_target sources) targets = Ok pairs ->
  yield_targets sources targets n = (pairs, Ok (n + length targets)).
Proof.
  intros Hpairs.
  destruct (yield_targets_app sources targets [] pairs n Hpairs) as [Happ _].
  rewrite !app_nil_r in Happ. done.
Qed.

Lemma yield_targets_raise (sources : value) (earlier later : list (Z * string))
    (i : Z) (target : string) (pairs : list (value * value)) (n : nat) e :
  mapM (source_target sources) earlier = Ok pairs ->
  py_getitem sources i = Raise e ->
  yield_targets sources (earlier ++ (i, target) :: later) n = (pairs, Raise e).
Proof.
  intros Hpairs Hraise.
  destruct (yield_targets_app sources earlier ((i, target) :: later) pairs n Hpairs)
    as [-> _].
  simpl. rewrite Hraise. simpl. by rewrite app_nil_r.
Qed.

(** What the inner loop has emitted is always a prefix of the pairs of the
    target list, in its order, and all of them when the loop ends. *)
Lemma yield_targets_order (sources : value) (targets : list (Z * string)) (n : nat) :
  fst (yield_targets sources targets n)
    `prefix_of` omap (try_source_target sources) targets /\
  forall n', snd (yield_targets sources targets n) = Ok n' ->
    fst (yield_targets sources targets n) = omap (try_source_target sources) targets /\
    length (fst (yield_targets sources targets n)) = length targets /\
    n' = n + length targets.
Proof.
  revert n. induction targets as [|[i t] targets IH]; intros n; simpl.
  - split; [done|]. intros n' [= <-]. split_and!; [done..|lia].
  - rewrite try_source_target_unfold.
    destruct (py_getitem sources i) as [source|e]; simpl.
    + destruct (IH (S n)) as [Hprefix Hok].
      destruct (yield_targets sources targets (S n)) as [pairs r]; simpl in *.
      split; [by apply prefix_cons|].
      intros n' Hr. destruct (Hok n' Hr) as (-> & Hlen & ->).
      split_and!; [done| |lia]. by rewrite Hlen.
    + split; [apply prefix_nil|done].
Qed.

(** *** The join: the outer loop *)

Lemma yields_app {A} (steps steps' : list (item A)) :
  yields (steps ++ steps') = yields steps ++ yields steps'.
Proof. induction steps as [|[e|a] steps IH]; simpl; [done..|by rewrite IH]. Qed.

Lemma events_app {A} (steps steps' : list (item A)) :
  events (steps ++ steps') = events steps ++ events steps'.
Proof. induction steps as [|[e|a] steps IH]; simpl; [done|by rewrite IH|done]. Qed.

Lemma yields_map_Yield {A} (l : list A) : yields (map Yield l) = l.
Proof. induction l as [|a l IH]; simpl; [done|by rewrite IH]. Qed.

Lemma events_map_Yield {A} (l : list A) : events (map Yield l) = [].
Proof. by induction l. Qed.

Lemma yields_map_Event {A} (log : list event) : yields (map (@Event A) log) = [].
Proof. by induction log. Qed.

Lemma events_map_Event {A} (log : list event) : events (map (@Event A) log) = log.
Proof. induction log as [|e log IH]; simpl; [done|by rewrite IH]. Qed.

Lemma key_of_row_ids (row : value) (key : Z * Z) (sources : value) :
  row_ids row = Ok (key, sources) -> key_of_row row = Some key.
Proof. unfold key_of_row. by intros ->. Qed.

Lemma pairs_of_row_ids targets_of (row : value) (key : Z * Z) (sources : value) :
  row_ids row = Ok (key, sources) ->
  pairs_of_row targets_of row = omap (try_source_target sources) (targets_of key).
Proof. unfold pairs_of_row. by intros ->. Qed.

Lemma join_loop_app (ids_2_targets : targets_index) (before rest : list (item value))
    (n n' : nat) steps :
  join_loop ids_2_targets before n = (steps, Ok n') ->
  join_loop ids_2_targets (before ++ rest) n =
    (steps ++ fst (join_loop ids_2_targets rest n'),
     snd (join_loop ids_2_targets rest n')).
Proof.
  revert n steps. induction before as [|[e|row] before IH]; intros n steps; simpl.
  - intros [= <- <-]. by destruct (join_loop ids_2_targets rest n).
  - destruct (join_loop ids_2_targets before n) as [steps0 r0] eqn:Hbefore.
    intros [= <- ->]. by rewrite (IH n steps0 Hbefore).
  - destruct (row_ids row) as [[key sources]|e]; [|done].
    destruct (yield_targets sources (default [] (ids_2_targets !! key)) n)
      as [pairs [n0|e]]; [|done].
    destruct (join_loop ids_2_targets before n0) as [steps0 r0] eqn:Hbefore.
    intros [= <- ->]. rewrite (IH n0 steps0 Hbefore). by rewrite <- app_assoc.
Qed.

(** What the join has emitted is always a prefix of the pairs of the rows
    taken in stream order, each with its targets in list order; when the
    loop ends it has emitted all of them, counted them, and passed on the
    events of the raw-corpus generator. *)
Lemma join_loop_order (ids_2_targets : targets_index) (rows : list (item value))
    (n : nat) :
  yields (fst (join_loop ids_2_targets rows n))
    `prefix_of` pairs_in_order (index_targets ids_2_targets) (yields rows) /\
  forall n', snd (join_loop ids_2_targets rows n) = Ok n' ->
    yields (fst (join_loop ids_2_targets rows n)) =
      pairs_in_order (index_targets ids_2_targets) (yields rows) /\
    n' = n + length (yields (fst (join_loop ids_2_targets rows n))) /\
    events (fst (join_loop ids_2_targets rows n)) = events rows /\
    length (yields (fst (join_loop ids_2_targets rows n))) =
      sum_list (map (fun key => length (index_targets ids_2_targets key))
                    (raw_keys rows)) /\
    length (raw_keys rows) = length (yields rows).
Proof.
  revert n. induction rows as [|[e|row] rows IH]; intros n; simpl.
  - split; [done|]. intros n' [= <-]. split_and!; [done| |done..]. lia.
  - destruct (IH n) as [Hprefix Hok].
    destruct (join_loop ids_2_targets rows n) as [steps r]; simpl in *.
    split; [done|]. intros n' Hr.
    destruct (Hok n' Hr) as (Hy & Hn & He & Hlen & Hkeys).
    split_and!; try done. by rewrite He.
  - unfold raw_keys. simpl. fold (raw_keys rows).
    destruct (row_ids row) as [[key sources]|e] eqn:Hrow; simpl.
    + rewrite (key_of_row_ids _ _ _ Hrow), (pairs_of_row_ids _ _ _ _ Hrow). simpl.
      change (default [] (ids_2_targets !! key))
        with (index_targets ids_2_targets key).
      destruct (yield_targets_order sources (index_targets ids_2_targets key) n)
        as [Hinner Hinner_ok].
      destruct (yield_targets sources (index_targets ids_2_targets key) n)
        as [pairs [n0|e]]; simpl in *.
      * destruct (Hinner_ok n0 eq_refl) as (-> & Hlen0 & ->).
        destruct (IH (n + length (index_targets ids_2_targets key)))
          as [Hprefix Hok].
        destruct (join_loop ids_2_targets rows
                    (n + length (index_targets ids_2_targets key)))
          as [steps r]; simpl in *.
        rewrite yields_app, yields_map_Yield, events_app, events_map_Yield.
        split; [by apply prefix_app|]. intros n' Hr.
        destruct (Hok n' Hr) as (Hy & Hn & He & Hlen & Hkeys).
        change (list_omap value (Z * Z)%type key_of_row (yields rows))
          with (raw_keys rows).
        rewrite length_app, Hlen0, <- Hlen, <- Hy, Hkeys.
        split_and!; try done. lia.
      * rewrite yields_map_Yield. split; [|done].
        by apply prefix_app_r.
    + unfold key_of_row, pairs_of_row. rewrite Hrow. simpl.
      split; [apply prefix_nil|done].
Qed.

(** *** Counting the entries of the index *)

Lemma count_targets_empty : count_targets ∅ = 0.
Proof. apply map_fold_empty. Qed.

Lemma matched_targets_empty (keys : list (Z * Z)) : matched_targets ∅ keys = 0.
Proof. apply map_fold_empty. Qed.

Lemma count_targets_fresh (m : targets_index) key targets :
  m !! key = None ->
  count_targets (<[key := targets]> m) = length targets + count_targets m.
Proof. apply (weighted_sum_fresh (fun _ targets => length targets)). Qed.

Lemma matched_targets_fresh (m : targets_index) key targets (keys : list (Z * Z)) :
  m !! key = None ->
  matched_targets (<[key := targets]> m) keys =
    (if decide (key ∈ keys) then length targets else 0) + matched_targets m keys.
Proof.
  apply (weighted_sum_fresh
           (fun key targets => if decide (key ∈ keys) then length targets else 0)).
Qed.

Lemma matched_targets_cons (m : targets_index) (key : Z * Z) (keys : list (Z * Z)) :
  matched_targets m (key :: keys) =
    matched_targets m keys +
    (if decide (key ∈ keys) then 0 else length (index_targets m key)).
Proof.
  unfold index_targets.
  induction m as [|i x m Hfresh IH] using map_ind.
  - rewrite !matched_targets_empty, lookup_empty. simpl. by case_decide.
  - rewrite !matched_targets_fresh, IH by done.
    destruct (decide (i = key)) as [->|Hne].
    + rewrite lookup_insert_eq, Hfresh. simpl.
      rewrite decide_True by apply list_elem_of_here.
      case_decide; lia.
    + rewrite lookup_insert_ne by done.
      destruct (decide (i ∈ keys)) as [Hin|Hnin].
      * rewrite decide_True by (by apply list_elem_of_further). lia.
      * rewrite decide_False; [lia|].
        intros [->|Hin]%elem_of_cons; done.
Qed.

Lemma matched_targets_le (m : targets_index) (keys : list (Z * Z)) :
  matched_targets m keys <= count_targets m.
Proof.
  induction m as [|i x m Hfresh IH] using map_ind.
  - by rewrite matched_targets_empty, count_targets_empty.
  - rewrite matched_targets_fresh, count_targets_fresh by done.
    case_decide; lia.
Qed.

(** All the entries are matched exactly when every key that has entries
    occurs among [keys]. *)
Lemma matched_targets_all (m : targets_index) (keys : list (Z * Z)) :
  matched_targets m keys = count_targets m <->
  forall key targets, m !! key = Some targets -> targets <> [] -> key ∈ keys.
Proof.
  induction m as [|i x m Hfresh IH] using map_ind.
  - rewrite matched_targets_empty, count_targets_empty.
    split; [|done]. intros _ key targets. by rewrite lookup_empty.
  - rewrite matched_targets_fresh, count_targets_fresh by done.
    pose proof (matched_targets_le m keys) as Hle. split.
    + intros Heq key targets Hkey Hne.
      destruct (decide (i = key)) as [->|Hik].
      * rewrite lookup_insert_eq in Hkey. injection Hkey as ->.
        destruct (decide (key ∈ keys)); [done|].
        destruct targets; [done|]. simpl in Heq. lia.
      * rewrite lookup_insert_ne in Hkey by done.
        apply IH with targets; [|done..]. case_decide; lia.
    + intros Hall.
      assert (matched_targets m keys = count_targets m) as ->.
      { apply IH. intros key targets Hkey Hne. apply Hall with targets; [|done].
        rewrite lookup_insert_ne; [done|]. intros ->. congruence. }
      destruct (decide (i ∈ keys)) as [|Hnin]; [done|].
      destruct x as [|entry x]; [done|]. exfalso. apply Hnin.
      apply Hall with (entry :: x); [apply lookup_insert_eq|done].
Qed.

(** *** The order and the shape of the index *)

Lemma index_targets_append (m : targets_index) (key key' : Z * Z) (entry : Z * string) :
  index_targets (append_target m key entry) key' =
    index_targets m key' ++ (if decide (key = key') then [entry] else []).
Proof.
  unfold index_targets, append_target. case_decide as Hkey.
  - subst key'. by rewrite lookup_insert_eq.
  - rewrite lookup_insert_ne by done. by rewrite app_nil_r.
Qed.

Lemma file_targets_cons (key key' : Z * Z) (entry : Z * string) entries :
  file_targets ((key, entry) :: entries) key' =
    (if decide (key = key') then [entry] else []) ++ file_targets entries key'.
Proof.
  unfold file_targets. rewrite filter_cons. simpl. by case_decide.
Qed.

(** Each list of the index holds the entries of its key in the order of the
    lines of the file. *)
Lemma add_targets_file_order (lines : list string) (m m' : targets_index) :
  add_targets m lines = Ok m' ->
  exists entries,
    mapM target_of_line lines = Ok entries /\
    forall key, index_targets m' key = index_targets m key ++ file_targets entries key.
Proof.
  revert m. induction lines as [|line lines IH]; intros m.
  - simpl. intros [= <-]. exists []. split; [done|].
    intros key. unfold file_targets. simpl. by rewrite app_nil_r.
  - simpl add_targets. rewrite add_target_unfold, mapM_result_cons.
    destruct (target_of_line line) as [[key entry]|e]; [|done].
    intros Hrest. destruct (IH _ Hrest) as (entries & -> & Hentries).
    exists ((key, entry) :: entries). split; [done|]. intros key'.
    by rewrite Hentries, index_targets_append, file_targets_cons, app_assoc.
Qed.

(** The builder never stores an empty list. *)
Lemma add_targets_nonempty (lines : list string) (m m' : targets_index) :
  add_targets m lines = Ok m' ->
  (forall key targets, m !! key = Some targets -> targets <> []) ->
  forall key targets, m' !! key = Some targets -> targets <> [].
Proof.
  revert m. induction lines as [|line lines IH]; intros m.
  - simpl. by intros [= <-].
  - simpl add_targets. rewrite add_target_unfold.
    destruct (target_of_line line) as [[key entry]|e]; [|done].
    intros Hrest Hm. apply (IH _ Hrest). intros key' targets.
    unfold append_target. destruct (decide (key = key')) as [<-|Hne].
    + rewrite lookup_insert_eq. intros [= <-]. by destruct (default [] (m !! key)).
    + rewrite lookup_insert_ne by done. apply Hm.
Qed.

Lemma built_index_nonempty (lines : list string) (ids_2_targets : targets_index) :
  add_targets ∅ lines = Ok ids_2_targets ->
  forall key targets, ids_2_targets !! key = Some targets -> targets <> [].
Proof.
  intros Hbuilt. apply (add_targets_nonempty lines ∅ _ Hbuilt).
  intros key targets. by rewrite lookup_empty.
Qed.

(** *** The join as a generator *)

Lemma join_rows_yields (ids_2_targets : targets_index) (raw : gen value) :
  yields (fst (join_rows ids_2_targets raw)) =
    yields (fst (join_loop ids_2_targets (fst raw) 0)).
Proof.
  unfold join_rows. destruct raw as [rows stop]. simpl.
  destruct (join_loop ids_2_targets rows 0) as [steps [n|e]]; [|done].
  destruct stop; [done|]. simpl. by rewrite yields_app, app_nil_r.
Qed.

Lemma join_rows_ends (ids_2_targets : targets_index) (raw : gen value) :
  snd (join_rows ids_2_targets raw) = None ->
  exists n,
    snd (join_loop ids_2_targets (fst raw) 0) = Ok n /\
    snd raw = None /\
    fst (join_rows ids_2_targets raw) =
      fst (join_loop ids_2_targets (fst raw) 0) ++ [Event (Print (Sources_mapped n))].
Proof.
  unfold join_rows. destruct raw as [rows stop]. simpl.
  destruct (join_loop ids_2_targets rows 0) as [steps [n|e]]; [|done].
  destruct stop; [done|]. by exists n.
Qed.

Lemma pairs_in_order_ext (targets_of targets_of' : Z * Z -> list (Z * string))
    (rows : list value) :
  (forall key, targets_of key = targets_of' key) ->
  pairs_in_order targets_of rows = pairs_in_order targets_of' rows.
Proof.
  intros Hext. unfold pairs_in_order.
  induction rows as [|row rows IH]; simpl; [done|]. rewrite IH. f_equal.
  unfold pairs_of_row. destruct (row_ids row) as [[key sources]|]; [|done].
  by rewrite Hext.
Qed.

(** C3. The pairs come out in the order of the raw-record stream, and for
    one record in the order in which the entries of its key stand in the
    targets file, which is the order of the builder's list, whatever the
    sentence numbers are: what the join emits is a prefix of that
    enumeration, and all of it when the join runs to its end. *)
Theorem join_output_order (lines : list string) (ids_2_targets : targets_index)
    (raw : gen value) :
  add_targets ∅ lines = Ok ids_2_targets ->
  exists entries,
    mapM target_of_line lines = Ok entries /\
    (forall key, index_targets ids_2_targets key = file_targets entries key) /\
    yields (fst (join_rows ids_2_targets raw))
      `prefix_of` pairs_in_order (file_targets entries) (yields (fst raw)) /\
    (snd (join_rows ids_2_targets raw) = None ->
     yields (fst (join_rows ids_2_targets raw)) =
       pairs_in_order (file_targets entries) (yields (fst raw))).
Proof.
  intros Hbuilt.
  destruct (add_targets_file_order lines ∅ _ Hbuilt) as (entries & Hentries & Horder).
  assert (forall key, index_targets ids_2_targets key = file_targets entries key)
    as Hkeys.
  { intros key. rewrite Horder. unfold index_targets. by rewrite lookup_empty. }
  exists entries. split_and!; [done..| |].
  - rewrite join_rows_yields,
      <- (pairs_in_order_ext _ _ (yields (fst raw)) Hkeys).
    apply join_loop_order.
  - intros Hend. destruct (join_rows_ends _ _ Hend) as (n & Hloop & _ & _).
    rewrite join_rows_yields,
      <- (pairs_in_order_ext _ _ (yields (fst raw)) Hkeys).
    by apply (proj2 (join_loop_order ids_2_targets (fst raw) 0) n Hloop).
Qed.

Lemma join_output_order_witness :
  exists entries,
    mapM target_of_line unsorted_lines = Ok entries /\
    (forall key, index_targets (built_index unsorted_lines) key =
                 file_targets entries key) /\
    yields (fst (join_rows (built_index unsorted_lines)
                   ([Yield pen_row; Yield hello_row], None)))
      `prefix_of` pairs_in_order (file_targets entries) [pen_row; hello_row] /\
    snd (join_rows (built_index unsorted_lines)
           ([Yield pen_row; Yield hello_row], None)) = None /\
    yields (fst (join_rows (built_index unsorted_lines)
                   ([Yield pen_row; Yield hello_row], None))) =
      pairs_in_order (file_targets entries) [pen_row; hello_row].
Proof.
  destruct (join_output_order unsorted_lines (built_index unsorted_lines)
              ([Yield pen_row; Yield hello_row], None)
              ltac:(vm_compute; reflexivity))
    as (entries & Hentries & Hkeys & Hprefix & Hend).
  exists entries.
  assert (snd (join_rows (built_index unsorted_lines)
                 ([Yield pen_row; Yield hello_row], None)) = None) as Hnone
    by (vm_compute; reflexivity).
  split_and!; [done..|]. exact (Hend Hnone).
Defined.

(** On that file, sentence 1 of record (1, 2) comes out before
    sentence 0. *)
Example join_output_not_sorted :
  yields (fst (join_rows (built_index unsorted_lines)
                 ([Yield pen_row; Yield hello_row], None))) =
    [(VStr "Next sentence.", VStr "Next sentence!");
     (VStr "Hello wrold.", VStr "Hello world.")].
Proof. reflexivity. Qed.

(** *** Join completeness *)

Lemma matched_targets_nil (m : targets_index) : matched_targets m [] = 0.
Proof.
  induction m as [|i x m Hfresh IH] using map_ind.
  - apply matched_targets_empty.
  - rewrite matched_targets_fresh, IH by done.
    rewrite decide_False; [done|]. by intros ?%elem_of_nil.
Qed.

Lemma occurrences_elem (key : Z * Z) (keys : list (Z * Z)) :
  key ∈ keys -> 0 < occurrences key keys.
Proof.
  unfold occurrences. induction keys as [|key' keys IH]; intros Hin.
  - by apply elem_of_nil in Hin.
  - rewrite filter_cons. case_decide as Hkey; simpl; [lia|].
    apply elem_of_cons in Hin as [->|Hin]; [done|by apply IH].
Qed.



Lemma occurrences_cons (key key' : Z * Z) (keys : list (Z * Z)) :
  occurrences key (key' :: keys) =
    (if decide (key' = key) then 1 else 0) + occurrences key keys.
Proof. unfold occurrences. rewrite filter_cons. by case_decide. Qed.

(** When no key of the index is the key of two rows, every entry is looked
    up at most once. *)
Lemma looked_up_once (m : targets_index) (keys : list (Z * Z)) :
  (forall key, key ∈ dom m -> occurrences key keys <= 1) ->
  looked_up m keys = matched_targets m keys.
Proof.
  unfold looked_up. induction keys as [|key keys IH]; intros Honce; simpl.
  - by rewrite matched_targets_nil.
  - rewrite matched_targets_cons, IH.
    2:{ intros key' Hkey'. specialize (Honce key' Hkey').
        rewrite occurrences_cons in Honce. lia. }
    destruct (decide (key ∈ keys)) as [Hin|Hnin]; [|lia].
    assert (key ∉ dom m) as Hdom.
    { intros Hkey. specialize (Honce key Hkey).
      rewrite occurrences_cons, decide_True in Honce by done.
      pose proof (occurrences_elem key keys Hin). lia. }
    apply not_elem_of_dom in Hdom. unfold index_targets. rewrite Hdom. simpl. lia.
Qed.

Lemma join_rows_count (ids_2_targets : targets_index) (raw : gen value) :
  snd (join_rows ids_2_targets raw) = None ->
  length (yields (fst (join_rows ids_2_targets raw))) =
    looked_up ids_2_targets (raw_keys (fst raw)) /\
  events (fst (join_rows ids_2_targets raw)) =
    events (fst raw) ++
    [Print (Sources_mapped (length (yields (fst (join_rows ids_2_targets raw)))))].
Proof.
  intros Hend. destruct (join_rows_ends _ _ Hend) as (n & Hloop & _ & Hsteps).
  destruct (proj2 (join_loop_order ids_2_targets (fst raw) 0) n Hloop)
    as (_ & Hn & Hevents & Hlen & _).
  rewrite join_rows_yields. split; [done|].
  rewrite Hsteps, events_app, Hevents. simpl. by rewrite Hn.
Qed.

Lemma length_omap_le {A B} (f : A -> option B) (l : list A) :
  length (omap f l) <= length l.
Proof.
  induction l as [|x l IH]; [done|].
  change (omap f (x :: l))
    with (match f x with Some y => y :: omap f l | None => omap f l end).
  destruct (f x); simpl; lia.
Qed.

(** Whether it ends or raises, the join emits at most one pair for every
    entry it looks up. *)
Lemma join_rows_at_most (ids_2_targets : targets_index) (raw : gen value) :
  length (yields (fst (join_rows ids_2_targets raw)))
    <= looked_up ids_2_targets (raw_keys (fst raw)).
Proof.
  rewrite join_rows_yields.
  pose proof (proj1 (join_loop_order ids_2_targets (fst raw) 0)) as Hprefix.
  apply prefix_length in Hprefix.
  etransitivity; [exact Hprefix|]. clear Hprefix.
  unfold pairs_in_order, looked_up, raw_keys.
  induction (yields (fst raw)) as [|row rows IH]; [done|].
  change (omap key_of_row (row :: rows))
    with (match key_of_row row with
          | Some key => key :: omap key_of_row rows
          | None => omap key_of_row rows
          end).
  simpl flat_map. rewrite length_app. unfold pairs_of_row at 1, key_of_row at 1.
  destruct (row_ids row) as [[key sources]|e]; simpl; [|done].
  pose proof (length_omap_le (try_source_target sources)
                (index_targets ids_2_targets key)). lia.
Qed.

(** The number of emitted pairs and the number of matched entries can
    differ, in two ways.  A key that two rows of the raw stream have is
    looked up twice: with one target of record (1, 2) and a stream in which
    the record stands twice, the join emits 2 pairs where 1 entry is matched
    and the builder counts 1.  And a join that raises emits fewer: with
    three targets of record (1, 2), the third of which names a sentence the
    record has not, it emits 2 pairs where 3 entries are matched. *)
Lemma join_completeness_counterexample :
  let emitted :=
    length (yields (fst (join_rows (built_index hello_lines) raw_with_duplicate))) in
  let emitted' :=
    length (yields (fst (join_rows (built_index bounds_lines) raw_of_hello))) in
  (add_targets ∅ hello_lines = Ok (built_index hello_lines) /\
   snd (join_rows (built_index hello_lines) raw_with_duplicate) = None /\
   emitted = 2 /\
   matched_targets (built_index hello_lines) (raw_keys (fst raw_with_duplicate)) = 1 /\
   count_targets (built_index hello_lines) = 1 /\
   emitted <> matched_targets (built_index hello_lines)
                (raw_keys (fst raw_with_duplicate)) /\
   ~ emitted <= count_targets (built_index hello_lines)) /\
  (add_targets ∅ bounds_lines = Ok (built_index bounds_lines) /\
   raw_keys (fst raw_of_hello) = [(1, 2)%Z] /\
   snd (join_rows (built_index bounds_lines) raw_of_hello) = Some IndexError /\
   emitted' = 2 /\
   matched_targets (built_index bounds_lines) (raw_keys (fst raw_of_hello)) = 3 /\
   emitted' <> matched_targets (built_index bounds_lines)
                 (raw_keys (fst raw_of_hello))).
Proof.
  split; split_and!; try (by vm_compute).
  vm_compute. lia.
Qed.

(** C1, amended.  When no key of the index is the key of more than one row
    of the raw stream, the number of pairs that the join emits is at most
    the number of target entries whose key occurs in the raw corpus, which
    is at most the count that the builder reports.  When the join moreover
    runs to its end, the number of pairs it emits (and reports) is the
    number of target entries whose key occurs in the raw corpus, and it is
    equal to the builder's count exactly when every key of the index occurs
    in the raw corpus. *)
Theorem join_completeness (lines : list string) (ids_2_targets : targets_index)
    (raw : gen value) :
  add_targets ∅ lines = Ok ids_2_targets ->
  (forall key, key ∈ dom ids_2_targets ->
               occurrences key (raw_keys (fst raw)) <= 1) ->
  let emitted := length (yields (fst (join_rows ids_2_targets raw))) in
  let matched := matched_targets ids_2_targets (raw_keys (fst raw)) in
  emitted <= matched /\
  matched <= count_targets ids_2_targets /\
  (snd (join_rows ids_2_targets raw) = None ->
   emitted = matched /\
   events (fst (join_rows ids_2_targets raw)) =
     events (fst raw) ++ [Print (Sources_mapped emitted)] /\
   (emitted = count_targets ids_2_targets <->
    forall key, key ∈ dom ids_2_targets -> key ∈ raw_keys (fst raw))).
Proof.
  intros Hbuilt Honce emitted matched.
  pose proof (looked_up_once ids_2_targets (raw_keys (fst raw)) Honce) as Hlooked.
  split_and!.
  - unfold emitted, matched. rewrite <- Hlooked. apply join_rows_at_most.
  - apply matched_targets_le.
  - intros Hend. destruct (join_rows_count _ _ Hend) as [Hcount Hevents].
    assert (emitted = matched) as Hemitted
      by (unfold emitted, matched; by rewrite Hcount).
    split_and!; [done..|].
    rewrite Hemitted. unfold matched. rewrite matched_targets_all. split.
    + intros Hall key [targets Hkey]%elem_of_dom.
      apply Hall with targets; [done|].
      by apply (built_index_nonempty lines ids_2_targets Hbuilt key).
    + intros Hall key targets Hkey _. apply Hall, elem_of_dom. by exists targets.
Qed.

Lemma join_completeness_witness :
  let raw : gen value := ([Yield pen_row; Yield pen_row; Yield hello_row], None) in
  let emitted := length (yields (fst (join_rows (built_index unsorted_lines) raw))) in
  let matched := matched_targets (built_index unsorted_lines) (raw_keys (fst raw)) in
  raw_keys (fst raw) = [(3, 4); (3, 4); (1, 2)]%Z /\
  emitted <= matched /\
  matched <= count_targets (built_index unsorted_lines) /\
  emitted = matched /\
  events (fst (join_rows (built_index unsorted_lines) raw)) =
    [] ++ [Print (Sources_mapped emitted)] /\
  (emitted = count_targets (built_index unsorted_lines) <->
   forall key, key ∈ dom (built_index unsorted_lines) -> key ∈ raw_keys (fst raw)).
Proof.
  intros raw emitted matched.
  assert (raw_keys (fst raw) = [(3, 4); (3, 4); (1, 2)]%Z) as Hkeys
    by (vm_compute; reflexivity).
  assert (forall key, key ∈ dom (built_index unsorted_lines) ->
                      occurrences key (raw_keys (fst raw)) <= 1) as Honce.
  { intros key Hkey. rewrite Hkeys, !occurrences_cons.
    change (occurrences key []) with 0.
    assert ((3, 4)%Z ∉ dom (built_index unsorted_lines)) as Hpen
      by (apply not_elem_of_dom; vm_compute; reflexivity).
    repeat case_decide; simplify_eq; lia. }
  destruct (join_completeness unsorted_lines (built_index unsorted_lines) raw
              ltac:(vm_compute; reflexivity) Honce) as (Hle & Hcount & Hend).
  destruct (Hend ltac:(vm_compute; reflexivity)) as (Heq & Hevents & Hall).
  split_and!; done.
Defined.

(** *** Rows that share a key *)







(** *** Sentence numbers out of range *)

Lemma seq_getitem_beyond {A} (seq : list A) (i : Z) :
  (Z.of_nat (length seq) <= i)%Z -> seq_getitem seq i = Raise IndexError.
Proof.
  intros Hi. unfold seq_getitem.
  destruct (Z.ltb_spec i 0) as [?|_]; [lia|].
  destruct (Z.ltb_spec i 0) as [?|_]; [lia|].
  destruct (Z.leb_spec (Z.of_nat (length seq)) i) as [_|?]; [done|lia].
Qed.

Lemma seq_getitem_from_end {A} (seq : list A) (i : Z) :
  (- Z.of_nat (length seq) <= i < 0)%Z ->
  exists x,
    seq !! Z.to_nat (Z.of_nat (length seq) + i) = Some x /\
    seq_getitem seq i = Ok x.
Proof.
  intros Hi. unfold seq_getitem.
  destruct (Z.ltb_spec i 0) as [_|?]; [|lia].
  destruct (Z.ltb_spec (i + Z.of_nat (length seq)) 0) as [?|_]; [lia|].
  destruct (Z.leb_spec (Z.of_nat (length seq)) (i + Z.of_nat (length seq)))
    as [?|_]; [lia|]. simpl.
  replace (Z.of_nat (length seq) + i)%Z with (i + Z.of_nat (length seq))%Z by lia.
  destruct (seq !! Z.to_nat (i + Z.of_nat (length seq))) as [x|] eqn:Hx.
  - by exists x.
  - apply lookup_ge_None in Hx. lia.
Qed.

(** A generator that raises makes the writer raise: the run is aborted. *)
Lemma write_pairs_aborts (steps : list (item (value * value))) e (written : string) :
  snd (write_pairs steps (Some e) written) <> None.
Proof.
  revert written. induction steps as [|[ev|source_target] steps IH]; intros written;
    simpl; [done| |].
  - specialize (IH written).
    by destruct (write_pairs steps (Some e) written) as [[log written'] st].
  - destruct (tsv_line source_target); [apply IH|done].
Qed.

Lemma writer_aborts `{!Externals} (pairs : filesystem -> gen (value * value))
    (fs : filesystem) (output_path : string) :
  (forall fs', snd (pairs fs') <> None) ->
  snd (_write_source_target_pairs_to_tsv pairs fs output_path) <> None.
Proof.
  intros Hraises. unfold _write_source_target_pairs_to_tsv.
  destruct (open_for_writing output_path); [done|].
  specialize (Hraises (<[output_path := EmptyString]> fs)).
  destruct (pairs (<[output_path := EmptyString]> fs)) as [steps [e|]]; [|done].
  pose proof (write_pairs_aborts steps e EmptyString) as Hab.
  by destruct (write_pairs steps (Some e) EmptyString) as [[log written] st].
Qed.

(** C9. The join neither checks nor skips a sentence number that is out of
    range.  For a row whose sentences are a list: a number that is at least
    the number of sentences makes the join raise [IndexError] right after
    the pairs emitted so far, which aborts the run; a negative number of
    absolute value at most the number of sentences makes it emit, without
    any error, the sentence counted from the end of the list. *)
Theorem join_index_bounds `{!Externals} (ids_2_targets : targets_index)
    (before rest : list (item value)) (stop : option exception) (row : value)
    (key : Z * Z) (sentences : list value) (earlier later : list (Z * string))
    (i : Z) (target : string) (steps : list (item (value * value))) (n : nat)
    (pairs : list (value * value)) :
  join_loop ids_2_targets before 0 = (steps, Ok n) ->
  row_ids row = Ok (key, VList sentences) ->
  ids_2_targets !! key = Some (earlier ++ (i, target) :: later) ->
  mapM (source_target (VList sentences)) earlier = Ok pairs ->
  let raw : gen value := (before ++ Yield row :: rest, stop) in
  ((Z.of_nat (length sentences) <= i)%Z ->
   join_rows ids_2_targets raw = (steps ++ map Yield pairs, Some IndexError) /\
   forall fs output_path,
     snd (_write_source_target_pairs_to_tsv
            (fun _ => join_rows ids_2_targets raw) fs output_path) <> None) /\
  ((- Z.of_nat (length sentences) <= i < 0)%Z ->
   exists sentence,
     sentences !! Z.to_nat (Z.of_nat (length sentences) + i) = Some sentence /\
     (steps ++ map Yield (pairs ++ [(sentence, VStr target)]))
       `prefix_of` fst (join_rows ids_2_targets raw)).
Proof.
  intros Hbefore Hrow Hkey Hearlier raw.
  assert (join_loop ids_2_targets (before ++ Yield row :: rest) 0 =
            (steps ++ fst (join_loop ids_2_targets (Yield row :: rest) n),
             snd (join_loop ids_2_targets (Yield row :: rest) n))) as Hloop
    by apply (join_loop_app _ _ _ _ _ _ Hbefore).
  simpl in Hloop. rewrite Hrow, Hkey in Hloop. simpl in Hloop.
  split.
  - intros Hi.
    rewrite (yield_targets_raise (VList sentences) earlier later i target pairs n
               IndexError Hearlier) in Hloop
      by (by apply seq_getitem_beyond).
    simpl in Hloop.
    assert (join_rows ids_2_targets raw = (steps ++ map Yield pairs, Some IndexError))
      as Hraises by (unfold join_rows, raw; by rewrite Hloop).
    split; [done|]. intros fs output_path. apply writer_aborts.
    intros _. by rewrite Hraises.
  - intros Hi.
    destruct (seq_getitem_from_end sentences i Hi) as (sentence & Hsentence & Hget).
    exists sentence. split; [done|].
    destruct (yield_targets_app (VList sentences) earlier ((i, target) :: later)
                pairs n Hearlier) as [Happ _].
    rewrite Happ in Hloop. simpl in Hloop. rewrite Hget in Hloop.
    destruct (yield_targets (VList sentences) later (S (n + length earlier)))
      as [more r]. simpl in Hloop.
    unfold join_rows, raw. rewrite Hloop.
    destruct r as [n'|e]; simpl.
    + destruct (join_loop ids_2_targets rest n') as [steps' [n''|e]];
        [destruct stop|]; simpl;
        rewrite ?map_app, <- ?app_assoc; simpl.
        all: do 2 apply prefix_app; apply prefix_cons, prefix_nil.
    + rewrite ?map_app, <- ?app_assoc. simpl.
      do 2 apply prefix_app. apply prefix_cons, prefix_nil.
Qed.

Lemma join_index_bounds_witness :
  let raw : gen value := ([Yield pen_row] ++ Yield hello_row :: [Yield pen_row], None) in
  join_rows (built_index bounds_lines) raw =
    ([Yield (VStr "Hello wrold.", VStr "Hello world.");
      Yield (VStr "Next sentence.", VStr "Next sentence!")],
     Some IndexError) /\
  exists sentence,
    hello_sentences !! Z.to_nat (Z.of_nat (length hello_sentences) + -1) = Some sentence /\
    ([] ++ map Yield ([(VStr "Hello wrold.", VStr "Hello world.")]
                        ++ [(sentence, VStr "Next sentence!")]))
      `prefix_of` fst (join_rows (built_index bounds_lines) raw).
Proof.
  intros raw. split.
  - apply (@join_index_bounds fragment_externals (built_index bounds_lines) [Yield pen_row]
             [Yield pen_row] None hello_row (1, 2)%Z hello_sentences
             [(0, "Hello world."); (-1, "Next sentence!")]%Z [] 2%Z
             "No such sentence." [] 0
             [(VStr "Hello wrold.", VStr "Hello world.");
              (VStr "Next sentence.", VStr "Next sentence!")]);
      try (vm_compute; reflexivity).
    vm_compute. discriminate.
  - apply (@join_index_bounds fragment_externals (built_index bounds_lines) [Yield pen_row]
             [Yield pen_row] None hello_row (1, 2)%Z hello_sentences
             [(0, "Hello world.")]%Z [(2, "No such sentence.")]%Z (-1)%Z
             "Next sentence!" [] 0
             [(VStr "Hello wrold.", VStr "Hello world.")]);
      try (vm_compute; reflexivity).
    vm_compute. split; [discriminate|reflexivity].
Defined.

(** *** The scenario of one record and one target *)

Lemma scenario_object_row_counterexample :
  let run :=
    @_prepare_clang8 fragment_externals (scenario_fs object_raw_line true true)
      "en" "./targets" "lang8" "./output_data" false in
  Json.loads (object_raw_line +:+ eol) = Ok object_row /\
  unpack_row object_row = Raise (ValueError Not_enough_values) /\
  snd run = Some (ValueError Not_enough_values) /\
  fst (fst run) !! scenario_output_path = Some EmptyString /\
  fst (fst run) !! scenario_output_path <> Some scenario_output.
Proof. split_and!; try (by vm_compute). Qed.

(** C2, amended.  When the raw corpus is the single line
    [[1,2,"English","Japanese",["Hello wrold.","Next sentence."],[[],[]]]]
    (a JSON array: the two ids, then further cells, the sentences as the
    last cell but one) and the targets file is the single line with the
    tab-separated fields 1, 2, 0, -, Hello world., the untokenized run for
    en ends normally and the output file holds exactly the line
    Hello wrold., a tab, Hello world., and a line feed. *)
Theorem scenario_untokenized `{!Externals} (raw_eol targets_eol : bool) :
  json_loads (array_raw_line +:+ optional_eol raw_eol) = Ok array_row ->
  open_for_writing scenario_output_path = None ->
  let run :=
    _prepare_clang8 (scenario_fs array_raw_line raw_eol targets_eol)
      "en" "./targets" "lang8" "./output_data" false in
  fst (fst run) !! scenario_output_path = Some scenario_output /\
  snd run = None /\
  snd (fst run) =
    [Open_write scenario_output_path;
     Open_read (targets_path "./targets" "en"); Print (Targets_read 1);
     Open_read (raw_path "lang8");
     Print (Raw_documents_read 1); Print (Sources_mapped 1);
     Print (Wrote scenario_output_path)].
Proof.
  intros Hrow Hopen run.
  set (fs := <[scenario_output_path := EmptyString]>
               (scenario_fs array_raw_line raw_eol targets_eol)).
  assert (_read_clang8_targets fs (targets_path "./targets" "en") =
            ([Open_read (targets_path "./targets" "en"); Print (Targets_read 1)],
             Ok (built_index hello_lines, 1))) as Htargets
    by (unfold fs; destruct raw_eol, targets_eol; vm_compute; reflexivity).
  assert (_yield_lang8_raw_dicts fs "lang8" =
            ([Event (Open_read (raw_path "lang8")); Yield array_row;
              Event (Print (Raw_documents_read 1))], None)) as Hraw.
  { unfold _yield_lang8_raw_dicts. fold (raw_path "lang8").
    assert (fs !! raw_path "lang8" = Some (array_raw_line +:+ optional_eol raw_eol))
      as -> by (unfold fs; destruct raw_eol, targets_eol; vm_compute; reflexivity).
    assert (Py.iter_lines (Py.read_text (array_raw_line +:+ optional_eol raw_eol)) =
              [array_raw_line +:+ optional_eol raw_eol]) as ->
      by (destruct raw_eol; vm_compute; reflexivity).
    by rewrite (raw_rows_single _ _ Hrow). }
  assert (_yield_clang8_source_target_pairs fs (targets_path "./targets" "en") "lang8" =
            ([Event (Open_read (targets_path "./targets" "en"));
              Event (Print (Targets_read 1));
              Event (Open_read (raw_path "lang8"));
              Yield (VStr "Hello wrold.", VStr "Hello world.");
              Event (Print (Raw_documents_read 1));
              Event (Print (Sources_mapped 1))], None)) as Hpairs.
  { unfold _yield_clang8_source_target_pairs. rewrite Htargets, Hraw.
    vm_compute. reflexivity. }
  unfold run, _prepare_clang8, _write_source_target_pairs_to_tsv.
  change (model_path_of "en") with (Ok "en_core_web_sm"). cbv iota beta.
  change (Py.path_join "./output_data"
            ("clang8_source_target_" +:+ "en" +:+ EmptyString +:+ ".tsv"))
    with scenario_output_path.
  change (Py.path_join "./targets" ("clang8_" +:+ "en" +:+ ".detokenized.tsv"))
    with (targets_path "./targets" "en").
  rewrite Hopen. fold fs. rewrite Hpairs. unfold fs.
  destruct raw_eol, targets_eol; vm_compute; done.
Qed.

Lemma scenario_untokenized_witness :
  let run :=
    @_prepare_clang8 fragment_externals (scenario_fs array_raw_line true false)
      "en" "./targets" "lang8" "./output_data" false in
  fst (fst run) !! scenario_output_path = Some scenario_output /\
  snd run = None.
Proof.
  intros run.
  pose proof (@scenario_untokenized fragment_externals true false
                ltac:(vm_compute; reflexivity) eq_refl) as (Hfile & Hend & _).
  split; [exact Hfile|exact Hend].
Defined.

(** ** Properties beyond the claims *)

(** *** The sanitizer replaces in place *)

Lemma length_map_chars (f : ascii -> ascii) (s : string) :
  String.length (map_chars f s) = String.length s.
Proof. induction s as [|c s IH]; simpl; [done|by rewrite IH]. Qed.

Lemma map_chars_fixed (s : string) :
  map_chars sanitize_char s = s <->
  count_char Py.tab s = 0 /\ count_char Py.lf s = 0 /\ count_char Py.cr s = 0.
Proof.
  induction s as [|c s IH]; simpl; [done|]. unfold sanitize_char at 1.
  destruct (Ascii.eqb_spec c Py.tab) as [->|Htab]; simpl.
  { split; [intros [=]|intros (? & ? & ?); lia]. }
  destruct (Ascii.eqb_spec c Py.lf) as [->|Hlf]; simpl.
  { split; [intros [=]|intros (? & ? & ?); lia]. }
  destruct (Ascii.eqb_spec c Py.cr) as [->|Hcr]; simpl.
  { split; [intros [=]|intros (? & ? & ?); lia]. }
  split.
  - intros [= Hs]. by apply IH.
  - intros Hs. f_equal. by apply IH.
Qed.

(** [_clean_spaces] never changes the length of a text (it replaces, it
    does not remove), it leaves exactly the texts without tab, line feed and
    carriage return as they are, and cleaning twice is cleaning once. *)
Theorem clean_spaces_in_place (text : string) :
  String.length (_clean_spaces text) = String.length text /\
  (_clean_spaces text = text <->
   count_char Py.tab text = 0 /\ count_char Py.lf text = 0 /\
   count_char Py.cr text = 0) /\
  _clean_spaces (_clean_spaces text) = _clean_spaces text.
Proof.
  split_and!.
  - by rewrite clean_spaces_chars, length_map_chars.
  - rewrite clean_spaces_chars. apply map_chars_fixed.
  - rewrite (clean_spaces_chars (_clean_spaces text)). apply map_chars_fixed.
    split_and!; by apply count_char_sanitized.
Qed.

(** *** What the writer leaves in the file *)

Lemma split_no_separator (sep : ascii) (s : string) :
  count_char sep s = 0 -> Py.split sep s = [s].
Proof.
  induction s as [|c s IH]; simpl; [done|].
  destruct (Ascii.eqb_spec c sep) as [->|Hne]; [lia|].
  intros Hs. by rewrite IH.
Qed.

Lemma split_at_separator (sep : ascii) (s t : string) :
  count_char sep s = 0 ->
  Py.split sep (s +:+ String sep t) = s :: Py.split sep t.
Proof.
  induction s as [|c s IH]; intros Hs.
  - change (EmptyString +:+ String sep t) with (String sep t). simpl.
    by rewrite Ascii.eqb_refl.
  - change (String c s +:+ String sep t) with (String c (s +:+ String sep t)).
    simpl in *. destruct (Ascii.eqb_spec c sep) as [->|Hne]; [lia|].
    by rewrite IH.
Qed.

Lemma universal_newlines_no_cr (s : string) :
  count_char Py.cr s = 0 -> Py.universal_newlines false s = s.
Proof.
  induction s as [|c s IH]; simpl; [done|].
  destruct (Ascii.eqb_spec c Py.cr) as [->|Hne]; [lia|].
  rewrite andb_false_r. intros Hs. by rewrite IH.
Qed.

Lemma tsv_text_no_cr (pairs : list (string * string)) :
  count_char Py.cr (tsv_text pairs) = 0.
Proof.
  induction pairs as [|[source target] pairs IH]; [done|].
  simpl tsv_text. rewrite !count_char_app, IH. simpl.
  rewrite ?count_char_app, !count_char_sanitized by done. done.
Qed.

Lemma tsv_text_lines (pairs : list (string * string)) :
  map (Py.split Py.tab) (Py.split Py.lf (tsv_text pairs)) =
    map cleaned_fields pairs ++ [[EmptyString]].
Proof.
  induction pairs as [|[source target] pairs IH]; [done|].
  simpl tsv_text.
  replace ((_clean_spaces source +:+ String Py.tab (_clean_spaces target) +:+ eol)
             +:+ tsv_text pairs)
    with ((_clean_spaces source +:+ String Py.tab (_clean_spaces target))
            +:+ String Py.lf (tsv_text pairs)).
  2:{ unfold eol. rewrite !string_app_assoc. done. }
  rewrite split_at_separator.
  2:{ rewrite count_char_app. simpl.
      rewrite !count_char_sanitized by done. done. }
  simpl map. rewrite IH. f_equal.
  rewrite split_at_separator by (by apply count_char_sanitized).
  rewrite split_no_separator by (by apply count_char_sanitized). done.
Qed.

(** Round trip of the writer.  For pairs of strings the writer raises
    nothing, and what it writes reads back: without any carriage return for
    the text mode to translate, cut at the line feeds and each line cut at
    the tabs, it is the cleaned source and the cleaned target of each pair,
    in order (and the empty piece after the last line feed). *)
Theorem written_tsv_reads_back (pairs : list (string * string)) :
  write_pairs (map Yield (map text_pair pairs)) None EmptyString =
    ([], tsv_text pairs, None) /\
  Py.read_text (tsv_text pairs) = tsv_text pairs /\
  map (Py.split Py.tab) (Py.split Py.lf (Py.read_text (tsv_text pairs))) =
    map cleaned_fields pairs ++ [[EmptyString]].
Proof.
  assert (Py.read_text (tsv_text pairs) = tsv_text pairs) as Hread
    by apply universal_newlines_no_cr, tsv_text_no_cr.
  split_and!; [|done|].
  - pose proof (write_pairs_texts pairs [] None EmptyString) as Hwrite.
    rewrite app_nil_r in Hwrite. by rewrite Hwrite.
  - rewrite Hread. apply tsv_text_lines.
Qed.

(** The writer keeps what it wrote before a failure: when the generator
    raises, or when a source is not a string (the writer then raises
    [AttributeError] at that pair and looks no further), the file holds
    the lines of the pairs before. *)
Theorem writer_keeps_partial_output (pairs : list (string * string))
    (rest : list (item (value * value))) (stop : option exception) e
    (source target : value) :
  (forall text, source <> VStr text) ->
  write_pairs (map Yield (map text_pair pairs)) (Some e) EmptyString =
    ([], tsv_text pairs, Some e) /\
  write_pairs (map Yield (map text_pair pairs) ++ Yield (source, target) :: rest)
      stop EmptyString =
    ([], tsv_text pairs, Some AttributeError).
Proof.
  intros Hsource. split.
  - pose proof (write_pairs_texts pairs [] (Some e) EmptyString) as Hwrite.
    rewrite app_nil_r in Hwrite. by rewrite Hwrite.
  - rewrite write_pairs_texts. simpl.
    destruct source; try done. by destruct (Hsource s).
Qed.

Lemma writer_keeps_partial_output_witness :
  write_pairs [Yield (VStr "Hello wrold.", VStr "Hello world.");
               Yield (VList [VStr "Next"; VStr "sentence."], VStr "Next sentence!");
               Yield (VStr "I has a pen.", VStr "I have a pen.")]
      None EmptyString =
    ([], tsv_text [("Hello wrold.", "Hello world.")], Some AttributeError).
Proof.
  refine (proj2 (writer_keeps_partial_output [("Hello wrold.", "Hello world.")]
                   [Yield (VStr "I has a pen.", VStr "I have a pen.")] None TypeError
                   (VList [VStr "Next"; VStr "sentence."]) (VStr "Next sentence!") _)).
  intros text. discriminate.
Defined.

(** *** Tokenization is all or nothing *)

Lemma write_pairs_events (log : list event) (rest : list (item (value * value)))
    (stop : option exception) (written : string) :
  write_pairs (map Event log ++ rest) stop written =
    (log ++ fst (fst (write_pairs rest stop written)),
     snd (fst (write_pairs rest stop written)),
     snd (write_pairs rest stop written)).
Proof.
  induction log as [|e log IH]; simpl.
  - by destruct (write_pairs rest stop written) as [[??]?].
  - rewrite IH. done.
Qed.

(** With tokenization the pairs are collected before anything is written:
    when the join raises, [_tokenize] yields nothing and raises the same
    exception, so the output file is created but left empty.  Without
    tokenization the pairs emitted before the exception are in the
    file. *)
Theorem failed_join_output `{!Externals} (steps : list (item (value * value))) e
    (pairs : list (string * string)) (nlp : Language) (batch_size : nat)
    (fs : filesystem) (output_path : string) :
  open_for_writing output_path = None ->
  _write_source_target_pairs_to_tsv
      (fun _ => _tokenize (steps, Some e) nlp batch_size) fs output_path =
    (<[output_path := EmptyString]> fs,
     Open_write output_path :: events steps, Some e) /\
  _write_source_target_pairs_to_tsv
      (fun _ => (map Yield (map text_pair pairs), Some e)) fs output_path =
    (<[output_path := tsv_text pairs]> fs, [Open_write output_path], Some e).
Proof.
  intros Hopen. unfold _write_source_target_pairs_to_tsv, _tokenize.
  rewrite Hopen. split.
  - pose proof (write_pairs_events (events steps) [] (Some e) EmptyString) as Hw.
    rewrite app_nil_r in Hw. rewrite Hw. simpl.
    by rewrite insert_insert_eq, !app_nil_r.
  - pose proof (write_pairs_texts pairs [] (Some e) EmptyString) as Hw.
    rewrite app_nil_r in Hw. rewrite Hw. simpl.
    by rewrite insert_insert_eq.
Qed.

Lemma failed_join_output_witness :
  let fs : filesystem := {[ scenario_output_path := "old" ]} in
  let steps : list (item (value * value)) :=
    [Event (Open_read "targets.tsv");
     Yield (VStr "Hello wrold.", VStr "Hello world.")] in
  @_write_source_target_pairs_to_tsv fragment_externals
      (fun _ => _tokenize (steps, Some IndexError) space_language 1000)
      fs scenario_output_path =
    (<[scenario_output_path := EmptyString]> fs,
     [Open_write scenario_output_path; Open_read "targets.tsv"],
     Some IndexError) /\
  @_write_source_target_pairs_to_tsv fragment_externals
      (fun _ => (map Yield (map text_pair [("Hello wrold.", "Hello world.")]),
                 Some IndexError))
      fs scenario_output_path =
    (<[scenario_output_path := scenario_output]> fs,
     [Open_write scenario_output_path], Some IndexError).
Proof.
  intros fs steps.
  exact (@failed_join_output fragment_externals steps IndexError
           [("Hello wrold.", "Hello world.")] space_language 1000 fs
           scenario_output_path eq_refl).
Defined.

(** *** A whole run with tokenization *)

Lemma tokenize_segmented (nlp : Language) (segment : string -> list string)
    (steps : list (item (value * value))) (pairs : list (string * string))
    (batch_size : nat) :
  segments_with nlp segment ->
  yields steps = map text_pair pairs ->
  _tokenize (steps, None) nlp batch_size =
    (map Event (events steps) ++
       Event (Print Tokenizing) ::
       map Yield (map text_pair (map (tokenized_strings segment) pairs)),
     None).
Proof.
  intros Hnlp Hpairs. unfold _tokenize. rewrite Hpairs.
  replace (map fst (map text_pair pairs)) with (map VStr (map fst pairs))
    by (rewrite !map_map; done).
  replace (map snd (map text_pair pairs)) with (map VStr (map snd pairs))
    by (rewrite !map_map; done).
  rewrite !Hnlp, zip_docs_exhausted by (by rewrite !length_map).
  rewrite zip_segmented, (map_map (tokenized_strings segment) text_pair).
  reflexivity.
Qed.

(** How the stages compose when tokenization is on: for a supported
    language whose model loads and segments texts with [segment], and a join
    that yields pairs of strings and runs to its end, the run ends normally
    and the output file holds one line per pair of the join, in order: the
    cleaned space-joined tokens of the source, a tab, and those of the
    target. *)
Theorem tokenized_run `{!Externals} (fs : filesystem)
    (language model clang8_targets_dir lang8_dir output_dir : string)
    (nlp : Language) (segment : string -> list string)
    (steps : list (item (value * value))) (pairs : list (string * string)) :
  let output_path := output_path_of output_dir language true in
  model_path_of language = Ok model ->
  spacy_load model disabled_components = Ok nlp ->
  open_for_writing output_path = None ->
  segments_with nlp segment ->
  _yield_clang8_source_target_pairs (<[output_path := EmptyString]> fs)
    (targets_path clang8_targets_dir language) lang8_dir = (steps, None) ->
  yields steps = map text_pair pairs ->
  _prepare_clang8 fs language clang8_targets_dir lang8_dir output_dir true =
    (<[output_path := tsv_text (map (tokenized_strings segment) pairs)]> fs,
     Spacy_load model disabled_components :: Open_write output_path ::
       events steps ++ [Print Tokenizing; Print (Wrote output_path)],
     None).
Proof.
  intros output_path Hmodel Hload Hopen Hnlp Hjoin Hpairs.
  unfold _prepare_clang8. rewrite Hmodel, Hload.
  unfold _write_source_target_pairs_to_tsv.
  change (Py.path_join output_dir
            ("clang8_source_target_" +:+ language +:+ ".spacy_tokenized" +:+ ".tsv"))
    with output_path.
  rewrite Hopen.
  change (Py.path_join clang8_targets_dir ("clang8_" +:+ language +:+ ".detokenized.tsv"))
    with (targets_path clang8_targets_dir language).
  rewrite Hjoin, (tokenize_segmented nlp segment steps pairs 1000 Hnlp Hpairs).
  rewrite write_pairs_events. simpl.
  pose proof (write_pairs_texts (map (tokenized_strings segment) pairs) [] None
                EmptyString) as Hw.
  rewrite app_nil_r in Hw. rewrite Hw. simpl.
  by rewrite insert_insert_eq, <- app_assoc.
Qed.

Lemma tokenized_run_witness :
  let fs := scenario_fs array_raw_line true true in
  let output_path := output_path_of "./output_data" "en" true in
  @_prepare_clang8 fragment_externals fs "en" "./targets" "lang8" "./output_data" true =
    (<[output_path := tsv_text [("Hello wrold.", "Hello world.")]]> fs,
     [Spacy_load "en_core_web_sm" disabled_components; Open_write output_path;
      Open_read (targets_path "./targets" "en"); Print (Targets_read 1);
      Open_read (raw_path "lang8"); Print (Raw_documents_read 1);
      Print (Sources_mapped 1); Print Tokenizing; Print (Wrote output_path)],
     None).
Proof.
  intros fs output_path.
  refine (@tokenized_run fragment_externals fs "en" "en_core_web_sm" "./targets"
            "lang8" "./output_data" space_language space_tokens
            [Event (Open_read (targets_path "./targets" "en"));
             Event (Print (Targets_read 1));
             Event (Open_read (raw_path "lang8"));
             Yield (VStr "Hello wrold.", VStr "Hello world.");
             Event (Print (Raw_documents_read 1));
             Event (Print (Sources_mapped 1))]
            [("Hello wrold.", "Hello world.")] _ _ _ _ _ _).
  - reflexivity.
  - reflexivity.
  - reflexivity.
  - exact space_language_segments.
  - vm_compute. reflexivity.
  - reflexivity.
Defined.

(** *** Running again *)

Lemma writer_rerun `{!Externals} (pairs : filesystem -> gen (value * value))
    (fs : filesystem) (output_path : string) :
  _write_source_target_pairs_to_tsv pairs
      (fst (fst (_write_source_target_pairs_to_tsv pairs fs output_path)))
      output_path =
    _write_source_target_pairs_to_tsv pairs fs output_path.
Proof.
  unfold _write_source_target_pairs_to_tsv.
  destruct (open_for_writing output_path) as [e|]; [done|].
  destruct (pairs (<[output_path := EmptyString]> fs)) as [steps stop] eqn:Hgen.
  destruct (write_pairs steps stop EmptyString) as [[log written] st] eqn:Hw.
  simpl. rewrite !insert_insert_eq, Hgen, Hw, ?insert_insert_eq. done.
Qed.

(** A run overwrites: run on the file system that a run has left, the
    driver leaves the same file system, prints the same and ends the same
    way. *)
Theorem prepare_idempotent `{!Externals} (fs : filesystem)
    (language clang8_targets_dir lang8_dir output_dir : string)
    (tokenize_text : bool) :
  let run fs :=
    _prepare_clang8 fs language clang8_targets_dir lang8_dir output_dir
      tokenize_text in
  run (fst (fst (run fs))) = run fs.
Proof.
  intros run. unfold run, _prepare_clang8.
  destruct (model_path_of language) as [model|e]; [|done].
  destruct tokenize_text.
  - destruct (spacy_load model disabled_components) as [nlp|e]; [|done].
    set (output_path := Py.path_join output_dir _).
    set (pairs := fun fs : filesystem => _tokenize _ nlp 1000).
    pose proof (writer_rerun pairs fs output_path) as Hrerun.
    destruct (_write_source_target_pairs_to_tsv pairs fs output_path)
      as [[fs' log] st].
    simpl in *. by rewrite Hrerun.
  - set (output_path := Py.path_join output_dir _).
    set (pairs := fun fs : filesystem => _yield_clang8_source_target_pairs fs _ lang8_dir).
    pose proof (writer_rerun pairs fs output_path) as Hrerun.
    destruct (_write_source_target_pairs_to_tsv pairs fs output_path)
      as [[fs' log] st].
    simpl in *. by rewrite Hrerun.
Qed.

(** *** The cells of a row *)

Lemma unpack_row_list (cells : list value) :
  unpack_row (VList cells) =
    match cells, rev cells with
    | journal_id :: sentence_id :: _, _ :: sources :: _ =>
        if (length cells <? 4)%nat then Raise (ValueError Not_enough_values)
        else Ok (journal_id, sentence_id, sources)
    | _, _ => Raise (ValueError Not_enough_values)
    end.
Proof. reflexivity. Qed.

(** The row is unpacked by position: the ids are the first two cells and
    the sentences are the last cell but one, whatever stands between and
    after; a row is unpacked exactly when it has these four cells. *)
Theorem unpack_row_cells (cells : list value) (journal_id sentence_id sources : value) :
  unpack_row (VList cells) = Ok (journal_id, sentence_id, sources) <->
  exists middle last,
    cells = journal_id :: sentence_id :: middle ++ [sources; last].
Proof.
  rewrite unpack_row_list. split.
  - destruct cells as [|j [|s rest]]; try done.
    destruct (rev (j :: s :: rest)) as [|last [|src r]] eqn:Hrev; try done.
    destruct (Nat.ltb_spec (length (j :: s :: rest)) 4) as [|Hlen]; [done|].
    intros [= -> -> ->].
    apply (f_equal (@rev value)) in Hrev. rewrite rev_involutive in Hrev.
    simpl in Hrev. rewrite <- app_assoc in Hrev. simpl in Hrev.
    rewrite Hrev in Hlen. rewrite length_app in Hlen. simpl in Hlen.
    destruct (rev r) as [|j' [|s' middle]] eqn:Hr; simpl in *; try lia.
    injection Hrev as -> -> ->. by exists middle, last.
  - intros (middle & last & ->). simpl rev.
    rewrite rev_app_distr. simpl.
    destruct (Nat.ltb_spec (S (S (length (middle ++ [sources; last])))) 4)
      as [Hlen|]; [|done].
    rewrite length_app in Hlen. simpl in Hlen. lia.
Qed.

(** *** Rows that the join cannot use *)

Lemma row_ids_unfold (row : value) :
  row_ids row =
    match unpack_row row with
    | Ok (journal_id, sentence_id, sources) =>
        match py_int journal_id with
        | Ok j =>
            match py_int sentence_id with
            | Ok s => Ok ((j, s), sources)
            | Raise e => Raise e
            end
        | Raise e => Raise e
        end
    | Raise e => Raise e
    end.
Proof.
  unfold row_ids, mbind, result_bind.
  destruct (unpack_row row) as [[[j s] src]|e]; [|done].
  destruct (py_int j); [|done]. by destruct (py_int s).
Qed.

Lemma unpack_row_short (row : value) (cells : list value) :
  py_iter row = Ok cells -> length cells < 4 ->
  unpack_row row = Raise (ValueError Not_enough_values).
Proof.
  intros Hiter Hlen. unfold unpack_row, mbind, result_bind. rewrite Hiter.
  destruct cells as [|j [|s rest]]; try done.
  destruct (rev (j :: s :: rest)) as [|last [|src r]]; try done.
  destruct (Nat.ltb_spec (length (j :: s :: rest)) 4) as [|Hge]; [done|lia].
Qed.

Lemma join_rows_raises (ids_2_targets : targets_index)
    (before rest : list (item value)) (stop : option exception) (row : value)
    (steps : list (item (value * value))) (n : nat) e :
  join_loop ids_2_targets before 0 = (steps, Ok n) ->
  row_ids row = Raise e ->
  join_rows ids_2_targets (before ++ Yield row :: rest, stop) = (steps, Some e).
Proof.
  intros Hbefore Hrow. unfold join_rows.
  rewrite (join_loop_app _ _ _ _ _ _ Hbefore). simpl. rewrite Hrow. simpl.
  by rewrite app_nil_r.
Qed.

(** A line that parses but is not a row aborts the run, unlike a line that
    does not parse: when the join comes to a row of fewer than four cells it
    raises the unpacking [ValueError], to a row that cannot be iterated
    ([null], a number, a boolean) [TypeError], and to a row whose first or
    second cell [int] refuses the exception of [int] -- whether or not the
    index has any target for it. *)
Theorem unusable_row_aborts (ids_2_targets : targets_index)
    (before rest : list (item value)) (stop : option exception) (row : value)
    (steps : list (item (value * value))) (n : nat) :
  join_loop ids_2_targets before 0 = (steps, Ok n) ->
  let joined := join_rows ids_2_targets (before ++ Yield row :: rest, stop) in
  (forall cells, py_iter row = Ok cells -> length cells < 4 ->
     joined = (steps, Some (ValueError Not_enough_values))) /\
  (py_iter row = Raise TypeError -> joined = (steps, Some TypeError)) /\
  (forall journal_id sentence_id sources e,
     unpack_row row = Ok (journal_id, sentence_id, sources) ->
     py_int journal_id = Raise e \/
       (is_ok (py_int journal_id) = true /\ py_int sentence_id = Raise e) ->
     joined = (steps, Some e)).
Proof.
  intros Hbefore joined. split_and!.
  - intros cells Hiter Hlen. apply (join_rows_raises _ _ _ _ _ _ _ _ Hbefore).
    by rewrite row_ids_unfold, (unpack_row_short row cells).
  - intros Hiter. apply (join_rows_raises _ _ _ _ _ _ _ _ Hbefore).
    rewrite row_ids_unfold. unfold unpack_row. by rewrite Hiter.
  - intros j s src e Hunpack Hint.
    apply (join_rows_raises _ _ _ _ _ _ _ _ Hbefore).
    rewrite row_ids_unfold, Hunpack.
    destruct Hint as [->|[Hj ->]]; [done|]. by destruct (py_int j).
Qed.

Lemma unusable_row_aborts_witness :
  join_rows ∅ ([Yield pen_row] ++ Yield (VList [VInt 1; VInt 2; VList []]) :: [Yield hello_row],
               None) = ([], Some (ValueError Not_enough_values)) /\
  join_rows ∅ ([Yield pen_row] ++ Yield (VInt 7) :: [Yield hello_row], None) =
    ([], Some TypeError) /\
  join_rows ∅ ([Yield pen_row] ++
               Yield (VList [VStr "one"; VInt 2; VList []; VNone]) :: [Yield hello_row],
               None) = ([], Some (ValueError Invalid_literal)) /\
  join_rows ∅ ([Yield pen_row] ++
               Yield (VList [VStr id_after_unit_separator; VNone; VList []; VNone])
                 :: [Yield hello_row],
               None) = ([], Some (ValueError Invalid_literal)).
Proof.
  assert (join_loop (∅ : targets_index) [Yield pen_row] 0 = ([], Ok 0)) as Hbefore
    by (vm_compute; reflexivity).
  split_and!.
  - apply (proj1 (unusable_row_aborts ∅ [Yield pen_row] [Yield hello_row] None
                    (VList [VInt 1; VInt 2; VList []]) [] 0 Hbefore)
             [VInt 1; VInt 2; VList []]); [reflexivity|simpl; lia].
  - apply (proj1 (proj2 (unusable_row_aborts ∅ [Yield pen_row] [Yield hello_row] None
                           (VInt 7) [] 0 Hbefore))).
    reflexivity.
  - apply (proj2 (proj2 (unusable_row_aborts ∅ [Yield pen_row] [Yield hello_row] None
                           (VList [VStr "one"; VInt 2; VList []; VNone]) [] 0 Hbefore))
             (VStr "one") (VInt 2) (VList []) (ValueError Invalid_literal));
      [reflexivity|left; reflexivity].
  - apply (proj2 (proj2 (unusable_row_aborts ∅ [Yield pen_row] [Yield hello_row] None
                           (VList [VStr id_after_unit_separator; VNone; VList []; VNone])
                           [] 0 Hbefore))
             (VStr id_after_unit_separator) VNone (VList [])
             (ValueError Invalid_literal));
      [reflexivity|left; reflexivity].
Defined.

(** *** Rows without targets *)

Lemma join_loop_unmatched (ids_2_targets : targets_index) (rows : list (item value))
    (n : nat) :
  Forall (fun row => exists key sources,
            row_ids row = Ok (key, sources) /\ ids_2_targets !! key = None)
         (yields rows) ->
  join_loop ids_2_targets rows n = (map Event (events rows), Ok n).
Proof.
  induction rows as [|[e|row] rows IH]; simpl; intros Hrows.
  - done.
  - by rewrite IH.
  - apply Forall_cons in Hrows as [(key & sources & -> & ->) Hrows]. simpl.
    by rewrite IH.
Qed.

(** A row whose key is not in the index is passed over: nothing is
    emitted for it and its sentences are not looked at, so it cannot raise.
    When no row of the raw corpus has a key of the index, the join emits
    nothing, ends normally and reports 0 sources. *)
Theorem unmatched_rows_emit_nothing (ids_2_targets : targets_index)
    (rows : list (item value)) :
  Forall (fun row => exists key sources,
            row_ids row = Ok (key, sources) /\ ids_2_targets !! key = None)
         (yields rows) ->
  join_rows ids_2_targets (rows, None) =
    (map Event (events rows) ++ [Event (Print (Sources_mapped 0))], None).
Proof.
  intros Hrows. unfold join_rows. by rewrite join_loop_unmatched.
Qed.

Lemma unmatched_rows_emit_nothing_witness :
  join_rows (built_index hello_lines)
      ([Yield pen_row; Event (Print (Raw_documents_read 1))], None) =
    ([Event (Print (Raw_documents_read 1)); Event (Print (Sources_mapped 0))], None).
Proof.
  apply (unmatched_rows_emit_nothing (built_index hello_lines)
           [Yield pen_row; Event (Print (Raw_documents_read 1))]).
  repeat constructor. exists (3, 4)%Z, (VList [VStr "I has a pen."]).
  split; vm_compute; reflexivity.
Defined.

(** *** The sentence numbers that the join accepts *)

Lemma seq_getitem_in_range (sentences : list value) (i : Z) :
  (- Z.of_nat (length sentences) <= i < Z.of_nat (length sentences))%Z ->
  seq_getitem sentences i = Ok (sentence_at sentences i).
Proof.
  intros Hi. unfold sentence_at.
  destruct (Z.ltb_spec i 0) as [Hneg|Hpos].
  - destruct (seq_getitem_from_end sentences i ltac:(lia)) as (x & Hx & ->).
    replace (i mod Z.of_nat (length sentences))%Z
      with (Z.of_nat (length sentences) + i)%Z.
    + by rewrite Hx.
    + symmetry. rewrite <- (Z.mod_add i 1) by lia.
      rewrite Z.mod_small by lia. lia.
  - unfold seq_getitem.
    destruct (Z.ltb_spec i 0) as [?|_]; [lia|].
    destruct (Z.ltb_spec i 0) as [?|_]; [lia|].
    destruct (Z.leb_spec (Z.of_nat (length sentences)) i) as [?|_]; [lia|]. simpl.
    rewrite Z.mod_small by lia.
    destruct (sentences !! Z.to_nat i) as [x|] eqn:Hx; [done|].
    apply lookup_ge_None in Hx. lia.
Qed.

Lemma seq_getitem_out_of_range {A} (seq : list A) (i : Z) :
  ~ (- Z.of_nat (length seq) <= i < Z.of_nat (length seq))%Z ->
  seq_getitem seq i = Raise IndexError.
Proof.
  intros Hi. unfold seq_getitem.
  destruct (Z.ltb_spec i 0) as [Hneg|Hpos].
  - destruct (Z.ltb_spec (i + Z.of_nat (length seq)) 0) as [?|?]; [done|lia].
  - destruct (Z.ltb_spec i 0) as [?|_]; [lia|].
    destruct (Z.leb_spec (Z.of_nat (length seq)) i) as [?|?]; [done|lia].
Qed.

(** For a row whose sentences are a list, the inner loop runs to its end
    exactly when every sentence number of the row's targets lies between
    minus the number of sentences (included) and the number of sentences
    (excluded); it then emits, for each target in order, the sentence at
    that number (modulo the number of sentences) with the target text.
    Otherwise it raises [IndexError]. *)
Theorem sentence_numbers_in_range (sentences : list value)
    (targets : list (Z * string)) (n : nat) :
  (Forall (in_range sentences) targets ->
   yield_targets (VList sentences) targets n =
     (map (fun entry => (sentence_at sentences (fst entry), VStr (snd entry))) targets,
      Ok (n + length targets))) /\
  (~ Forall (in_range sentences) targets ->
   snd (yield_targets (VList sentences) targets n) = Raise IndexError).
Proof.
  revert n. induction targets as [|[i t] targets IH]; intros n.
  - split; [intros _; simpl; by rewrite Nat.add_0_r|]. intros Hnot. destruct Hnot.
    constructor.
  - destruct (IH (S n)) as [IHin IHout]. simpl yield_targets. simpl py_getitem.
    destruct (decide (in_range sentences (i, t))) as [Hi|Hi].
    + rewrite (seq_getitem_in_range sentences i Hi). split.
      * intros [_ Hrest]%Forall_cons. rewrite (IHin Hrest). simpl.
        by rewrite Nat.add_succ_r.
      * intros Hnot.
        assert (~ Forall (in_range sentences) targets) as Hrest
          by (intros Hrest; apply Hnot; by constructor).
        specialize (IHout Hrest).
        destruct (yield_targets (VList sentences) targets (S n)) as [pairs r].
        done.
    + rewrite (seq_getitem_out_of_range sentences i Hi). split; [|done].
      by intros [? _]%Forall_cons.
Qed.

Lemma sentence_numbers_in_range_witness :
  yield_targets (VList hello_sentences)
      [(1, "Next sentence!"); (-2, "Hello world.")]%Z 0 =
    ([(VStr "Next sentence.", VStr "Next sentence!");
      (VStr "Hello wrold.", VStr "Hello world.")], Ok 2) /\
  snd (yield_targets (VList hello_sentences)
         [(1, "Next sentence!"); (-3, "Hello world.")]%Z 0) = Raise IndexError.
Proof.
  split.
  - apply (proj1 (sentence_numbers_in_range hello_sentences
                    [(1, "Next sentence!"); (-2, "Hello world.")]%Z 0)).
    repeat constructor; vm_compute; discriminate.
  - apply (proj2 (sentence_numbers_in_range hello_sentences
                    [(1, "Next sentence!"); (-3, "Hello world.")]%Z 0)).
    intros [_ [[Hlow _] _]%Forall_cons]%Forall_cons. vm_compute in Hlow. done.
Defined.

(** *** The keys of the index *)

(** The index has exactly the keys that stand on some line of the targets
    file, none of them with an empty list, so it has at most as many keys
    as the file has lines. *)
Theorem index_keys (lines : list string) (ids_2_targets : targets_index)
    (entries : list ((Z * Z) * (Z * string))) :
  add_targets ∅ lines = Ok ids_2_targets ->
  mapM target_of_line lines = Ok entries ->
  (forall key, key ∈ dom ids_2_targets <-> key ∈ map fst entries) /\
  (forall key targets, ids_2_targets !! key = Some targets -> targets <> []) /\
  size ids_2_targets <= length lines.
Proof.
  intros Hbuilt Hentries.
  destruct (add_targets_file_order lines ∅ _ Hbuilt) as (entries' & Hentries' & Horder).
  rewrite Hentries in Hentries'. injection Hentries' as <-.
  pose proof (built_index_nonempty lines ids_2_targets Hbuilt) as Hnonempty.
  assert (forall key, index_targets ids_2_targets key = file_targets entries key)
    as Hkeys.
  { intros key. rewrite Horder. unfold index_targets. by rewrite lookup_empty. }
  split_and!; [|done|].
  - intros key. rewrite elem_of_dom. split.
    + intros [targets Hkey]. specialize (Hkeys key).
      unfold index_targets in Hkeys. rewrite Hkey in Hkeys. simpl in Hkeys.
      pose proof (Hnonempty key targets Hkey) as Hne.
      unfold file_targets in Hkeys.
      destruct (filter (fun entry => fst entry = key) entries) as [|entry l] eqn:Hf.
      { simpl in Hkeys. congruence. }
      assert (entry ∈ filter (fun entry => fst entry = key) entries) as Hin
        by (rewrite Hf; apply list_elem_of_here).
      apply list_elem_of_filter in Hin as [<- Hin].
      apply list_elem_of_In, in_map. by apply list_elem_of_In.
    + intros Hin. apply list_elem_of_In, in_map_iff in Hin as ([key' entry] & <- & Hin).
      simpl. specialize (Hkeys key'). unfold index_targets, file_targets in Hkeys.
      destruct (ids_2_targets !! key') as [targets|]; [by exists targets|].
      simpl in Hkeys.
      assert ((key', entry) ∈ filter (fun e : Z * Z * (Z * string) => fst e = key') entries)
        as Hf by (apply list_elem_of_filter; split; [done|by apply list_elem_of_In]).
      destruct (filter (fun e : Z * Z * (Z * string) => fst e = key') entries);
        [by apply elem_of_nil in Hf|done].
  - pose proof (add_targets_ok lines ∅) as Hok.
    assert (count_targets ids_2_targets = length lines) as <-.
    { destruct Hok as (m & Hm & Hcount).
      - clear -Hbuilt. revert Hbuilt. generalize (∅ : targets_index).
        induction lines as [|line lines IH]; intros m; [constructor|].
        simpl. rewrite add_target_unfold.
        destruct (target_of_line line) as [[key entry]|e] eqn:Hline; [|done].
        intros Hrest. constructor; [|by apply (IH _ Hrest)].
        by rewrite target_of_line_well_formed, Hline.
      - rewrite Hbuilt in Hm. injection Hm as <-.
        by rewrite Hcount, count_targets_empty. }
    clear -Hnonempty. induction ids_2_targets as [|i x m Hfresh IH] using map_ind.
    + by rewrite map_size_empty.
    + rewrite map_size_insert_None, count_targets_fresh by done.
      assert (x <> []) as Hx by (apply (Hnonempty i); apply lookup_insert_eq).
      assert (size m <= count_targets m) as Hm.
      { apply IH. intros key targets Hkey. apply (Hnonempty key).
        rewrite lookup_insert_ne; [done|]. intros ->. congruence. }
      destruct x; [done|]. simpl. lia.
Qed.

Lemma index_keys_witness :
  (forall key, key ∈ dom (built_index unsorted_lines) <->
               key ∈ [(1, 2); (9, 9); (1, 2)]%Z) /\
  size (built_index unsorted_lines) <= 3.
Proof.
  pose proof (index_keys unsorted_lines (built_index unsorted_lines)
                [((1, 2), (1, "Next sentence!")); ((9, 9), (0, "Nobody wrote this."));
                 ((1, 2), (0, "Hello world."))]%Z
                ltac:(vm_compute; reflexivity) ltac:(vm_compute; reflexivity))
    as (Hdom & _ & Hsize).
  split; [exact Hdom|exact Hsize].
Defined.

(** *** The paths of a run *)

Lemma list_ascii_app (a b : string) :
  list_ascii_of_string (a +:+ b) = list_ascii_of_string a ++ list_ascii_of_string b.
Proof.
  induction a as [|c a IH]; [done|].
  change (String c a +:+ b) with (String c (a +:+ b)). simpl. by rewrite IH.
Qed.

Lemma last_chars_app (k : nat) (a b : string) :
  k <= String.length b -> last_chars k (a +:+ b) = last_chars k b.
Proof.
  intros Hk. unfold last_chars. rewrite list_ascii_app, rev_app_distr.
  apply take_app_le.
  rewrite length_rev. clear -Hk. revert k Hk.
  induction b as [|c b IH]; intros k Hk; simpl in *; [lia|].
  destruct k; [lia|]. specialize (IH k). lia.
Qed.

Lemma path_join_name (dir name : string) :
  exists prefix, Py.path_join dir name = prefix +:+ name.
Proof.
  unfold Py.path_join. destruct dir as [|c dir]; [by exists EmptyString|].
  destruct (Py.ends_with_slash (String c dir)).
  - by exists (String c dir).
  - exists (String c dir +:+ "/"). by rewrite string_app_assoc.
Qed.

Lemma last_chars_path_join (k : nat) (dir name : string) :
  k <= String.length name -> last_chars k (Py.path_join dir name) = last_chars k name.
Proof.
  intros Hk. destruct (path_join_name dir name) as [prefix Hprefix].
  rewrite Hprefix. by apply last_chars_app.
Qed.

Lemma supported_language (language model : string) :
  model_path_of language = Ok model ->
  language = "en" \/ language = "de" \/ language = "ru".
Proof.
  unfold model_path_of.
  destruct (String.eqb_spec language "en"); [by left|].
  destruct (String.eqb_spec language "de"); [by right; left|].
  destruct (String.eqb_spec language "ru"); [by right; right|done].
Qed.

(** The output file of a supported language is neither of the two input
    files, whatever the three directories are. *)
Lemma output_path_fresh (language model clang8_targets_dir lang8_dir output_dir : string)
    (tokenize_text : bool) :
  model_path_of language = Ok model ->
  output_path_of output_dir language tokenize_text
    <> targets_path clang8_targets_dir language /\
  output_path_of output_dir language tokenize_text <> raw_path lang8_dir.
Proof.
  intros Hmodel. unfold output_path_of, targets_path, raw_path.
  destruct (supported_language _ _ Hmodel) as [-> | [-> | ->]];
    destruct tokenize_text; split; intros Heq;
    apply (f_equal (last_chars 14)) in Heq;
    rewrite !last_chars_path_join in Heq by (vm_compute; lia);
    vm_compute in Heq; discriminate Heq.
Qed.

Lemma prepare_unfold `{!Externals}
    (fs : filesystem) (language model clang8_targets_dir lang8_dir output_dir : string)
    (tokenize_text : bool) :
  model_path_of language = Ok model ->
  _prepare_clang8 fs language clang8_targets_dir lang8_dir output_dir tokenize_text =
    if tokenize_text then
      match spacy_load model disabled_components with
      | Raise e => (fs, [Spacy_load model disabled_components], Some e)
      | Ok nlp =>
          let run :=
            _write_source_target_pairs_to_tsv
              (fun fs => _tokenize
                           (_yield_clang8_source_target_pairs fs
                              (targets_path clang8_targets_dir language) lang8_dir)
                           nlp 1000)
              fs (output_path_of output_dir language true) in
          (fst (fst run), Spacy_load model disabled_components :: snd (fst run),
           snd run)
      end
    else
      _write_source_target_pairs_to_tsv
        (fun fs => _yield_clang8_source_target_pairs fs
                     (targets_path clang8_targets_dir language) lang8_dir)
        fs (output_path_of output_dir language false).
Proof.
  intros Hmodel. unfold _prepare_clang8. rewrite Hmodel.
  destruct tokenize_text; [|done].
  destruct (spacy_load model disabled_components) as [nlp|e]; [|done].
  change (Py.path_join output_dir
            ("clang8_source_target_" +:+ language +:+ ".spacy_tokenized" +:+ ".tsv"))
    with (output_path_of output_dir language true).
  change (Py.path_join clang8_targets_dir ("clang8_" +:+ language +:+ ".detokenized.tsv"))
    with (targets_path clang8_targets_dir language).
  by destruct (_write_source_target_pairs_to_tsv _ fs _) as [[fs' log] st].
Qed.

Lemma writer_other_paths `{!Externals} (pairs : filesystem -> gen (value * value))
    (fs : filesystem) (output_path path : string) :
  path <> output_path ->
  fst (fst (_write_source_target_pairs_to_tsv pairs fs output_path)) !! path = fs !! path.
Proof.
  intros Hpath. unfold _write_source_target_pairs_to_tsv.
  destruct (open_for_writing output_path); [done|].
  destruct (pairs (<[output_path := EmptyString]> fs)) as [steps stop].
  destruct (write_pairs steps stop EmptyString) as [[log written] st]. simpl.
  by rewrite !lookup_insert_ne.
Qed.

(** A run never touches its inputs: whatever the language, the
    directories and the outcome, the targets file and the raw corpus are
    afterwards what they were, and so is every file other than the output
    file of the language. *)
Theorem inputs_never_modified `{!Externals} (fs : filesystem)
    (language clang8_targets_dir lang8_dir output_dir : string)
    (tokenize_text : bool) :
  let after :=
    fst (fst (_prepare_clang8 fs language clang8_targets_dir lang8_dir output_dir
                tokenize_text)) in
  after !! targets_path clang8_targets_dir language =
    fs !! targets_path clang8_targets_dir language /\
  after !! raw_path lang8_dir = fs !! raw_path lang8_dir /\
  forall path, path <> output_path_of output_dir language tokenize_text ->
               after !! path = fs !! path.
Proof.
  intros after. unfold after.
  destruct (model_path_of language) as [model|e] eqn:Hmodel.
  - destruct (output_path_fresh language model clang8_targets_dir lang8_dir output_dir
                tokenize_text Hmodel) as [Htargets Hraw].
    assert (forall path, path <> output_path_of output_dir language tokenize_text ->
              fst (fst (_prepare_clang8 fs language clang8_targets_dir lang8_dir
                          output_dir tokenize_text)) !! path = fs !! path) as Hother.
    { intros path Hpath. rewrite (prepare_unfold _ _ _ _ _ _ _ Hmodel).
      destruct tokenize_text.
      - destruct (spacy_load model disabled_components) as [nlp|e]; [|done].
        simpl. by apply writer_other_paths.
      - by apply writer_other_paths. }
    split_and!; [apply Hother; congruence..|done].
  - unfold _prepare_clang8. rewrite Hmodel. done.
Qed.

(** *** Runs that fail before the first pair *)

Lemma run_of_failed_join `{!Externals} (fs : filesystem)
    (language model clang8_targets_dir lang8_dir output_dir : string)
    (tokenize_text : bool) (log : list event) e :
  let output_path := output_path_of output_dir language tokenize_text in
  model_path_of language = Ok model ->
  (tokenize_text = true -> is_ok (spacy_load model disabled_components) = true) ->
  open_for_writing output_path = None ->
  _yield_clang8_source_target_pairs (<[output_path := EmptyString]> fs)
    (targets_path clang8_targets_dir language) lang8_dir = (map Event log, Some e) ->
  _prepare_clang8 fs language clang8_targets_dir lang8_dir output_dir tokenize_text =
    (<[output_path := EmptyString]> fs,
     (if tokenize_text then [Spacy_load model disabled_components] else []) ++
       Open_write output_path :: log,
     Some e).
Proof.
  intros output_path Hmodel Hload Hopen Hjoin.
  rewrite (prepare_unfold _ _ _ _ _ _ _ Hmodel). unfold output_path in *.
  destruct tokenize_text.
  - destruct (spacy_load model disabled_components) as [nlp|e']; [|by specialize (Hload eq_refl)].
    unfold _write_source_target_pairs_to_tsv. rewrite Hopen, Hjoin. unfold _tokenize.
    rewrite events_map_Event.
    pose proof (write_pairs_events log [] (Some e) EmptyString) as Hw.
    rewrite app_nil_r in Hw. rewrite Hw. simpl.
    by rewrite insert_insert_eq, !app_nil_r.
  - unfold _write_source_target_pairs_to_tsv. rewrite Hopen, Hjoin.
    pose proof (write_pairs_events log [] (Some e) EmptyString) as Hw.
    rewrite app_nil_r in Hw. rewrite Hw. simpl.
    by rewrite insert_insert_eq, !app_nil_r.
Qed.

Lemma run_without_output `{!Externals} (fs : filesystem)
    (language model clang8_targets_dir lang8_dir output_dir : string)
    (tokenize_text : bool) e :
  let output_path := output_path_of output_dir language tokenize_text in
  model_path_of language = Ok model ->
  (tokenize_text = true -> is_ok (spacy_load model disabled_components) = true) ->
  open_for_writing output_path = Some e ->
  _prepare_clang8 fs language clang8_targets_dir lang8_dir output_dir tokenize_text =
    (fs,
     (if tokenize_text then [Spacy_load model disabled_components] else []) ++
       [Open_write output_path],
     Some e).
Proof.
  intros output_path Hmodel Hload Hopen.
  rewrite (prepare_unfold _ _ _ _ _ _ _ Hmodel). unfold output_path in *.
  destruct tokenize_text.
  - destruct (spacy_load model disabled_components) as [nlp|e']; [|by specialize (Hload eq_refl)].
    unfold _write_source_target_pairs_to_tsv. by rewrite Hopen.
  - unfold _write_source_target_pairs_to_tsv. by rewrite Hopen.
Qed.

(** The output file is opened before the inputs are, and the raw corpus
    only after the whole targets file is read.  So for a supported language
    (whose model loads, when tokenization is on): when the output file
    cannot be opened, because the output directory is missing, say, the run
    ends with the exception of [open]; no file is created or changed and no
    input is opened.  When it can be opened: a missing targets file, or a
    targets file that the builder refuses, ends the run with that
    exception, without the raw corpus being opened; a missing raw corpus
    ends it with [FileNotFoundError] after the targets are read and
    reported; in these three cases the output file has been created, or
    emptied, and stays empty. *)
Theorem failures_before_the_first_pair `{!Externals} (fs : filesystem)
    (language model clang8_targets_dir lang8_dir output_dir : string)
    (tokenize_text : bool) :
  let output_path := output_path_of output_dir language tokenize_text in
  let targets := targets_path clang8_targets_dir language in
  let run :=
    _prepare_clang8 fs language clang8_targets_dir lang8_dir output_dir
      tokenize_text in
  let loading :=
    if tokenize_text then [Spacy_load model disabled_components] else [] in
  model_path_of language = Ok model ->
  (tokenize_text = true -> is_ok (spacy_load model disabled_components) = true) ->
  (forall e,
     open_for_writing output_path = Some e ->
     run = (fs, loading ++ [Open_write output_path], Some e)) /\
  (open_for_writing output_path = None ->
   (fs !! targets = None ->
    run = (<[output_path := EmptyString]> fs,
           loading ++ [Open_write output_path; Open_read targets],
           Some FileNotFoundError)) /\
   (forall content e,
      fs !! targets = Some content ->
      add_targets ∅ (Py.splitlines (Py.read_text content)) = Raise e ->
      run = (<[output_path := EmptyString]> fs,
             loading ++ [Open_write output_path; Open_read targets], Some e)) /\
   (forall content ids_2_targets,
      fs !! targets = Some content ->
      add_targets ∅ (Py.splitlines (Py.read_text content)) = Ok ids_2_targets ->
      fs !! raw_path lang8_dir = None ->
      run = (<[output_path := EmptyString]> fs,
             loading ++ [Open_write output_path; Open_read targets;
                         Print (Targets_read (count_targets ids_2_targets));
                         Open_read (raw_path lang8_dir)],
             Some FileNotFoundError))).
Proof.
  intros output_path targets run loading Hmodel Hload.
  destruct (output_path_fresh language model clang8_targets_dir lang8_dir output_dir
              tokenize_text Hmodel) as [Htargets Hraw].
  fold output_path targets in Htargets. fold output_path in Hraw.
  split; [|intros Hopen; split_and!].
  - intros e Hopen.
    by apply (run_without_output fs language model clang8_targets_dir lang8_dir
                output_dir tokenize_text e Hmodel Hload).
  - intros Hmissing.
    apply (run_of_failed_join fs language model clang8_targets_dir lang8_dir
             output_dir tokenize_text [Open_read targets] FileNotFoundError
             Hmodel Hload Hopen).
    unfold _yield_clang8_source_target_pairs, _read_clang8_targets.
    fold output_path targets. by rewrite lookup_insert_ne, Hmissing.
  - intros content e Hcontent Hrefused.
    apply (run_of_failed_join fs language model clang8_targets_dir lang8_dir
             output_dir tokenize_text [Open_read targets] e Hmodel Hload Hopen).
    unfold _yield_clang8_source_target_pairs, _read_clang8_targets.
    fold output_path targets. by rewrite lookup_insert_ne, Hcontent, Hrefused.
  - intros content ids_2_targets Hcontent Hbuilt Hmissing.
    apply (run_of_failed_join fs language model clang8_targets_dir lang8_dir
             output_dir tokenize_text
             [Open_read targets; Print (Targets_read (count_targets ids_2_targets));
              Open_read (raw_path lang8_dir)] FileNotFoundError Hmodel Hload Hopen).
    unfold _yield_clang8_source_target_pairs, _read_clang8_targets,
      _yield_lang8_raw_dicts.
    fold output_path targets (raw_path lang8_dir).
    rewrite lookup_insert_ne, Hcontent, Hbuilt by done.
    rewrite lookup_insert_ne, Hmissing by done. done.
Qed.

Lemma failures_before_the_first_pair_witness :
  let output_path := output_path_of "./output_data" "de" true in
  @_prepare_clang8 externals_without_output_dir
      (scenario_fs array_raw_line true true)
      "en" "./targets" "lang8" "./output_data" false =
    (scenario_fs array_raw_line true true,
     [] ++ [Open_write (output_path_of "./output_data" "en" false)],
     Some FileNotFoundError) /\
  @_prepare_clang8 fragment_externals (scenario_fs array_raw_line true true)
      "de" "./targets" "lang8" "./output_data" true =
    (<[output_path := EmptyString]> (scenario_fs array_raw_line true true),
     [Spacy_load "de_core_news_sm" disabled_components] ++
       [Open_write output_path; Open_read (targets_path "./targets" "de")],
     Some FileNotFoundError) /\
  @_prepare_clang8 fragment_externals
      {[ targets_path "./targets" "en" := targets_unsorted ]}
      "en" "./targets" "lang8" "./output_data" false =
    (<[output_path_of "./output_data" "en" false := EmptyString]>
       {[ targets_path "./targets" "en" := targets_unsorted ]},
     [] ++ [Open_write (output_path_of "./output_data" "en" false);
            Open_read (targets_path "./targets" "en");
            Print (Targets_read (count_targets (built_index unsorted_lines)));
            Open_read (raw_path "lang8")],
     Some FileNotFoundError).
Proof.
  intros output_path. split_and!.
  - exact (proj1 (@failures_before_the_first_pair externals_without_output_dir
                    (scenario_fs array_raw_line true true) "en" "en_core_web_sm"
                    "./targets" "lang8" "./output_data" false
                    ltac:(reflexivity) ltac:(discriminate))
             FileNotFoundError eq_refl).
  - apply (proj1 (proj2 (@failures_before_the_first_pair fragment_externals
                    (scenario_fs array_raw_line true true) "de" "de_core_news_sm"
                    "./targets" "lang8" "./output_data" true
                    ltac:(reflexivity) ltac:(reflexivity)) eq_refl)).
    vm_compute. reflexivity.
  - apply (proj2 (proj2 (proj2 (@failures_before_the_first_pair fragment_externals
                    {[ targets_path "./targets" "en" := targets_unsorted ]}
                    "en" "en_core_web_sm"
                    "./targets" "lang8" "./output_data" false
                    ltac:(reflexivity) ltac:(discriminate)) eq_refl))
             targets_unsorted (built_index unsorted_lines));
      vm_compute; reflexivity.
Defined.

(** *** [main]: one language after the other *)

Lemma prepare_languages_app `{!Externals} (flags : FLAGS.t)
    (before rest : list string) (fs fs1 : filesystem) (log1 : list main_event) :
  prepare_languages flags before fs = (fs1, log1, None) ->
  prepare_languages flags (before ++ rest) fs =
    (fst (fst (prepare_languages flags rest fs1)),
     log1 ++ snd (fst (prepare_languages flags rest fs1)),
     snd (prepare_languages flags rest fs1)).
Proof.
  revert fs fs1 log1. induction before as [|language before IH]; intros fs fs1 log1.
  - simpl. intros [= <- <-]. by destruct (prepare_languages flags rest fs) as [[??]?].
  - simpl.
    destruct (_prepare_clang8 fs language _ _ _ _) as [[fs' log] [e|]]; [done|].
    destruct (prepare_languages flags before fs') as [[fs'' log'] st'] eqn:Hbefore.
    intros [= <- <- ->]. rewrite (IH _ _ _ Hbefore). simpl.
    by rewrite <- app_assoc.
Qed.

(** [main] refuses extra command-line arguments before doing anything.
    Otherwise it prepares the languages in the order of the flag, and the
    first language whose preparation raises ends the whole run: the
    languages after it are not looked at, and the file system and the
    output are those of the failure. *)
Theorem main_stops_at_first_failure `{!Externals} (argv : list string)
    (flags : FLAGS.t) (fs : filesystem) :
  (1 < length argv -> main argv flags fs = (fs, [], Some UsageError)) /\
  (length argv <= 1 ->
   forall before language after fs1 log1 fs2 log2 e,
     FLAGS.languages flags = before ++ language :: after ->
     prepare_languages flags before fs = (fs1, log1, None) ->
     _prepare_clang8 fs1 language (FLAGS.clang8_dir flags) (FLAGS.lang8_dir flags)
       (FLAGS.output_dir flags) (FLAGS.tokenize_text flags) = (fs2, log2, Some e) ->
     main argv flags fs =
       (fs2, log1 ++ Print_language language :: map Preparing log2,
        Some (Uncaught e))).
Proof.
  unfold main. split.
  - intros Hargv. by destruct (Nat.ltb_spec 1 (length argv)); [|lia].
  - intros Hargv before language after fs1 log1 fs2 log2 e Hlanguages Hbefore Hfails.
    destruct (Nat.ltb_spec 1 (length argv)); [lia|].
    rewrite Hlanguages, (prepare_languages_app _ _ _ _ _ _ Hbefore). simpl.
    by rewrite Hfails.
Qed.

Lemma main_stops_at_first_failure_witness :
  @main fragment_externals ["prepare_clang8_dataset.py"] scenario_flags
      (scenario_fs array_raw_line true true) =
    (<[scenario_output_path := scenario_output]> (scenario_fs array_raw_line true true),
     [Print_language "en";
      Preparing (Open_write scenario_output_path);
      Preparing (Open_read (targets_path "./targets" "en"));
      Preparing (Print (Targets_read 1));
      Preparing (Open_read (raw_path "lang8"));
      Preparing (Print (Raw_documents_read 1));
      Preparing (Print (Sources_mapped 1));
      Preparing (Print (Wrote scenario_output_path))] ++
     Print_language "fr" :: map Preparing [],
     Some (Uncaught (ValueError (Unsupported_language "fr")))).
Proof.
  eapply (proj2 (@main_stops_at_first_failure fragment_externals
                   ["prepare_clang8_dataset.py"] scenario_flags
                   (scenario_fs array_raw_line true true)) ltac:(simpl; lia)
            ["en"] "fr" ["de"]);
    vm_compute; reflexivity.
Defined.

(** *** Line ends of the targets file *)

Lemma universal_newlines_plain (after_cr : bool) (c : ascii) (s : string) :
  c <> Py.cr -> c <> Py.lf ->
  Py.universal_newlines after_cr (String c s) =
    String c (Py.universal_newlines false s).
Proof.
  intros Hcr%Ascii.eqb_neq Hlf%Ascii.eqb_neq. simpl. by rewrite Hcr, Hlf.
Qed.

(** Text mode turns a carriage return or a line feed into a line feed, or
    drops it, and leaves any other character. *)
Lemma universal_newlines_head (c : ascii) (s : string) :
  (c = Py.cr \/ c = Py.lf) /\
    Py.universal_newlines false (String c s) =
      String Py.lf (Py.universal_newlines (Ascii.eqb c Py.cr) s) \/
  (c <> Py.cr /\ c <> Py.lf) /\
    Py.universal_newlines false (String c s) =
      String c (Py.universal_newlines false s).
Proof.
  destruct (Ascii.eqb_spec c Py.cr) as [->|Hcr]; [left; by split; [left|]|].
  destruct (Ascii.eqb_spec c Py.lf) as [->|Hlf]; [left; by split; [right|]|].
  right. split; [done|]. by apply universal_newlines_plain.
Qed.

Lemma is_next_line_lf (c : ascii) : Py.is_next_line c Py.lf = false.
Proof. unfold Py.is_next_line. simpl. apply andb_false_r. Qed.

Lemma is_next_line_cr (c : ascii) : Py.is_next_line c Py.cr = false.
Proof. unfold Py.is_next_line. simpl. apply andb_false_r. Qed.

Lemma is_separator_lf (c c3 : ascii) : Py.is_separator c Py.lf c3 = false.
Proof. unfold Py.is_separator. simpl. by rewrite andb_false_r. Qed.

Lemma is_separator_cr (c c3 : ascii) : Py.is_separator c Py.cr c3 = false.
Proof. unfold Py.is_separator. simpl. by rewrite andb_false_r. Qed.

Lemma is_separator_then_lf (c c2 : ascii) : Py.is_separator c c2 Py.lf = false.
Proof. unfold Py.is_separator. simpl. apply andb_false_r. Qed.

Lemma is_separator_then_cr (c c2 : ascii) : Py.is_separator c c2 Py.cr = false.
Proof. unfold Py.is_separator. simpl. apply andb_false_r. Qed.

(** The lines of what follows a character that ends no line, when the
    next character is a carriage return or a line feed. *)
Lemma splitlines_before_newline (c c2 : ascii) (s : string) :
  c <> Py.lf -> Py.is_linebreak c = false -> c2 = Py.cr \/ c2 = Py.lf ->
  Py.splitlines_from false (String c (String c2 s)) =
    Py.line_cons c (Py.splitlines_from false (String c2 s)).
Proof.
  intros Hlf%Ascii.eqb_neq Hbreak Hc2.
  change (Py.splitlines_from false (String c (String c2 s))) with
    (if Ascii.eqb c Py.lf && false then Py.splitlines_from false (String c2 s)
     else if Py.is_linebreak c
          then EmptyString :: Py.splitlines_from (Ascii.eqb c Py.cr) (String c2 s)
          else if Py.is_next_line c c2 then EmptyString :: Py.splitlines_from false s
               else match s with
                    | String c3 s3 =>
                        if Py.is_separator c c2 c3
                        then EmptyString :: Py.splitlines_from false s3
                        else Py.line_cons c (Py.splitlines_from false (String c2 s))
                    | EmptyString =>
                        Py.line_cons c (Py.splitlines_from false (String c2 s))
                    end).
  rewrite Hlf, Hbreak. simpl andb. cbv iota.
  destruct Hc2 as [-> | ->].
  - rewrite is_next_line_cr. destruct s as [|c3 s3]; [done|].
    by rewrite is_separator_cr.
  - rewrite is_next_line_lf. destruct s as [|c3 s3]; [done|].
    by rewrite is_separator_lf.
Qed.

Lemma splitlines_universal_newlines_upto (n : nat) (after_cr : bool) (s : string) :
  String.length s <= n ->
  Py.splitlines_from false (Py.universal_newlines after_cr s) =
    Py.splitlines_from after_cr s.
Proof.
  revert after_cr s. induction n as [|n IH]; intros after_cr s Hn.
  { destruct s; [done|simpl in Hn; lia]. }
  destruct s as [|c s]; [done|]. simpl in Hn.
  assert (forall b, Py.splitlines_from false (Py.universal_newlines b s) =
                    Py.splitlines_from b s) as IHs by (intros b; apply IH; lia).
  destruct (Ascii.eqb_spec c Py.cr) as [->|Hcr].
  { simpl. by rewrite IHs. }
  destruct (Ascii.eqb_spec c Py.lf) as [->|Hlf].
  { destruct after_cr; simpl; by rewrite IHs. }
  rewrite (universal_newlines_plain _ _ _ Hcr Hlf).
  assert (Py.splitlines_from after_cr (String c s) =
            Py.splitlines_from false (String c s)) as ->.
  { simpl. apply Ascii.eqb_neq in Hlf. by rewrite Hlf. }
  destruct (Py.is_linebreak c) eqn:Hbreak.
  { simpl. apply Ascii.eqb_neq in Hlf, Hcr. by rewrite Hlf, Hbreak, Hcr, IHs. }
  destruct s as [|c2 s2]; [done|]. simpl in Hn.
  assert (forall b, Py.splitlines_from false (Py.universal_newlines b s2) =
                    Py.splitlines_from b s2) as IHs2 by (intros b; apply IH; lia).
  destruct (universal_newlines_head c2 s2) as [[Hc2 Hhead]|[[Hcr2 Hlf2] Hhead]].
  { (* a line end follows *)
    rewrite (splitlines_before_newline c c2 s2 Hlf Hbreak Hc2).
    rewrite <- (IHs false), Hhead.
    by rewrite (splitlines_before_newline c Py.lf _ Hlf Hbreak (or_intror eq_refl)). }
  rewrite Hhead.
  change (Py.splitlines_from false (String c (String c2 ?t))) with
    (if Ascii.eqb c Py.lf && false then Py.splitlines_from false (String c2 t)
     else if Py.is_linebreak c
          then EmptyString :: Py.splitlines_from (Ascii.eqb c Py.cr) (String c2 t)
          else if Py.is_next_line c c2 then EmptyString :: Py.splitlines_from false t
               else match t with
                    | String c3 s3 =>
                        if Py.is_separator c c2 c3
                        then EmptyString :: Py.splitlines_from false s3
                        else Py.line_cons c (Py.splitlines_from false (String c2 t))
                    | EmptyString =>
                        Py.line_cons c (Py.splitlines_from false (String c2 t))
                    end).
  rewrite Hbreak, andb_false_r. rewrite <- Hhead, (IHs false).
  destruct (Py.is_next_line c c2); [by rewrite IHs2|].
  destruct s2 as [|c3 s3]; [done|]. simpl in Hn.
  destruct (universal_newlines_head c3 s3) as [[Hc3 ->]|[_ ->]].
  - rewrite is_separator_then_lf.
    by destruct Hc3 as [-> | ->];
      rewrite ?is_separator_then_cr, ?is_separator_then_lf.
  - destruct (Py.is_separator c c2 c3); [|done].
    f_equal. apply IH. lia.
Qed.

Lemma splitlines_universal_newlines (after_cr : bool) (s : string) :
  Py.splitlines_from false (Py.universal_newlines after_cr s) =
    Py.splitlines_from after_cr s.
Proof. by apply (splitlines_universal_newlines_upto (String.length s)). Qed.

(** The builder sees the lines of the file, not their terminators: two
    targets files with the same lines, be they ended by LF, CR LF or CR,
    give the same result. *)
Theorem line_ends_do_not_matter (fs fs' : filesystem) (path content content' : string) :
  fs !! path = Some content ->
  fs' !! path = Some content' ->
  Py.splitlines content = Py.splitlines content' ->
  _read_clang8_targets fs path = _read_clang8_targets fs' path.
Proof.
  intros Hc Hc' Hlines. unfold _read_clang8_targets. rewrite Hc, Hc'.
  unfold Py.read_text, Py.splitlines in *.
  rewrite !splitlines_universal_newlines. by rewrite Hlines.
Qed.

Lemma line_ends_do_not_matter_witness :
  _read_clang8_targets {[ targets_path "./targets" "en" := targets_unsorted ]}
      (targets_path "./targets" "en") =
  _read_clang8_targets {[ targets_path "./targets" "en" := targets_unsorted_crlf ]}
      (targets_path "./targets" "en").
Proof.
  apply (line_ends_do_not_matter
           {[ targets_path "./targets" "en" := targets_unsorted ]}
           {[ targets_path "./targets" "en" := targets_unsorted_crlf ]}
           (targets_path "./targets" "en") targets_unsorted targets_unsorted_crlf);
    vm_compute; reflexivity.
Defined.

(** *** Lines of the raw corpus that do not parse *)

(** A line of the raw corpus on which [json.loads] raises
    [JSONDecodeError] leaves no trace: two raw corpora on whose lines
    [json.loads] does the same, such lines left out, give with the same
    targets file the same pairs, the same messages and the same end of the
    join. *)
Theorem unparsable_lines_leave_no_trace `{!Externals} (fs fs' : filesystem)
    (clang8_path lang8_raw_dir content content' : string) :
  fs !! clang8_path = fs' !! clang8_path ->
  fs !! raw_path lang8_raw_dir = Some content ->
  fs' !! raw_path lang8_raw_dir = Some content' ->
  loaded (Py.iter_lines (Py.read_text content)) =
    loaded (Py.iter_lines (Py.read_text content')) ->
  _yield_clang8_source_target_pairs fs clang8_path lang8_raw_dir =
    _yield_clang8_source_target_pairs fs' clang8_path lang8_raw_dir.
Proof.
  intros Htargets Hraw Hraw' Hrows.
  unfold _yield_clang8_source_target_pairs, _read_clang8_targets, _yield_lang8_raw_dicts.
  fold (raw_path lang8_raw_dir).
  by rewrite Htargets, Hraw, Hraw', (raw_rows_loaded _ _ 0 Hrows).
Qed.

Lemma unparsable_lines_leave_no_trace_witness :
  @_yield_clang8_source_target_pairs fragment_externals
      {[ raw_path "lang8" := corpus_with_garbage;
         targets_path "./targets" "en" := targets_unsorted ]}
      (targets_path "./targets" "en") "lang8" =
  @_yield_clang8_source_target_pairs fragment_externals
      {[ raw_path "lang8" := corpus_without_garbage;
         targets_path "./targets" "en" := targets_unsorted ]}
      (targets_path "./targets" "en") "lang8".
Proof.
  apply (@unparsable_lines_leave_no_trace fragment_externals
           {[ raw_path "lang8" := corpus_with_garbage;
              targets_path "./targets" "en" := targets_unsorted ]}
           {[ raw_path "lang8" := corpus_without_garbage;
              targets_path "./targets" "en" := targets_unsorted ]}
           (targets_path "./targets" "en") "lang8"
           corpus_with_garbage corpus_without_garbage);
    vm_compute; reflexivity.
Defined.

(** *** A whole run without tokenization *)

(** How the stages compose when tokenization is off: for a supported
    language, when the join yields pairs of strings and runs to its end,
    the run ends normally and the output file holds one line per pair of the
    join, in order: the cleaned source, a tab, the cleaned target. *)
Theorem untokenized_run `{!Externals} (fs : filesystem)
    (language model clang8_targets_dir lang8_dir output_dir : string)
    (steps : list (item (value * value))) (pairs : list (string * string)) :
  let output_path := output_path_of output_dir language false in
  model_path_of language = Ok model ->
  open_for_writing output_path = None ->
  _yield_clang8_source_target_pairs (<[output_path := EmptyString]> fs)
    (targets_path clang8_targets_dir language) lang8_dir = (steps, None) ->
  yields steps = map text_pair pairs ->
  fst (fst (_prepare_clang8 fs language clang8_targets_dir lang8_dir output_dir false))
    = <[output_path := tsv_text pairs]> fs /\
  snd (_prepare_clang8 fs language clang8_targets_dir lang8_dir output_dir false)
    = None.
Proof.
  intros output_path Hmodel Hopen Hjoin Hyields.
  rewrite (prepare_unfold _ _ _ _ _ _ _ Hmodel).
  unfold _write_source_target_pairs_to_tsv. fold output_path.
  rewrite Hopen, Hjoin.
  assert (forall written,
            snd (fst (write_pairs steps None written)) =
              written +:+ tsv_text pairs /\
            snd (write_pairs steps None written) = None) as Hwritten.
  { clear Hjoin. revert pairs Hyields.
    induction steps as [|[e|[source target]] steps IH]; intros pairs Hyields written.
    - destruct pairs; [|done]. simpl. by rewrite string_app_nil_r.
    - simpl in *. specialize (IH pairs Hyields written).
      by destruct (write_pairs steps None written) as [[log w] st].
    - destruct pairs as [|[s t] pairs]; [done|]. simpl in Hyields.
      injection Hyields as -> -> Hyields. simpl write_pairs.
      destruct (IH pairs Hyields
                  (written +:+ _clean_spaces s +:+ String Py.tab (_clean_spaces t)
                     +:+ String Py.lf EmptyString)) as [Hw Hst].
      rewrite Hw, Hst. split; [|done]. simpl tsv_text.
      by rewrite string_app_assoc. }
  destruct (Hwritten EmptyString) as [Hw Hst].
  destruct (write_pairs steps None EmptyString) as [[log written] st].
  simpl in *. subst. by rewrite insert_insert_eq.
Qed.

Lemma untokenized_run_witness :
  let fs : filesystem :=
    {[ raw_path "lang8" := corpus_with_garbage;
       targets_path "./targets" "en" := targets_unsorted ]} in
  fst (fst (@_prepare_clang8 fragment_externals fs "en" "./targets" "lang8"
              "./output_data" false))
    = <[output_path_of "./output_data" "en" false :=
          tsv_text [("Next sentence.", "Next sentence!");
                    ("Hello wrold.", "Hello world.")]]> fs /\
  snd (@_prepare_clang8 fragment_externals fs "en" "./targets" "lang8"
         "./output_data" false) = None.
Proof.
  intros fs.
  eapply (@untokenized_run fragment_externals fs "en" "en_core_web_sm" "./targets"
            "lang8" "./output_data");
    vm_compute; reflexivity.
Defined.
